(** * ChangesReader: the long-poll loop over a database's changes feed

    Shallow embedding of the two copies of the reader that the repository
    holds:

    - [Lib]   : src/lib/changesreader.js   (options [include_docs] and
                [maxChanges], change counter [numChanges]);
    - [Part0] : src/unnamed/part_000       ([stop], [get], flags
                [continue] and [stopOnEmptyChanges]).

    Both drive [async.doWhilst(iteratee, test, callback)] of async 2.x,
    whose test is a plain function: the iteratee sends one request, the
    request's callback publishes events and calls [next]; [next(err)]
    with a truthy argument runs the final callback, otherwise it runs
    [test] and either calls the iteratee again or runs the final
    callback.

    Modelling conventions.
    - A reader is a record of its fields; the emitter [ee] is the number
      of the [EventEmitter] allocated by [setDefaults].
    - The loop is a machine: the reader together with the request that is
      in flight (if any).  Inputs are the calls of the public methods and
      the transport's callback [Reply err data]; outputs are the requests
      handed to the transport and the events given to [ee.emit], in order.
    - [emit] appends to the output: listeners are taken to return normally
      and an [error] listener to be attached.  A call of [stop] made by a
      listener has the effect of [CallStop] before the [Reply]: the
      callback reads [continue] only in the loop's test.
    - JavaScript numbers are modelled on the integers plus [NaN], which
      is exact up to [2^53]; the values of options and of [last_seq] are
      absent, [null], booleans, numbers or strings; a [results]
      property, when present, is a list. *)

From Stdlib Require Import ZArith List String Ascii Bool Lia.
Import ListNotations.
Local Open Scope Z_scope.

(* ------------------------------------------------------------------ *)
(** ** The fragment of JavaScript values the reader handles *)

Module Js.

Inductive Num : Type :=
| NaN
| Fin (z : Z).

Inductive Val : Type :=
| Undefined
| Null
| Boolean (b : bool)
| Number (n : Num)
| Str (s : string).

(** ToBoolean: what [if (v)] and [v && ...] test. *)
Definition truthy (v : Val) : bool :=
  match v with
  | Undefined | Null => false
  | Boolean b => b
  | Number NaN => false
  | Number (Fin z) => negb (z =? 0)
  | Str s => negb (String.eqb s EmptyString)
  end.

(** [a === b] on primitives. *)
Definition strict_eq (a b : Val) : bool :=
  match a, b with
  | Undefined, Undefined => true
  | Null, Null => true
  | Boolean x, Boolean y => Bool.eqb x y
  | Number (Fin x), Number (Fin y) => x =? y
  | Str x, Str y => String.eqb x y
  | _, _ => false
  end.

(** Built-ins of the host that the reader calls and this file leaves
    open: ToNumber on strings and [encodeURIComponent]. *)
Class Host : Type := {
  string_to_number : string -> Num;
  encodeURIComponent : string -> string
}.

(** ToNumber. *)
Definition to_number {host : Host} (v : Val) : Num :=
  match v with
  | Undefined => NaN
  | Null => Fin 0
  | Boolean true => Fin 1
  | Boolean false => Fin 0
  | Number n => n
  | Str s => string_to_number s
  end.

(** [a < b] on numbers: false as soon as one side is NaN. *)
Definition num_lt (a b : Num) : bool :=
  match a, b with
  | Fin x, Fin y => x <? y
  | _, _ => false
  end.

Definition num_le (a b : Num) : bool :=
  match a, b with
  | Fin x, Fin y => x <=? y
  | _, _ => false
  end.

(** [a - b]. *)
Definition num_sub (a b : Num) : Num :=
  match a, b with
  | Fin x, Fin y => Fin (x - y)
  | _, _ => NaN
  end.

(** [Math.min(a, b)]. *)
Definition num_min (a b : Num) : Num :=
  match a, b with
  | Fin x, Fin y => Fin (Z.min x y)
  | _, _ => NaN
  end.

End Js.

(* ------------------------------------------------------------------ *)
(** ** Data exchanged with the transport and with the listeners *)

(** One entry of [results]. *)
Record Change : Type := {
  id : string;
  changes : list string;
  doc : option string;
  deleted : option bool
}.

(** The decoded body of a successful exchange; [results = None] is a body
    without a [results] property. *)
Record Response : Type := {
  results : option (list Change);
  last_seq : Js.Val;
  pending : option Z
}.

(** The [err] object of a failed exchange; [None] is an absent property. *)
Record Failure : Type := {
  statusCode : option Z;
  reason : option string
}.

(** The [opts] object of [start] and [get]; [Js.Undefined] is an omitted
    property. *)
Record Opts : Type := {
  opt_batchSize : Js.Val;
  opt_since : Js.Val;
  opt_include_docs : Js.Val;
  opt_maxChanges : Js.Val
}.

Definition no_opts : Opts :=
  {| opt_batchSize := Js.Undefined; opt_since := Js.Undefined;
     opt_include_docs := Js.Undefined; opt_maxChanges := Js.Undefined |}.

(** The query string of a request. *)
Record Query : Type := {
  feed : string;
  q_timeout : Z;
  q_since : Js.Val;
  limit : Js.Val;
  q_heartbeat : Z;
  seq_interval : Js.Val;
  q_include_docs : Js.Val
}.

Record Request : Type := {
  method : string;
  path : string;
  qs : Query
}.

Inductive Event : Type :=
| EChange (c : Change)
| EBatch (cs : list Change)
| ESeq (position : Js.Val)
| EError (err : option Failure)
| EEnd.

Inductive Output : Type :=
| Send (req : Request)
| Emit (e : Event).

(** [x && ...] on the optional properties of [err]. *)
Definition truthy_status (s : option Z) : bool :=
  match s with
  | Some c => negb (c =? 0)
  | None => false
  end.

Definition truthy_reason (s : option string) : bool :=
  match s with
  | Some t => negb (String.eqb t EmptyString)
  | None => false
  end.

(** [for (var i in data.results) emit('change', data.results[i])] followed
    by [emit('batch', data.results)]. *)
Definition emit_results (rs : list Change) : list Event :=
  map EChange rs ++ [EBatch rs].

(** Observations on an output trace. *)
Definition is_change (o : Output) : bool :=
  match o with Emit (EChange _) => true | _ => false end.

Definition is_end (o : Output) : bool :=
  match o with Emit EEnd => true | _ => false end.

Definition is_seq (o : Output) : bool :=
  match o with Emit (ESeq _) => true | _ => false end.

Definition is_send (o : Output) : bool :=
  match o with Send _ => true | _ => false end.

Definition count (p : Output -> bool) (out : list Output) : Z :=
  Z.of_nat (List.length (filter p out)).

Definition sends (out : list Output) : list Request :=
  flat_map (fun o => match o with Send q => [q] | _ => [] end) out.

(* ------------------------------------------------------------------ *)
(** ** src/lib/changesreader.js *)

Module Lib.

Record Reader : Type := {
  db : string;
  ee : nat;
  batchSize : Js.Val;
  since : Js.Val;
  include_docs : Js.Val;
  timeout : Z;
  heartbeat : Z;
  started : bool;
  maxChanges : Js.Val;
  numChanges : Z
}.

(** [setDefaults]: a new emitter and the default value of every field. *)
Definition setDefaults (r : Reader) : Reader :=
  {| db := db r;
     ee := S (ee r);
     batchSize := Js.Number (Js.Fin 100);
     since := Js.Str "now";
     include_docs := Js.Boolean false;
     timeout := 60000;
     heartbeat := 5000;
     started := false;
     maxChanges := Js.Number (Js.Fin 0);
     numChanges := 0 |}.

(** [constructor(db, request)]. *)
Definition constructor (name : string) : Reader :=
  setDefaults
    {| db := name; ee := 0%nat; batchSize := Js.Undefined;
       since := Js.Undefined; include_docs := Js.Undefined;
       timeout := 0; heartbeat := 0; started := false;
       maxChanges := Js.Undefined; numChanges := 0 |}.

Definition set_started (b : bool) (r : Reader) : Reader :=
  {| db := db r; ee := ee r; batchSize := batchSize r; since := since r;
     include_docs := include_docs r; timeout := timeout r;
     heartbeat := heartbeat r; started := b;
     maxChanges := maxChanges r; numChanges := numChanges r |}.

Definition set_batchSize (v : Js.Val) (r : Reader) : Reader :=
  {| db := db r; ee := ee r; batchSize := v; since := since r;
     include_docs := include_docs r; timeout := timeout r;
     heartbeat := heartbeat r; started := started r;
     maxChanges := maxChanges r; numChanges := numChanges r |}.

Definition set_since (v : Js.Val) (r : Reader) : Reader :=
  {| db := db r; ee := ee r; batchSize := batchSize r; since := v;
     include_docs := include_docs r; timeout := timeout r;
     heartbeat := heartbeat r; started := started r;
     maxChanges := maxChanges r; numChanges := numChanges r |}.

Definition set_include_docs (v : Js.Val) (r : Reader) : Reader :=
  {| db := db r; ee := ee r; batchSize := batchSize r; since := since r;
     include_docs := v; timeout := timeout r;
     heartbeat := heartbeat r; started := started r;
     maxChanges := maxChanges r; numChanges := numChanges r |}.

Definition set_maxChanges (v : Js.Val) (r : Reader) : Reader :=
  {| db := db r; ee := ee r; batchSize := batchSize r; since := since r;
     include_docs := include_docs r; timeout := timeout r;
     heartbeat := heartbeat r; started := started r;
     maxChanges := v; numChanges := numChanges r |}.

Definition set_numChanges (n : Z) (r : Reader) : Reader :=
  {| db := db r; ee := ee r; batchSize := batchSize r; since := since r;
     include_docs := include_docs r; timeout := timeout r;
     heartbeat := heartbeat r; started := started r;
     maxChanges := maxChanges r; numChanges := n |}.

(** The reader and the request whose callback has not run yet. *)
Record Machine : Type := {
  reader : Reader;
  inflight : option Request
}.

Inductive Input : Type :=
| CallStart (opts : option Opts)
| Reply (err : option Failure) (data : option Response).

(** How the request's callback ends: it calls [next] with an argument,
    returns without calling it, or throws on [err.statusCode] of an
    absent [err]. *)
Inductive Completion : Type :=
| CallsNext (arg : option string)
| Returns
| Throws.

Section WithHost.
Context {host : Js.Host}.

(** [if (opts.x) self.x = opts.x], four times. *)
Definition override (o : Opts) (r : Reader) : Reader :=
  let r1 := if Js.truthy (opt_batchSize o)
            then set_batchSize (opt_batchSize o) r else r in
  let r2 := if Js.truthy (opt_since o)
            then set_since (opt_since o) r1 else r1 in
  let r3 := if Js.truthy (opt_include_docs o)
            then set_include_docs (opt_include_docs o) r2 else r2 in
  if Js.truthy (opt_maxChanges o)
  then set_maxChanges (opt_maxChanges o) r3 else r3.

(** The page size of the next request. *)
Definition page_limit (r : Reader) : Js.Val :=
  if Js.truthy (maxChanges r)
  then Js.Number
         (Js.num_min (Js.to_number (batchSize r))
            (Js.num_sub (Js.to_number (maxChanges r))
               (Js.Fin (numChanges r))))
  else batchSize r.

(** The request built by the iteratee. *)
Definition iteratee (r : Reader) : Request :=
  {| method := "get";
     path := Js.encodeURIComponent (db r) ++ "/_changes";
     qs := {| feed := "longpoll";
              q_timeout := timeout r;
              q_since := since r;
              limit := page_limit r;
              q_heartbeat := heartbeat r;
              seq_interval := batchSize r;
              q_include_docs := include_docs r |} |}.

(** [if (data.results && data.results.length > 0)]: change and batch
    events, and the counter. *)
Definition publish_results (d : Response) (r : Reader)
  : Reader * list Event :=
  match results d with
  | Some (c :: cs) =>
      (set_numChanges
         (numChanges r + Z.of_nat (List.length (c :: cs))) r,
       emit_results (c :: cs))
  | _ => (r, [])
  end.

(** [if (data.last_seq && data.last_seq !== self.since)]. *)
Definition update_since (d : Response) (r : Reader)
  : Reader * list Event :=
  if Js.truthy (last_seq d) && negb (Js.strict_eq (last_seq d) (since r))
  then (set_since (last_seq d) r, [ESeq (last_seq d)])
  else (r, []).

(** [err.statusCode && err.statusCode >= 400 && err.statusCode !== 429]. *)
Definition fatal (e : Failure) : bool :=
  truthy_status (statusCode e) &&
  match statusCode e with
  | Some c => (400 <=? c) && negb (c =? 429)
  | None => false
  end.

(** The callback given to [self.request]. *)
Definition callback (r : Reader) (err : option Failure)
    (data : option Response) : Reader * list Event * Completion :=
  match err, data with
  | None, Some d =>
      let (r1, ev1) := publish_results d r in
      let (r2, ev2) := update_since d r1 in
      (r2, ev1 ++ ev2, CallsNext None)
  | Some e, _ =>
      (r, [EError err],
       if fatal e then CallsNext (reason e) else Returns)
  | None, None =>
      (r, [EError err], Throws)
  end.

(** The test function of [doWhilst]. *)
Definition test (r : Reader) : bool :=
  Js.strict_eq (maxChanges r) (Js.Number (Js.Fin 0)) ||
  Js.num_lt (Js.Fin (numChanges r)) (Js.to_number (maxChanges r)).

(** [next] of [doWhilst]. *)
Definition next (r : Reader) (arg : option string)
  : Machine * list Output :=
  if truthy_reason arg
  then ({| reader := setDefaults r; inflight := None |}, [])
  else if test r
  then ({| reader := r; inflight := Some (iteratee r) |},
        [Send (iteratee r)])
  else ({| reader := setDefaults r; inflight := None |}, []).

(** [start(opts)]. *)
Definition start (m : Machine) (opts : option Opts)
  : Machine * list Output :=
  if started (reader m) then (m, [])
  else
    let o := match opts with Some o => o | None => no_opts end in
    let r := override o (set_started true (reader m)) in
    ({| reader := r; inflight := Some (iteratee r) |},
     [Send (iteratee r)]).

(** The transport runs the callback of the request in flight. *)
Definition deliver (m : Machine) (err : option Failure)
    (data : option Response) : Machine * list Output :=
  match inflight m with
  | None => (m, [])
  | Some _ =>
      let '(r, evs, c) := callback (reader m) err data in
      match c with
      | CallsNext arg =>
          let (m', out) := next r arg in (m', map Emit evs ++ out)
      | Returns | Throws =>
          ({| reader := r; inflight := None |}, map Emit evs)
      end
  end.

Definition step (m : Machine) (i : Input) : Machine * list Output :=
  match i with
  | CallStart opts => start m opts
  | Reply err data => deliver m err data
  end.

Fixpoint run (m : Machine) (ins : list Input) : Machine * list Output :=
  match ins with
  | [] => (m, [])
  | i :: rest =>
      let (m1, o1) := step m i in
      let (m2, o2) := run m1 rest in
      (m2, o1 ++ o2)
  end.

(** The server returns at most one page per request: a result list is
    no longer than the [limit] of the request it answers. *)
Definition one_page (m : Machine) (i : Input) : bool :=
  match i, inflight m with
  | Reply None (Some d), Some q =>
      match results d with
      | Some rs =>
          Js.num_le (Js.Fin (Z.of_nat (List.length rs)))
            (Js.to_number (limit (qs q)))
      | None => true
      end
  | _, _ => true
  end.

Fixpoint one_page_each (m : Machine) (ins : list Input) : bool :=
  match ins with
  | [] => true
  | i :: rest => one_page m i && one_page_each (fst (step m i)) rest
  end.

End WithHost.

(** A new reader, nothing in flight. *)
Definition new (name : string) : Machine :=
  {| reader := constructor name; inflight := None |}.

End Lib.

(* ------------------------------------------------------------------ *)
(** ** src/unnamed/part_000 *)

Module Part0.

Record Reader : Type := {
  db : string;
  ee : nat;
  batchSize : Js.Val;
  since : Js.Val;
  include_docs : Js.Val;
  timeout : Z;
  heartbeat : Z;
  started : bool;
  stopOnEmptyChanges : bool;
  continue : bool
}.

(** [setDefaults]. *)
Definition setDefaults (r : Reader) : Reader :=
  {| db := db r;
     ee := S (ee r);
     batchSize := Js.Number (Js.Fin 100);
     since := Js.Str "now";
     include_docs := Js.Boolean false;
     timeout := 60000;
     heartbeat := 5000;
     started := false;
     stopOnEmptyChanges := false;
     continue := true |}.

(** [constructor(db, request)]. *)
Definition constructor (name : string) : Reader :=
  setDefaults
    {| db := name; ee := 0%nat; batchSize := Js.Undefined;
       since := Js.Undefined; include_docs := Js.Undefined;
       timeout := 0; heartbeat := 0; started := false;
       stopOnEmptyChanges := false; continue := false |}.

Definition set_started (b : bool) (r : Reader) : Reader :=
  {| db := db r; ee := ee r; batchSize := batchSize r; since := since r;
     include_docs := include_docs r; timeout := timeout r;
     heartbeat := heartbeat r; started := b;
     stopOnEmptyChanges := stopOnEmptyChanges r; continue := continue r |}.

Definition set_batchSize (v : Js.Val) (r : Reader) : Reader :=
  {| db := db r; ee := ee r; batchSize := v; since := since r;
     include_docs := include_docs r; timeout := timeout r;
     heartbeat := heartbeat r; started := started r;
     stopOnEmptyChanges := stopOnEmptyChanges r; continue := continue r |}.

Definition set_since (v : Js.Val) (r : Reader) : Reader :=
  {| db := db r; ee := ee r; batchSize := batchSize r; since := v;
     include_docs := include_docs r; timeout := timeout r;
     heartbeat := heartbeat r; started := started r;
     stopOnEmptyChanges := stopOnEmptyChanges r; continue := continue r |}.

Definition set_stopOnEmptyChanges (b : bool) (r : Reader) : Reader :=
  {| db := db r; ee := ee r; batchSize := batchSize r; since := since r;
     include_docs := include_docs r; timeout := timeout r;
     heartbeat := heartbeat r; started := started r;
     stopOnEmptyChanges := b; continue := continue r |}.

Definition set_continue (b : bool) (r : Reader) : Reader :=
  {| db := db r; ee := ee r; batchSize := batchSize r; since := since r;
     include_docs := include_docs r; timeout := timeout r;
     heartbeat := heartbeat r; started := started r;
     stopOnEmptyChanges := stopOnEmptyChanges r; continue := b |}.

Record Machine : Type := {
  reader : Reader;
  inflight : option Request
}.

Inductive Input : Type :=
| CallStart (opts : option Opts)
| CallGet (opts : option Opts)
| CallStop
| Reply (err : option Failure) (data : option Response).

Section WithHost.
Context {host : Js.Host}.

(** [if (opts.x) self.x = opts.x], for [batchSize] and [since]. *)
Definition override (o : Opts) (r : Reader) : Reader :=
  let r1 := if Js.truthy (opt_batchSize o)
            then set_batchSize (opt_batchSize o) r else r in
  if Js.truthy (opt_since o)
  then set_since (opt_since o) r1 else r1.

(** The request built by the iteratee. *)
Definition iteratee (r : Reader) : Request :=
  {| method := "get";
     path := Js.encodeURIComponent (db r) ++ "/_changes";
     qs := {| feed := "longpoll";
              q_timeout := timeout r;
              q_since := since r;
              limit := batchSize r;
              q_heartbeat := heartbeat r;
              seq_interval := batchSize r;
              q_include_docs := include_docs r |} |}.

(** [if (data.results && data.results.length > 0)]. *)
Definition publish_results (d : Response) : list Event :=
  match results d with
  | Some (c :: cs) => emit_results (c :: cs)
  | _ => []
  end.

(** [if (data.last_seq && data.last_seq !== self.since)]. *)
Definition update_since (d : Response) (r : Reader)
  : Reader * list Event :=
  if Js.truthy (last_seq d) && negb (Js.strict_eq (last_seq d) (since r))
  then (set_since (last_seq d) r, [ESeq (last_seq d)])
  else (r, []).

(** [typeof data.results !== 'undefined' &&
     data.results.length < self.batchSize]. *)
Definition short_page (d : Response) (r : Reader) : bool :=
  match results d with
  | Some rs =>
      Js.num_lt (Js.Fin (Z.of_nat (List.length rs)))
        (Js.to_number (batchSize r))
  | None => false
  end.

(** The end-of-feed check of get mode. *)
Definition stop_on_short_page (d : Response) (r : Reader)
  : Reader * list Event :=
  if stopOnEmptyChanges r && short_page d r
  then (set_continue false r, [EEnd])
  else (r, []).

(** [err && err.statusCode && err.statusCode >= 400 &&
     err.statusCode !== 429 && err.statusCode < 500]. *)
Definition fatal (err : option Failure) : bool :=
  match err with
  | Some e =>
      truthy_status (statusCode e) &&
      match statusCode e with
      | Some c => (400 <=? c) && negb (c =? 429) && (c <? 500)
      | None => false
      end
  | None => false
  end.

(** The callback given to [self.request]; it always calls [next], with
    the argument returned here. *)
Definition callback (r : Reader) (err : option Failure)
    (data : option Response) : Reader * list Event * option string :=
  match err, data with
  | None, Some d =>
      let ev1 := publish_results d in
      let (r2, ev2) := update_since d r in
      let (r3, ev3) := stop_on_short_page d r2 in
      (r3, ev1 ++ ev2 ++ ev3, None)
  | _, _ =>
      if fatal err
      then (set_continue false r, [EError err],
            match err with Some e => reason e | None => None end)
      else (r, [EError err], None)
  end.

(** The test function of [doWhilst]. *)
Definition test (r : Reader) : bool := continue r.

(** [next] of [doWhilst]. *)
Definition next (r : Reader) (arg : option string)
  : Machine * list Output :=
  if truthy_reason arg
  then ({| reader := setDefaults r; inflight := None |}, [])
  else if test r
  then ({| reader := r; inflight := Some (iteratee r) |},
        [Send (iteratee r)])
  else ({| reader := setDefaults r; inflight := None |}, []).

(** [stop()]. *)
Definition stop (m : Machine) : Machine :=
  {| reader := set_continue false (reader m); inflight := inflight m |}.

(** [start(opts)]. *)
Definition start (m : Machine) (opts : option Opts)
  : Machine * list Output :=
  if started (reader m) then (m, [])
  else
    let o := match opts with Some o => o | None => no_opts end in
    let r := override o (set_started true (reader m)) in
    ({| reader := r; inflight := Some (iteratee r) |},
     [Send (iteratee r)]).

(** [get(opts)]. *)
Definition get (m : Machine) (opts : option Opts)
  : Machine * list Output :=
  start {| reader := set_stopOnEmptyChanges true (reader m);
           inflight := inflight m |} opts.

(** The transport runs the callback of the request in flight. *)
Definition deliver (m : Machine) (err : option Failure)
    (data : option Response) : Machine * list Output :=
  match inflight m with
  | None => (m, [])
  | Some _ =>
      let '(r, evs, arg) := callback (reader m) err data in
      let (m', out) := next r arg in
      (m', map Emit evs ++ out)
  end.

Definition step (m : Machine) (i : Input) : Machine * list Output :=
  match i with
  | CallStart opts => start m opts
  | CallGet opts => get m opts
  | CallStop => (stop m, [])
  | Reply err data => deliver m err data
  end.

Fixpoint run (m : Machine) (ins : list Input) : Machine * list Output :=
  match ins with
  | [] => (m, [])
  | i :: rest =>
      let (m1, o1) := step m i in
      let (m2, o2) := run m1 rest in
      (m2, o1 ++ o2)
  end.

End WithHost.

(** A new reader, nothing in flight. *)
Definition new (name : string) : Machine :=
  {| reader := constructor name; inflight := None |}.

End Part0.

(* ------------------------------------------------------------------ *)
(** ** A host for evaluation: decimal digits, and names that need no
       escaping *)

Definition digit_of (c : ascii) : option Z :=
  let n := Z.of_nat (nat_of_ascii c) in
  if (48 <=? n) && (n <=? 57) then Some (n - 48) else None.

Fixpoint digits_value (acc : Z) (s : string) : Js.Num :=
  match s with
  | EmptyString => Js.Fin acc
  | String c rest =>
      match digit_of c with
      | Some d => digits_value (10 * acc + d) rest
      | None => Js.NaN
      end
  end.

Definition digits_host : Js.Host :=
  {| Js.string_to_number := digits_value 0;
     Js.encodeURIComponent := fun s => s |}.

(* ------------------------------------------------------------------ *)
(** ** Notions used by the statements *)

(** The events of a callback that concern the position: none when it is
    unchanged, one [seq] event carrying it when it changed. *)
Definition seq_events (before after : Js.Val) (evs : list Event) : Prop :=
  (after = before -> evs = []) /\ (after <> before -> evs = [ESeq after]).

(** The reader as the callback of an exchange leaves it, before [next]
    decides how the loop goes on. *)
Definition lib_after (r : Lib.Reader) (err : option Failure)
    (data : option Response) : Lib.Reader :=
  fst (fst (Lib.callback r err data)).

Definition part0_after {host : Js.Host} (r : Part0.Reader)
    (err : option Failure) (data : option Response) : Part0.Reader :=
  fst (fst (Part0.callback r err data)).

(** The [seq] events of a trace. *)
Definition seqs_of (out : list Output) : list Output := filter is_seq out.

(** What holds of every machine the public methods and the transport
    can produce: the request in flight is the one the iteratee builds from
    the reader, and the reader is started. *)
Definition part0_inv {host : Js.Host} (m : Part0.Machine) : Prop :=
  match Part0.inflight m with
  | Some q =>
      q = Part0.iteratee (Part0.reader m) /\
      Part0.started (Part0.reader m) = true
  | None => True
  end.

(** A failed exchange: the branch [else] of [if (!err && data)]. *)
Definition failed (err : option Failure) (data : option Response) : bool :=
  match err, data with
  | None, Some _ => false
  | _, _ => true
  end.

(** A value of [maxChanges] that sets the ceiling [M]: it is truthy, so
    that [if (self.maxChanges)] holds, and [M] is its value as a
    number. *)
Definition lib_ceiling {host : Js.Host} (v : Js.Val) (M : Z) : Prop :=
  Js.truthy v = true /\ Js.to_number v = Js.Fin M.


(** A reader of src/lib/changesreader.js in the middle of a run with
    batch size [B] and ceiling [M], [n] changes delivered, the request
    built from it in flight. *)
Definition lib_running {host : Js.Host} (B : Js.Val) (M n : Z)
    (m : Lib.Machine) : Prop :=
  Lib.inflight m = Some (Lib.iteratee (Lib.reader m)) /\
  Lib.batchSize (Lib.reader m) = B /\
  lib_ceiling (Lib.maxChanges (Lib.reader m)) M /\
  Lib.numChanges (Lib.reader m) = n.

(** Reading a trace from left to right with [n] changes delivered before
    it: each request is sent below the ceiling [M] with the batch size [B]
    clamped to what remains; with [bounded] set, the count also ends
    within the ceiling. *)
Fixpoint under_ceiling {host : Js.Host} (bounded : bool) (B : Js.Val)
    (M n : Z) (out : list Output) : Prop :=
  match out with
  | [] => if bounded then n <= M else True
  | Send q :: rest =>
      n < M /\
      limit (qs q) = Js.Number (Js.num_min (Js.to_number B) (Js.Fin (M - n)))
      /\ under_ceiling bounded B M n rest
  | Emit (EChange _) :: rest => under_ceiling bounded B M (n + 1) rest
  | Emit _ :: rest => under_ceiling bounded B M n rest
  end.

(** The transport's callbacks of a run without further calls of the
    public methods. *)
Definition lib_replies (rs : list (option Failure * option Response))
  : list Lib.Input :=
  map (fun p => Lib.Reply (fst p) (snd p)) rs.

(** The fields of a reader that no method assigns outside
    [setDefaults], for a reader built for the database [name]. *)
Definition part0_constants (name : string) (r : Part0.Reader) : Prop :=
  Part0.db r = name /\ Part0.timeout r = 60000 /\
  Part0.heartbeat r = 5000 /\ Part0.include_docs r = Js.Boolean false.

Definition lib_constants (name : string) (r : Lib.Reader) : Prop :=
  Lib.db r = name /\ Lib.timeout r = 60000 /\ Lib.heartbeat r = 5000.

(** The fixed part of a request of src/unnamed/part_000 for the database
    [name]. *)
Definition part0_wire {host : Js.Host} (name : string) (q : Request)
  : Prop :=
  method q = "get"%string /\
  path q = (Js.encodeURIComponent name ++ "/_changes")%string /\
  feed (qs q) = "longpoll"%string /\
  q_timeout (qs q) = 60000 /\
  q_heartbeat (qs q) = 5000 /\
  q_include_docs (qs q) = Js.Boolean false /\
  limit (qs q) = seq_interval (qs q).

(** The fixed part of a request of src/lib/changesreader.js. *)
Definition lib_wire {host : Js.Host} (name : string) (q : Request) : Prop :=
  method q = "get"%string /\
  path q = (Js.encodeURIComponent name ++ "/_changes")%string /\
  feed (qs q) = "longpoll"%string /\
  q_timeout (qs q) = 60000 /\
  q_heartbeat (qs q) = 5000.

(** A machine of src/unnamed/part_000 is either waiting for the callback
    of the request built from its reader, started, or has nothing in
    flight and a reader that is not started and holds the defaults. *)
Definition part0_settled {host : Js.Host} (m : Part0.Machine) : Prop :=
  match Part0.inflight m with
  | Some q =>
      q = Part0.iteratee (Part0.reader m) /\
      Part0.started (Part0.reader m) = true
  | None =>
      Part0.started (Part0.reader m) = false /\
      Part0.batchSize (Part0.reader m) = Js.Number (Js.Fin 100) /\
      Part0.since (Part0.reader m) = Js.Str "now" /\
      Part0.stopOnEmptyChanges (Part0.reader m) = false
  end.

(** In src/lib/changesreader.js a request in flight is the one built from
    the reader, and the reader is started. *)
Definition lib_inv {host : Js.Host} (m : Lib.Machine) : Prop :=
  match Lib.inflight m with
  | Some q =>
      q = Lib.iteratee (Lib.reader m) /\
      Lib.started (Lib.reader m) = true
  | None => True
  end.

(** What the payload of an event is never: an empty batch, a falsy
    position. *)
Definition payload_ok (o : Output) : Prop :=
  match o with
  | Emit (EBatch cs) => cs <> []
  | Emit (ESeq v) => Js.truthy v = true
  | _ => True
  end.

Definition is_get (i : Part0.Input) : bool :=
  match i with Part0.CallGet _ => true | _ => false end.

Definition is_error (o : Output) : bool :=
  match o with Emit (EError _) => true | _ => false end.

(** A step ends a run when it finds a request in flight and leaves
    none. *)
Definition part0_ends (m m' : Part0.Machine) : bool :=
  match Part0.inflight m, Part0.inflight m' with
  | Some _, None => true
  | _, _ => false
  end.

(** A reader of src/lib/changesreader.js holding the defaults. *)
Definition lib_defaults (r : Lib.Reader) : Prop :=
  Lib.batchSize r = Js.Number (Js.Fin 100) /\
  Lib.since r = Js.Str "now" /\
  Lib.include_docs r = Js.Boolean false /\
  Lib.maxChanges r = Js.Number (Js.Fin 0) /\
  Lib.numChanges r = 0.

(** A reader that is not started has nothing in flight and holds the
    defaults. *)
Definition lib_fresh_unless_started (m : Lib.Machine) : Prop :=
  Lib.started (Lib.reader m) = false ->
  Lib.inflight m = None /\ lib_defaults (Lib.reader m).

(** The replies of a run of src/unnamed/part_000 without further calls,
    the position each leaves and the records each brings. *)
Definition part0_replies (rs : list (option Failure * option Response))
  : list Part0.Input :=
  map (fun p => Part0.Reply (fst p) (snd p)) rs.

Definition next_position (pos : Js.Val)
    (p : option Failure * option Response) : Js.Val :=
  match p with
  | (None, Some d) => if Js.truthy (last_seq d) then last_seq d else pos
  | _ => pos
  end.

Fixpoint positions (pos : Js.Val)
    (rs : list (option Failure * option Response)) : list Js.Val :=
  match rs with
  | [] => []
  | p :: rest => next_position pos p :: positions (next_position pos p) rest
  end.

Definition records_of (p : option Failure * option Response)
  : list Change :=
  match p with
  | (None, Some d) => match results d with Some cs => cs | None => [] end
  | _ => []
  end.

Definition changes_of (out : list Output) : list Change :=
  flat_map (fun o => match o with Emit (EChange c) => [c] | _ => [] end) out.

Definition part0_successes (ds : list Response) : list Part0.Input :=
  map (fun d => Part0.Reply None (Some d)) ds.

Definition records_in (d : Response) : list Change :=
  match results d with Some cs => cs | None => [] end.

(** Successful replies only. *)
Definition lib_successes (ds : list Response) : list Lib.Input :=
  map (fun d => Lib.Reply None (Some d)) ds.

(** Sample data, after the repository's tests: change records, the reply
    with two changes, a reply without changes. *)
Definition change_of (name : string) : Change :=
  {| id := name; changes := ["1-1"%string]; doc := None; deleted := None |}.

Definition reply_of (rs : list Change) (seq : Js.Val) : Response :=
  {| results := Some rs; last_seq := seq; pending := Some 0 |}.

Definition two_changes : list Change := [change_of "1"; change_of "2"].

(* ------------------------------------------------------------------ *)
(** ** Facts about values and traces *)

Lemma strict_eq_eq (a b : Js.Val) : Js.strict_eq a b = true -> a = b.
Proof.
  destruct a as [| |x|[|x]|x], b as [| |y|[|y]|y]; simpl; try discriminate;
    intros H; try reflexivity.
  - apply Bool.eqb_prop in H. now subst.
  - apply Z.eqb_eq in H. now subst.
  - apply String.eqb_eq in H. now subst.
Qed.

Lemma strict_eq_refl_truthy (a : Js.Val) :
  Js.truthy a = true -> Js.strict_eq a a = true.
Proof.
  destruct a as [| |x|[|x]|x]; simpl; try discriminate; intros _.
  - now destruct x.
  - apply Z.eqb_refl.
  - apply String.eqb_refl.
Qed.

Lemma strict_eq_neq (a b : Js.Val) : a <> b -> Js.strict_eq a b = false.
Proof.
  intros H. destruct (Js.strict_eq a b) eqn:E; [|reflexivity].
  now apply strict_eq_eq in E.
Qed.

Lemma count_app (p : Output -> bool) (xs ys : list Output) :
  count p (xs ++ ys) = count p xs + count p ys.
Proof.
  unfold count. rewrite filter_app, length_app. lia.
Qed.

Lemma count_nonneg (p : Output -> bool) (xs : list Output) : 0 <= count p xs.
Proof. unfold count. lia. Qed.

Lemma count_changes_emit_results (rs : list Change) :
  count is_change (map Emit (emit_results rs)) = Z.of_nat (List.length rs).
Proof.
  unfold emit_results. rewrite map_app, count_app. simpl.
  replace (count is_change [Emit (EBatch rs)]) with 0 by reflexivity.
  rewrite Z.add_0_r. unfold count. f_equal.
  induction rs as [|c cs IH]; simpl; [reflexivity|]. now rewrite IH.
Qed.

Lemma sends_app (xs ys : list Output) : sends (xs ++ ys) = sends xs ++ sends ys.
Proof. unfold sends. apply flat_map_app. Qed.

Lemma sends_emit (evs : list Event) : sends (map Emit evs) = [].
Proof. induction evs as [|e evs IH]; simpl; [reflexivity|exact IH]. Qed.

Lemma lib_update_since_events (d : Response) (r : Lib.Reader) :
  seq_events (Lib.since r) (Lib.since (fst (Lib.update_since d r)))
    (snd (Lib.update_since d r)).
Proof.
  unfold Lib.update_since, seq_events.
  destruct (Js.truthy (last_seq d)) eqn:T; simpl.
  - destruct (Js.strict_eq (last_seq d) (Lib.since r)) eqn:E; simpl.
    + split; [reflexivity|intros H; now elim H].
    + split; [|reflexivity]. intros H. simpl in H. rewrite H in E, T.
      rewrite (strict_eq_refl_truthy _ T) in E. discriminate.
  - split; [reflexivity|intros H; now elim H].
Qed.

Lemma part0_update_since_events (d : Response) (r : Part0.Reader) :
  seq_events (Part0.since r) (Part0.since (fst (Part0.update_since d r)))
    (snd (Part0.update_since d r)).
Proof.
  unfold Part0.update_since, seq_events.
  destruct (Js.truthy (last_seq d)) eqn:T; simpl.
  - destruct (Js.strict_eq (last_seq d) (Part0.since r)) eqn:E; simpl.
    + split; [reflexivity|intros H; now elim H].
    + split; [|reflexivity]. intros H. simpl in H. rewrite H in E, T.
      rewrite (strict_eq_refl_truthy _ T) in E. discriminate.
  - split; [reflexivity|intros H; now elim H].
Qed.

Section Exchange.
Context {host : Js.Host}.

Lemma lib_next_sends (r : Lib.Reader) (arg : option string) :
  Forall (fun o => is_send o = true) (snd (Lib.next r arg)).
Proof.
  unfold Lib.next.
  destruct (truthy_reason arg); [constructor|].
  destruct (Lib.test r); simpl; repeat constructor.
Qed.

Lemma part0_next_sends (r : Part0.Reader) (arg : option string) :
  Forall (fun o => is_send o = true) (snd (Part0.next r arg)).
Proof.
  unfold Part0.next.
  destruct (truthy_reason arg); [constructor|].
  destruct (Part0.test r); simpl; repeat constructor.
Qed.

Lemma count_sends_only (p : Output -> bool) (out : list Output) :
  (forall q, p (Send q) = false) ->
  Forall (fun o => is_send o = true) out -> count p out = 0.
Proof.
  intros Hp H. unfold count.
  induction H as [|o out Ho _ IH]; simpl; [reflexivity|].
  destruct o as [q|e]; [|discriminate]. now rewrite Hp.
Qed.

(** The output of a successful exchange in src/lib/changesreader.js. *)
Lemma lib_deliver_success (m : Lib.Machine) (q : Request) (d : Response) :
  Lib.inflight m = Some q ->
  let r1 := fst (Lib.publish_results d (Lib.reader m)) in
  let r2 := fst (Lib.update_since d r1) in
  Lib.deliver m None (Some d) =
    (fst (Lib.next r2 None),
     map Emit (snd (Lib.publish_results d (Lib.reader m)) ++
               snd (Lib.update_since d r1)) ++ snd (Lib.next r2 None)).
Proof.
  intros Hq. unfold Lib.deliver, Lib.callback. rewrite Hq.
  destruct (Lib.publish_results d (Lib.reader m)) as [r1 ev1]. simpl.
  destruct (Lib.update_since d r1) as [r2 ev2]. simpl.
  now destruct (Lib.next r2 None).
Qed.

(** The output of a successful exchange in src/unnamed/part_000. *)
Lemma part0_deliver_success (m : Part0.Machine) (q : Request)
    (d : Response) :
  Part0.inflight m = Some q ->
  let r2 := fst (Part0.update_since d (Part0.reader m)) in
  let r3 := fst (Part0.stop_on_short_page d r2) in
  Part0.deliver m None (Some d) =
    (fst (Part0.next r3 None),
     map Emit (Part0.publish_results d ++
               snd (Part0.update_since d (Part0.reader m)) ++
               snd (Part0.stop_on_short_page d r2)) ++
     snd (Part0.next r3 None)).
Proof.
  intros Hq. unfold Part0.deliver, Part0.callback. rewrite Hq.
  destruct (Part0.update_since d (Part0.reader m)) as [r2 ev2]. simpl.
  destruct (Part0.stop_on_short_page d r2) as [r3 ev3]. simpl.
  now destruct (Part0.next r3 None).
Qed.

Lemma lib_publish_since (d : Response) (r : Lib.Reader) :
  Lib.since (fst (Lib.publish_results d r)) = Lib.since r.
Proof.
  unfold Lib.publish_results. now destruct (results d) as [[|c cs]|].
Qed.

Lemma part0_short_page_since (d : Response) (r : Part0.Reader) :
  Part0.since (fst (Part0.stop_on_short_page d r)) = Part0.since r.
Proof.
  unfold Part0.stop_on_short_page.
  now destruct (Part0.stopOnEmptyChanges r && Part0.short_page d r).
Qed.

Lemma part0_short_page_events (d : Response) (r : Part0.Reader) :
  snd (Part0.stop_on_short_page d r) = [] \/
  snd (Part0.stop_on_short_page d r) = [EEnd].
Proof.
  unfold Part0.stop_on_short_page.
  destruct (Part0.stopOnEmptyChanges r && Part0.short_page d r);
    [now right|now left].
Qed.

(** C5.  A successful exchange whose result list [rs] is not empty
    publishes, in this order: one [change] event per record of [rs] in
    the order of [rs], one [batch] event carrying [rs], and the [seq]
    event when the position changed (none when it did not).  In
    src/lib/changesreader.js only requests follow; in
    src/unnamed/part_000 an [end] event may follow the [seq] event.  The
    exchange emits exactly [length rs] change events. *)
Theorem C5_change_batch_seq_order :
  forall (d : Response) (c : Change) (cs : list Change),
    results d = Some (c :: cs) ->
    (forall (m : Lib.Machine) (q : Request),
        Lib.inflight m = Some q ->
        exists sq rest,
          snd (Lib.deliver m None (Some d)) =
            map Emit (map EChange (c :: cs) ++ [EBatch (c :: cs)] ++ sq)
            ++ rest /\
          seq_events (Lib.since (Lib.reader m))
            (Lib.since (lib_after (Lib.reader m) None (Some d))) sq /\
          Forall (fun o => is_send o = true) rest /\
          count is_change (snd (Lib.deliver m None (Some d))) =
            Z.of_nat (List.length (c :: cs))) /\
    (forall (m : Part0.Machine) (q : Request),
        Part0.inflight m = Some q ->
        exists sq en rest,
          snd (Part0.deliver m None (Some d)) =
            map Emit (map EChange (c :: cs) ++ [EBatch (c :: cs)] ++ sq
                      ++ en)
            ++ rest /\
          seq_events (Part0.since (Part0.reader m))
            (Part0.since (part0_after (Part0.reader m) None (Some d))) sq /\
          (en = [] \/ en = [EEnd]) /\
          Forall (fun o => is_send o = true) rest /\
          count is_change (snd (Part0.deliver m None (Some d))) =
            Z.of_nat (List.length (c :: cs))).
Proof.
  intros d c cs Hrs. split.
  - intros m q Hq.
    rewrite (lib_deliver_success m q d Hq). cbv zeta.
    set (r := Lib.reader m).
    assert (Hp : Lib.publish_results d r =
                 (Lib.set_numChanges
                    (Lib.numChanges r + Z.of_nat (List.length (c :: cs))) r,
                  emit_results (c :: cs))).
    { unfold Lib.publish_results. now rewrite Hrs. }
    pose proof (lib_update_since_events d (fst (Lib.publish_results d r)))
      as Hsq.
    rewrite lib_publish_since in Hsq.
    unfold lib_after, Lib.callback. fold r.
    rewrite Hp in *. cbn [fst snd] in *.
    destruct (Lib.update_since d _) as [r2 ev2] eqn:Eu. cbn [fst snd] in *.
    exists ev2, (snd (Lib.next r2 None)).
    split; [|split; [exact Hsq|split; [apply lib_next_sends|]]].
    + unfold emit_results. now rewrite <- !app_assoc.
    + rewrite count_app, map_app, count_app, count_changes_emit_results.
      rewrite (count_sends_only is_change (snd (Lib.next r2 None)));
        [|reflexivity|apply lib_next_sends].
      assert (H2 : count is_change (map Emit ev2) = 0).
      { destruct Hsq as [Ha Hb].
        destruct (Js.truthy (last_seq d) &&
                  negb (Js.strict_eq (last_seq d)
                          (Lib.since (Lib.set_numChanges
                             (Lib.numChanges r +
                              Z.of_nat (List.length (c :: cs))) r)))) eqn:G;
          unfold Lib.update_since in Eu; rewrite G in Eu;
          inversion Eu; reflexivity. }
      rewrite H2. lia.
  - intros m q Hq.
    rewrite (part0_deliver_success m q d Hq). cbv zeta.
    set (r := Part0.reader m).
    assert (Hp : Part0.publish_results d = emit_results (c :: cs)).
    { unfold Part0.publish_results. now rewrite Hrs. }
    pose proof (part0_update_since_events d r) as Hsq.
    unfold part0_after, Part0.callback. fold r. rewrite Hp.
    destruct (Part0.update_since d r) as [r2 ev2] eqn:Eu.
    cbn [fst snd] in *.
    pose proof (part0_short_page_events d r2) as Hen.
    pose proof (part0_short_page_since d r2) as Hsn.
    destruct (Part0.stop_on_short_page d r2) as [r3 ev3] eqn:Es.
    cbn [fst snd] in *.
    exists ev2, ev3, (snd (Part0.next r3 None)).
    split; [|split; [now rewrite Hsn|split;
               [exact Hen|split; [apply part0_next_sends|]]]].
    + unfold emit_results. now rewrite <- !app_assoc.
    + rewrite count_app, !map_app, !count_app, count_changes_emit_results.
      rewrite (count_sends_only is_change (snd (Part0.next r3 None)));
        [|reflexivity|apply part0_next_sends].
      assert (H2 : count is_change (map Emit ev2) = 0).
      { unfold Part0.update_since in Eu.
        destruct (Js.truthy (last_seq d) &&
                  negb (Js.strict_eq (last_seq d) (Part0.since r)));
          inversion Eu; reflexivity. }
      assert (H3 : count is_change (map Emit ev3) = 0).
      { destruct Hen as [-> | ->]; reflexivity. }
      rewrite H2, H3. lia.
Qed.

End Exchange.

Section Position.
Context {host : Js.Host}.

(** The requests that follow a successful exchange: one, built from the
    reader the callback left, when the loop's test passes. *)
Lemma lib_sends_success (m : Lib.Machine) (q : Request) (d : Response) :
  Lib.inflight m = Some q ->
  let r' := lib_after (Lib.reader m) None (Some d) in
  sends (snd (Lib.deliver m None (Some d))) =
    if Lib.test r' then [Lib.iteratee r'] else [].
Proof.
  intros Hq. rewrite (lib_deliver_success m q d Hq). cbv zeta.
  unfold lib_after, Lib.callback.
  destruct (Lib.publish_results d (Lib.reader m)) as [r1 ev1].
  cbn [fst snd]. destruct (Lib.update_since d r1) as [r2 ev2].
  cbn [fst snd]. rewrite sends_app, sends_emit. unfold Lib.next.
  cbn [truthy_reason]. now destruct (Lib.test r2).
Qed.

Lemma part0_sends_success (m : Part0.Machine) (q : Request)
    (d : Response) :
  Part0.inflight m = Some q ->
  let r' := part0_after (Part0.reader m) None (Some d) in
  sends (snd (Part0.deliver m None (Some d))) =
    if Part0.continue r' then [Part0.iteratee r'] else [].
Proof.
  intros Hq. rewrite (part0_deliver_success m q d Hq). cbv zeta.
  unfold part0_after, Part0.callback.
  destruct (Part0.update_since d (Part0.reader m)) as [r2 ev2].
  cbn [fst snd]. destruct (Part0.stop_on_short_page d r2) as [r3 ev3].
  cbn [fst snd]. rewrite sends_app, sends_emit. unfold Part0.next.
  cbn [truthy_reason]. unfold Part0.test. now destruct (Part0.continue r3).
Qed.

Lemma seqs_emit_results (rs : list Change) :
  seqs_of (map Emit (emit_results rs)) = [].
Proof.
  unfold seqs_of, emit_results. rewrite map_app, filter_app. simpl.
  rewrite app_nil_r. induction rs as [|c cs IH]; simpl; auto.
Qed.

Lemma seqs_sends_only (out : list Output) :
  Forall (fun o => is_send o = true) out -> seqs_of out = [].
Proof.
  unfold seqs_of. induction 1 as [|o out Ho _ IH]; simpl; [reflexivity|].
  destruct o; [exact IH|discriminate].
Qed.

Lemma seqs_app (xs ys : list Output) :
  seqs_of (xs ++ ys) = seqs_of xs ++ seqs_of ys.
Proof. apply filter_app. Qed.

(** The [seq] events of a successful exchange are those of
    [update_since]. *)
Lemma lib_seqs_success (m : Lib.Machine) (q : Request) (d : Response) :
  Lib.inflight m = Some q ->
  seqs_of (snd (Lib.deliver m None (Some d))) =
    map Emit
      (snd (Lib.update_since d
              (fst (Lib.publish_results d (Lib.reader m))))).
Proof.
  intros Hq. rewrite (lib_deliver_success m q d Hq). cbv zeta.
  cbn [snd]. rewrite seqs_app, map_app, seqs_app.
  rewrite (seqs_sends_only _ (lib_next_sends _ _)), app_nil_r.
  assert (H1 : seqs_of (map Emit (snd (Lib.publish_results d
                                         (Lib.reader m)))) = []).
  { unfold Lib.publish_results.
    destruct (results d) as [[|c cs]|]; try reflexivity.
    apply seqs_emit_results. }
  rewrite H1. cbn [app]. unfold Lib.update_since.
  now destruct (Js.truthy (last_seq d) && negb (Js.strict_eq _ _)).
Qed.

Lemma part0_seqs_success (m : Part0.Machine) (q : Request)
    (d : Response) :
  Part0.inflight m = Some q ->
  seqs_of (snd (Part0.deliver m None (Some d))) =
    map Emit (snd (Part0.update_since d (Part0.reader m))).
Proof.
  intros Hq. rewrite (part0_deliver_success m q d Hq). cbv zeta.
  cbn [snd]. rewrite seqs_app, !map_app, !seqs_app.
  rewrite (seqs_sends_only _ (part0_next_sends _ _)), app_nil_r.
  assert (H1 : seqs_of (map Emit (Part0.publish_results d)) = []).
  { unfold Part0.publish_results.
    destruct (results d) as [[|c cs]|]; try reflexivity.
    apply seqs_emit_results. }
  assert (H3 : forall r, seqs_of (map Emit
                 (snd (Part0.stop_on_short_page d r))) = []).
  { intros r. now destruct (part0_short_page_events d r) as [-> | ->]. }
  rewrite H1, H3, app_nil_r. cbn [app]. unfold Part0.update_since.
  now destruct (Js.truthy (last_seq d) && negb (Js.strict_eq _ _)).
Qed.

(** The position the callback of a successful exchange leaves. *)
Lemma lib_after_since (r : Lib.Reader) (d : Response) :
  Lib.since (lib_after r None (Some d)) =
    if Js.truthy (last_seq d) &&
       negb (Js.strict_eq (last_seq d) (Lib.since r))
    then last_seq d else Lib.since r.
Proof.
  unfold lib_after, Lib.callback.
  pose proof (lib_publish_since d r) as Hp.
  destruct (Lib.publish_results d r) as [r1 ev1]. cbn [fst] in Hp.
  unfold Lib.update_since. rewrite Hp.
  now destruct (Js.truthy (last_seq d) && negb (Js.strict_eq _ _)).
Qed.

Lemma part0_after_since (r : Part0.Reader) (d : Response) :
  Part0.since (part0_after r None (Some d)) =
    if Js.truthy (last_seq d) &&
       negb (Js.strict_eq (last_seq d) (Part0.since r))
    then last_seq d else Part0.since r.
Proof.
  unfold part0_after, Part0.callback.
  pose proof (fun r2 => part0_short_page_since d r2) as Hs.
  unfold Part0.update_since.
  destruct (Js.truthy (last_seq d) && negb (Js.strict_eq _ _));
    match goal with
    | |- context [Part0.stop_on_short_page d ?x] =>
        specialize (Hs x); destruct (Part0.stop_on_short_page d x)
    end; cbn [fst] in *; exact Hs.
Qed.

End Position.

Section Claim6.
Context {host : Js.Host}.

(** C6 (as amended).  After a successful exchange whose [last_seq] is
    truthy and differs from the position of the reader, exactly one
    [seq] event is emitted, it carries [last_seq], also when the result
    list is empty, and the request that follows when the loop goes on
    has [since] equal to [last_seq].  When [last_seq] equals the
    position, or is falsy, no [seq] event is emitted and the following
    request keeps the position. *)
Theorem C6_seq_event_on_new_position :
  forall (d : Response),
    (forall (m : Lib.Machine) (q : Request),
        Lib.inflight m = Some q ->
        let out := snd (Lib.deliver m None (Some d)) in
        let r' := lib_after (Lib.reader m) None (Some d) in
        sends out = (if Lib.test r' then [Lib.iteratee r'] else []) /\
        (Js.truthy (last_seq d) = true ->
         last_seq d <> Lib.since (Lib.reader m) ->
         seqs_of out = [Emit (ESeq (last_seq d))] /\
         q_since (qs (Lib.iteratee r')) = last_seq d) /\
        (Js.truthy (last_seq d) = false \/
         last_seq d = Lib.since (Lib.reader m) ->
         seqs_of out = [] /\
         q_since (qs (Lib.iteratee r')) = Lib.since (Lib.reader m))) /\
    (forall (m : Part0.Machine) (q : Request),
        Part0.inflight m = Some q ->
        let out := snd (Part0.deliver m None (Some d)) in
        let r' := part0_after (Part0.reader m) None (Some d) in
        sends out =
          (if Part0.continue r' then [Part0.iteratee r'] else []) /\
        (Js.truthy (last_seq d) = true ->
         last_seq d <> Part0.since (Part0.reader m) ->
         seqs_of out = [Emit (ESeq (last_seq d))] /\
         q_since (qs (Part0.iteratee r')) = last_seq d) /\
        (Js.truthy (last_seq d) = false \/
         last_seq d = Part0.since (Part0.reader m) ->
         seqs_of out = [] /\
         q_since (qs (Part0.iteratee r')) = Part0.since (Part0.reader m))).
Proof.
  intros d. split.
  - intros m q Hq out r'. subst out r'.
    split; [apply (lib_sends_success m q d Hq)|].
    rewrite (lib_seqs_success m q d Hq).
    cbn [Lib.iteratee qs q_since]. rewrite lib_after_since.
    unfold Lib.update_since. rewrite lib_publish_since.
    split.
    + intros T N. rewrite T, (strict_eq_neq _ _ N). now cbn.
    + intros [T | E].
      * rewrite T. now cbn.
      * destruct (Js.truthy (last_seq d)) eqn:T; [|now cbn].
        rewrite <- E, (strict_eq_refl_truthy _ T). now cbn.
  - intros m q Hq out r'. subst out r'.
    split; [apply (part0_sends_success m q d Hq)|].
    rewrite (part0_seqs_success m q d Hq).
    cbn [Part0.iteratee qs q_since]. rewrite part0_after_since.
    unfold Part0.update_since.
    split.
    + intros T N. rewrite T, (strict_eq_neq _ _ N). now cbn.
    + intros [T | E].
      * rewrite T. now cbn.
      * destruct (Js.truthy (last_seq d)) eqn:T; [|now cbn].
        rewrite <- E, (strict_eq_refl_truthy _ T). now cbn.
Qed.

End Claim6.

Section Claim5Concrete.
Existing Instance digits_host.

(** The scenario of two changes answered with [last_seq = "2-0"], on a
    reader started with the defaults, in both files. *)
Lemma C5_witness_two_changes :
  let d := reply_of two_changes (Js.Str "2-0") in
  let ml := fst (Lib.start (Lib.new "db") None) in
  let mp := fst (Part0.start (Part0.new "db") None) in
  results d = Some two_changes /\
  (exists sq rest,
      snd (Lib.deliver ml None (Some d)) =
        map Emit (map EChange two_changes ++ [EBatch two_changes] ++ sq)
        ++ rest /\
      seq_events (Lib.since (Lib.reader ml))
        (Lib.since (lib_after (Lib.reader ml) None (Some d))) sq /\
      Forall (fun o => is_send o = true) rest /\
      count is_change (snd (Lib.deliver ml None (Some d))) = 2) /\
  (exists sq en rest,
      snd (Part0.deliver mp None (Some d)) =
        map Emit (map EChange two_changes ++ [EBatch two_changes] ++ sq
                  ++ en)
        ++ rest /\
      seq_events (Part0.since (Part0.reader mp))
        (Part0.since (part0_after (Part0.reader mp) None (Some d))) sq /\
      (en = [] \/ en = [EEnd]) /\
      Forall (fun o => is_send o = true) rest /\
      count is_change (snd (Part0.deliver mp None (Some d))) = 2).
Proof.
  intros d ml mp. split; [reflexivity|].
  destruct (C5_change_batch_seq_order d (change_of "1") [change_of "2"]
              eq_refl) as [HL HP].
  split.
  - exact (HL ml (Lib.iteratee (Lib.reader ml)) eq_refl).
  - exact (HP mp (Part0.iteratee (Part0.reader mp)) eq_refl).
Defined.

End Claim5Concrete.

Section Claim6Concrete.
Existing Instance digits_host.

(** C6, the claim as stated fails: a reader started with the defaults
    is at position ["now"]; the reply [{results: [], last_seq: 0}] has
    a [last_seq] that differs from it, yet no [seq] event is emitted
    and the next request still carries [since = "now"]. *)
Lemma C6_counterexample_last_seq_zero :
  let d := reply_of [] (Js.Number (Js.Fin 0)) in
  let ml := fst (Lib.start (Lib.new "db") None) in
  let mp := fst (Part0.start (Part0.new "db") None) in
  (last_seq d <> Lib.since (Lib.reader ml) /\
   seqs_of (snd (Lib.deliver ml None (Some d))) = [] /\
   map (fun q => q_since (qs q)) (sends (snd (Lib.deliver ml None (Some d))))
     = [Js.Str "now"]) /\
  (last_seq d <> Part0.since (Part0.reader mp) /\
   seqs_of (snd (Part0.deliver mp None (Some d))) = [] /\
   map (fun q => q_since (qs q))
     (sends (snd (Part0.deliver mp None (Some d))))
     = [Js.Str "now"]).
Proof.
  cbv zeta. repeat split; try discriminate; reflexivity.
Qed.

(** The first poll of the tests: no changes, [last_seq = "1-0"]. *)
Lemma C6_witness_first_poll :
  let d := reply_of [] (Js.Str "1-0") in
  let ml := fst (Lib.start (Lib.new "db") None) in
  let mp := fst (Part0.start (Part0.new "db") None) in
  (Js.truthy (last_seq d) = true /\
   last_seq d <> Lib.since (Lib.reader ml) /\
   last_seq d <> Part0.since (Part0.reader mp)) /\
  (seqs_of (snd (Lib.deliver ml None (Some d))) = [Emit (ESeq (Js.Str "1-0"))]
   /\ q_since (qs (Lib.iteratee (lib_after (Lib.reader ml) None (Some d))))
      = Js.Str "1-0") /\
  (seqs_of (snd (Part0.deliver mp None (Some d)))
     = [Emit (ESeq (Js.Str "1-0"))]
   /\ q_since (qs (Part0.iteratee
                     (part0_after (Part0.reader mp) None (Some d))))
      = Js.Str "1-0").
Proof.
  intros d ml mp.
  assert (T : Js.truthy (last_seq d) = true) by reflexivity.
  assert (NL : last_seq d <> Lib.since (Lib.reader ml)) by discriminate.
  assert (NP : last_seq d <> Part0.since (Part0.reader mp))
    by discriminate.
  split; [auto|].
  destruct (C6_seq_event_on_new_position d) as [HL HP].
  split.
  - exact (proj1 (proj2 (HL ml (Lib.iteratee (Lib.reader ml)) eq_refl))
             T NL).
  - exact (proj1 (proj2 (HP mp (Part0.iteratee (Part0.reader mp)) eq_refl))
             T NP).
Defined.

End Claim6Concrete.

Section Options.
Context {host : Js.Host}.

Lemma lib_override_fields (o : Opts) (r : Lib.Reader) :
  Lib.batchSize (Lib.override o r) =
    (if Js.truthy (opt_batchSize o) then opt_batchSize o
     else Lib.batchSize r) /\
  Lib.since (Lib.override o r) =
    (if Js.truthy (opt_since o) then opt_since o else Lib.since r) /\
  Lib.include_docs (Lib.override o r) =
    (if Js.truthy (opt_include_docs o) then opt_include_docs o
     else Lib.include_docs r) /\
  Lib.maxChanges (Lib.override o r) =
    (if Js.truthy (opt_maxChanges o) then opt_maxChanges o
     else Lib.maxChanges r) /\
  Lib.started (Lib.override o r) = Lib.started r /\
  Lib.numChanges (Lib.override o r) = Lib.numChanges r.
Proof.
  unfold Lib.override.
  destruct (Js.truthy (opt_batchSize o)), (Js.truthy (opt_since o)),
    (Js.truthy (opt_include_docs o)), (Js.truthy (opt_maxChanges o));
    cbn; repeat split; reflexivity.
Qed.

Lemma part0_override_fields (o : Opts) (r : Part0.Reader) :
  Part0.batchSize (Part0.override o r) =
    (if Js.truthy (opt_batchSize o) then opt_batchSize o
     else Part0.batchSize r) /\
  Part0.since (Part0.override o r) =
    (if Js.truthy (opt_since o) then opt_since o else Part0.since r) /\
  Part0.started (Part0.override o r) = Part0.started r /\
  Part0.continue (Part0.override o r) = Part0.continue r /\
  Part0.stopOnEmptyChanges (Part0.override o r) =
    Part0.stopOnEmptyChanges r /\
  Part0.db (Part0.override o r) = Part0.db r /\
  Part0.ee (Part0.override o r) = Part0.ee r.
Proof.
  unfold Part0.override.
  destruct (Js.truthy (opt_batchSize o)), (Js.truthy (opt_since o));
    cbn; repeat split; reflexivity.
Qed.

(** C4 (as amended).  [start] checks the type of no option.  For
    options that are absent, [null], booleans, numbers or strings, on a
    reader that is not started it raises nothing, marks the reader
    started and sends the first request.  In src/lib/changesreader.js a
    truthy [batchSize], [since], [include_docs] or [maxChanges] is stored
    as it is, of whatever type, and an omitted (or otherwise falsy) one
    leaves the field as it was; the request carries the stored [since]
    and [include_docs], the stored [batchSize] as [seq_interval], and as
    [limit] the stored [batchSize], or [Math.min(batchSize, maxChanges -
    numChanges)] when the stored [maxChanges] is truthy.  In
    src/unnamed/part_000 only [batchSize] and [since] are read: a truthy
    one is stored as it is and sent ([batchSize] as [limit] and
    [seq_interval]), a falsy one leaves the field; the options
    [include_docs] and [maxChanges] are ignored, the reader's
    [include_docs] is sent as it was. *)
Theorem C4_start_accepts_every_option :
  (forall (m : Lib.Machine) (opts : option Opts),
      Lib.started (Lib.reader m) = false ->
      let o := match opts with Some o => o | None => no_opts end in
      exists m' q,
        Lib.start m opts = (m', [Send q]) /\
        Lib.started (Lib.reader m') = true /\
        Lib.inflight m' = Some q /\
        Lib.batchSize (Lib.reader m') =
          (if Js.truthy (opt_batchSize o) then opt_batchSize o
           else Lib.batchSize (Lib.reader m)) /\
        Lib.since (Lib.reader m') =
          (if Js.truthy (opt_since o) then opt_since o
           else Lib.since (Lib.reader m)) /\
        Lib.include_docs (Lib.reader m') =
          (if Js.truthy (opt_include_docs o) then opt_include_docs o
           else Lib.include_docs (Lib.reader m)) /\
        Lib.maxChanges (Lib.reader m') =
          (if Js.truthy (opt_maxChanges o) then opt_maxChanges o
           else Lib.maxChanges (Lib.reader m)) /\
        seq_interval (qs q) = Lib.batchSize (Lib.reader m') /\
        q_since (qs q) = Lib.since (Lib.reader m') /\
        q_include_docs (qs q) = Lib.include_docs (Lib.reader m') /\
        limit (qs q) =
          (if Js.truthy (Lib.maxChanges (Lib.reader m'))
           then Js.Number
                  (Js.num_min (Js.to_number (Lib.batchSize (Lib.reader m')))
                     (Js.num_sub
                        (Js.to_number (Lib.maxChanges (Lib.reader m')))
                        (Js.Fin (Lib.numChanges (Lib.reader m)))))
           else Lib.batchSize (Lib.reader m'))) /\
  (forall (m : Part0.Machine) (opts : option Opts),
      Part0.started (Part0.reader m) = false ->
      let o := match opts with Some o => o | None => no_opts end in
      exists m' q,
        Part0.start m opts = (m', [Send q]) /\
        Part0.started (Part0.reader m') = true /\
        Part0.inflight m' = Some q /\
        Part0.batchSize (Part0.reader m') =
          (if Js.truthy (opt_batchSize o) then opt_batchSize o
           else Part0.batchSize (Part0.reader m)) /\
        Part0.since (Part0.reader m') =
          (if Js.truthy (opt_since o) then opt_since o
           else Part0.since (Part0.reader m)) /\
        Part0.include_docs (Part0.reader m') =
          Part0.include_docs (Part0.reader m) /\
        limit (qs q) = Part0.batchSize (Part0.reader m') /\
        seq_interval (qs q) = Part0.batchSize (Part0.reader m') /\
        q_since (qs q) = Part0.since (Part0.reader m') /\
        q_include_docs (qs q) = Part0.include_docs (Part0.reader m)).
Proof.
  split.
  - intros m opts Hs o. unfold Lib.start. rewrite Hs. fold o.
    destruct (lib_override_fields o (Lib.set_started true (Lib.reader m)))
      as (Hb & Hsi & Hi & Hm & Hst & Hnum).
    eexists _, _. split; [reflexivity|]. cbn [Lib.reader Lib.inflight].
    repeat (split; [solve [auto]|]).
    cbn [Lib.iteratee qs limit]. unfold Lib.page_limit.
    now rewrite Hnum.
  - intros m opts Hs o. unfold Part0.start. rewrite Hs. fold o.
    destruct (part0_override_fields o
                (Part0.set_started true (Part0.reader m)))
      as (Hb & Hsi & Hst & _).
    assert (Hid : Part0.include_docs
                    (Part0.override o
                       (Part0.set_started true (Part0.reader m))) =
                  Part0.include_docs (Part0.reader m)).
    { unfold Part0.override.
      now destruct (Js.truthy (opt_batchSize o)),
        (Js.truthy (opt_since o)). }
    eexists _, _. split; [reflexivity|].
    cbn [Part0.reader Part0.inflight].
    repeat (split; [solve [auto]|]). exact Hid.
Qed.

(** [start] with falsy options, on a reader that is not started. *)
Lemma lib_start_falsy (m : Lib.Machine) (o : Opts) :
  Lib.started (Lib.reader m) = false ->
  let r' := Lib.reader (fst (Lib.start m (Some o))) in
  (Js.truthy (opt_batchSize o) = false ->
   Lib.batchSize r' = Lib.batchSize (Lib.reader m)) /\
  (Js.truthy (opt_since o) = false ->
   Lib.since r' = Lib.since (Lib.reader m)) /\
  (Js.truthy (opt_include_docs o) = false ->
   Lib.include_docs r' = Lib.include_docs (Lib.reader m)) /\
  (Js.truthy (opt_maxChanges o) = false ->
   Lib.maxChanges r' = Lib.maxChanges (Lib.reader m)).
Proof.
  intros Hs r'. subst r'. unfold Lib.start. rewrite Hs.
  cbn [fst Lib.reader].
  destruct (lib_override_fields o (Lib.set_started true (Lib.reader m)))
    as (Hb & Hsi & Hi & Hm & _).
  rewrite Hb, Hsi, Hi, Hm.
  repeat split; intros ->; reflexivity.
Qed.

Lemma part0_start_falsy (m : Part0.Machine) (o : Opts) :
  Part0.started (Part0.reader m) = false ->
  let r' := Part0.reader (fst (Part0.start m (Some o))) in
  (Js.truthy (opt_batchSize o) = false ->
   Part0.batchSize r' = Part0.batchSize (Part0.reader m)) /\
  (Js.truthy (opt_since o) = false ->
   Part0.since r' = Part0.since (Part0.reader m)).
Proof.
  intros Hs r'. subst r'. unfold Part0.start. rewrite Hs.
  cbn [fst Part0.reader].
  destruct (part0_override_fields o
              (Part0.set_started true (Part0.reader m)))
    as (Hb & Hsi & _).
  rewrite Hb, Hsi.
  repeat split; intros ->; reflexivity.
Qed.

(** C10.  An option passed to [start] with a falsy value is ignored and
    the field keeps the value it had: [batchSize], [since],
    [include_docs] and [maxChanges] in src/lib/changesreader.js,
    [batchSize] and [since] in src/unnamed/part_000.  On a new reader
    that value is the default.  In particular [since: 0] on a new
    reader leaves the position at ["now"]: the first request carries
    [since = "now"]. *)
Theorem C10_falsy_options_keep_defaults :
  (forall (m : Lib.Machine) (o : Opts),
      Lib.started (Lib.reader m) = false ->
      let r' := Lib.reader (fst (Lib.start m (Some o))) in
      (Js.truthy (opt_batchSize o) = false ->
       Lib.batchSize r' = Lib.batchSize (Lib.reader m)) /\
      (Js.truthy (opt_since o) = false ->
       Lib.since r' = Lib.since (Lib.reader m)) /\
      (Js.truthy (opt_include_docs o) = false ->
       Lib.include_docs r' = Lib.include_docs (Lib.reader m)) /\
      (Js.truthy (opt_maxChanges o) = false ->
       Lib.maxChanges r' = Lib.maxChanges (Lib.reader m))) /\
  (forall (m : Part0.Machine) (o : Opts),
      Part0.started (Part0.reader m) = false ->
      let r' := Part0.reader (fst (Part0.start m (Some o))) in
      (Js.truthy (opt_batchSize o) = false ->
       Part0.batchSize r' = Part0.batchSize (Part0.reader m)) /\
      (Js.truthy (opt_since o) = false ->
       Part0.since r' = Part0.since (Part0.reader m))) /\
  (forall (name : string) (o : Opts),
      let rl := Lib.reader (fst (Lib.start (Lib.new name) (Some o))) in
      let rp := Part0.reader (fst (Part0.start (Part0.new name) (Some o)))
      in
      (Js.truthy (opt_batchSize o) = false ->
       Lib.batchSize rl = Js.Number (Js.Fin 100) /\
       Part0.batchSize rp = Js.Number (Js.Fin 100)) /\
      (Js.truthy (opt_since o) = false ->
       Lib.since rl = Js.Str "now" /\ Part0.since rp = Js.Str "now") /\
      (Js.truthy (opt_include_docs o) = false ->
       Lib.include_docs rl = Js.Boolean false) /\
      (Js.truthy (opt_maxChanges o) = false ->
       Lib.maxChanges rl = Js.Number (Js.Fin 0))) /\
  (forall (name : string) (o : Opts),
      opt_since o = Js.Number (Js.Fin 0) ->
      map (fun q => q_since (qs q))
        (sends (snd (Lib.start (Lib.new name) (Some o)))) = [Js.Str "now"]
      /\
      map (fun q => q_since (qs q))
        (sends (snd (Part0.start (Part0.new name) (Some o))))
        = [Js.Str "now"]).
Proof.
  split; [exact lib_start_falsy|split; [exact part0_start_falsy|split]].
  - intros name o rl rp.
    destruct (lib_start_falsy (Lib.new name) o eq_refl)
      as (L1 & L2 & L3 & L4).
    destruct (part0_start_falsy (Part0.new name) o eq_refl) as (P1 & P2).
    split; [intros H; split; [exact (L1 H)|exact (P1 H)]|].
    split; [intros H; split; [exact (L2 H)|exact (P2 H)]|].
    split; [exact L3|exact L4].
  - intros name o H0.
    destruct (lib_start_falsy (Lib.new name) o eq_refl) as (_ & L2 & _).
    destruct (part0_start_falsy (Part0.new name) o eq_refl) as (_ & P2).
    rewrite H0 in L2, P2. split.
    + exact (f_equal (fun v => [v]) (L2 eq_refl)).
    + exact (f_equal (fun v => [v]) (P2 eq_refl)).
Qed.

End Options.

Section OptionsConcrete.
Existing Instance digits_host.

(** C4, the claim as stated fails: [start({batchSize: "abc"})] on a new
    reader raises nothing; the reader is started and the first request
    is sent with [limit = "abc"]. *)
Lemma C4_counterexample_string_batchSize :
  let o := {| opt_batchSize := Js.Str "abc"; opt_since := Js.Undefined;
              opt_include_docs := Js.Undefined;
              opt_maxChanges := Js.Undefined |} in
  (Lib.started (Lib.reader (fst (Lib.start (Lib.new "db") (Some o)))) = true
   /\ map (fun q => limit (qs q))
        (sends (snd (Lib.start (Lib.new "db") (Some o)))) = [Js.Str "abc"])
  /\
  (Part0.started (Part0.reader (fst (Part0.start (Part0.new "db") (Some o))))
     = true
   /\ map (fun q => limit (qs q))
        (sends (snd (Part0.start (Part0.new "db") (Some o))))
      = [Js.Str "abc"]).
Proof. cbv zeta. repeat split; reflexivity. Qed.

(** [start({batchSize: true})] on a new reader of
    src/lib/changesreader.js and [start({include_docs: true,
    maxChanges: 22})] on a new reader of src/unnamed/part_000. *)
Lemma C4_witness_new_reader :
  (Lib.started (Lib.reader (Lib.new "db")) = false /\
   Part0.started (Part0.reader (Part0.new "db")) = false) /\
  (exists m' q,
      Lib.start (Lib.new "db")
        (Some {| opt_batchSize := Js.Boolean true;
                 opt_since := Js.Undefined;
                 opt_include_docs := Js.Undefined;
                 opt_maxChanges := Js.Undefined |}) = (m', [Send q]) /\
      Lib.started (Lib.reader m') = true /\
      Lib.batchSize (Lib.reader m') = Js.Boolean true /\
      seq_interval (qs q) = Js.Boolean true) /\
  (exists m' q,
      Part0.start (Part0.new "db")
        (Some {| opt_batchSize := Js.Undefined;
                 opt_since := Js.Undefined;
                 opt_include_docs := Js.Boolean true;
                 opt_maxChanges := Js.Number (Js.Fin 22) |})
        = (m', [Send q]) /\
      Part0.started (Part0.reader m') = true /\
      limit (qs q) = Js.Number (Js.Fin 100) /\
      q_since (qs q) = Js.Str "now" /\
      q_include_docs (qs q) = Js.Boolean false).
Proof.
  split; [split; reflexivity|].
  destruct C4_start_accepts_every_option as [HL HP].
  split.
  - destruct (HL (Lib.new "db")
                (Some {| opt_batchSize := Js.Boolean true;
                         opt_since := Js.Undefined;
                         opt_include_docs := Js.Undefined;
                         opt_maxChanges := Js.Undefined |}) eq_refl)
      as (m' & q & H1 & H2 & _ & H3 & _ & _ & _ & H4 & _).
    exists m', q. rewrite H4, H3. auto.
  - destruct (HP (Part0.new "db")
                (Some {| opt_batchSize := Js.Undefined;
                         opt_since := Js.Undefined;
                         opt_include_docs := Js.Boolean true;
                         opt_maxChanges := Js.Number (Js.Fin 22) |})
                eq_refl)
      as (m' & q & H1 & H2 & _ & H3 & H4 & _ & H5 & _ & H6 & H7).
    exists m', q. rewrite H5, H3, H6, H4, H7. auto.
Defined.

(** [start({batchSize: 0, since: 0, include_docs: false, maxChanges: 0})]
    and [start] with the empty string as [since], on new readers. *)
Lemma C10_witness_zero_options :
  let o := {| opt_batchSize := Js.Number (Js.Fin 0);
              opt_since := Js.Number (Js.Fin 0);
              opt_include_docs := Js.Boolean false;
              opt_maxChanges := Js.Number (Js.Fin 0) |} in
  let e := {| opt_batchSize := Js.Undefined; opt_since := Js.Str EmptyString;
              opt_include_docs := Js.Undefined;
              opt_maxChanges := Js.Undefined |} in
  let rl := Lib.reader (fst (Lib.start (Lib.new "db") (Some o))) in
  let rp := Part0.reader (fst (Part0.start (Part0.new "db") (Some e))) in
  (Js.truthy (opt_batchSize o) = false /\ Js.truthy (opt_since o) = false /\
   Js.truthy (opt_include_docs o) = false /\
   Js.truthy (opt_maxChanges o) = false /\
   Js.truthy (opt_since e) = false) /\
  (Lib.batchSize rl = Js.Number (Js.Fin 100) /\
   Lib.since rl = Js.Str "now" /\
   Lib.include_docs rl = Js.Boolean false /\
   Lib.maxChanges rl = Js.Number (Js.Fin 0)) /\
  Part0.since rp = Js.Str "now" /\
  map (fun q => q_since (qs q))
    (sends (snd (Part0.start (Part0.new "db") (Some o)))) = [Js.Str "now"].
Proof.
  intros o e rl rp.
  split; [repeat split; reflexivity|].
  destruct C10_falsy_options_keep_defaults as (HL & HP & _ & HN).
  destruct (HL (Lib.new "db") o eq_refl) as (H1 & H2 & H3 & H4).
  destruct (HP (Part0.new "db") e eq_refl) as (_ & H5).
  split; [|split].
  - exact (conj (H1 eq_refl)
             (conj (H2 eq_refl) (conj (H3 eq_refl) (H4 eq_refl)))).
  - exact (H5 eq_refl).
  - exact (proj2 (HN "db"%string o eq_refl)).
Defined.

End OptionsConcrete.

Section Part0Loop.
Context {host : Js.Host}.

Lemma part0_setDefaults_ext (r r' : Part0.Reader) :
  Part0.db r' = Part0.db r -> Part0.ee r' = Part0.ee r ->
  Part0.setDefaults r' = Part0.setDefaults r.
Proof. unfold Part0.setDefaults. now intros -> ->. Qed.

(** What the callback leaves untouched. *)
Lemma part0_callback_frame (r : Part0.Reader) (err : option Failure)
    (data : option Response) :
  let r' := fst (fst (Part0.callback r err data)) in
  Part0.db r' = Part0.db r /\ Part0.ee r' = Part0.ee r /\
  Part0.started r' = Part0.started r /\
  Part0.batchSize r' = Part0.batchSize r /\
  Part0.stopOnEmptyChanges r' = Part0.stopOnEmptyChanges r /\
  (Part0.continue r = false -> Part0.continue r' = false).
Proof.
  unfold Part0.callback, Part0.update_since, Part0.stop_on_short_page.
  destruct err as [e|], data as [d|]; cbn;
    repeat match goal with
      | |- context [if ?b then _ else _] => destruct b; cbn
      end; repeat split; auto.
Qed.

Lemma part0_deliver_eq (m : Part0.Machine) (q : Request)
    (err : option Failure) (data : option Response) :
  Part0.inflight m = Some q ->
  Part0.deliver m err data =
    (fst (Part0.next (fst (fst (Part0.callback (Part0.reader m) err data)))
            (snd (Part0.callback (Part0.reader m) err data))),
     map Emit (snd (fst (Part0.callback (Part0.reader m) err data))) ++
     snd (Part0.next (fst (fst (Part0.callback (Part0.reader m) err data)))
            (snd (Part0.callback (Part0.reader m) err data)))).
Proof.
  intros Hq. unfold Part0.deliver. rewrite Hq.
  destruct (Part0.callback (Part0.reader m) err data) as [[r evs] arg].
  cbn [fst snd]. now destruct (Part0.next r arg).
Qed.

(** With [continue] false, whatever the exchange brings, [next] runs the
    final callback. *)
Lemma part0_next_halts (r : Part0.Reader) (arg : option string) :
  Part0.continue r = false ->
  Part0.next r arg =
    ({| Part0.reader := Part0.setDefaults r; Part0.inflight := None |}, []).
Proof.
  intros Hc. unfold Part0.next, Part0.test. rewrite Hc.
  now destruct (truthy_reason arg).
Qed.


End Part0Loop.

Section Claim3Concrete.
Existing Instance digits_host.



End Claim3Concrete.

Section Part0Reachable.
Context {host : Js.Host}.

Lemma part0_inv_new (name : string) : part0_inv (Part0.new name).
Proof. exact I. Qed.

Lemma part0_inv_start (m : Part0.Machine) (opts : option Opts) :
  part0_inv m -> part0_inv (fst (Part0.start m opts)).
Proof.
  intros Hm. unfold Part0.start.
  destruct (Part0.started (Part0.reader m)) eqn:Hs; [exact Hm|].
  unfold part0_inv. cbn [fst Part0.inflight Part0.reader].
  split; [reflexivity|].
  now destruct (part0_override_fields
                  match opts with Some o => o | None => no_opts end
                  (Part0.set_started true (Part0.reader m)))
    as (_ & _ & -> & _).
Qed.

Lemma part0_inv_deliver (m : Part0.Machine) (err : option Failure)
    (data : option Response) :
  part0_inv m -> part0_inv (fst (Part0.deliver m err data)).
Proof.
  intros Hm. destruct (Part0.inflight m) as [q|] eqn:Hq.
  - rewrite (part0_deliver_eq m q err data Hq). cbn [fst].
    unfold part0_inv in Hm. rewrite Hq in Hm. destruct Hm as [_ Hst].
    destruct (part0_callback_frame (Part0.reader m) err data)
      as (_ & _ & Fst & _).
    unfold Part0.next.
    destruct (truthy_reason _); [exact I|].
    destruct (Part0.test _); [|exact I].
    unfold part0_inv. cbn [fst Part0.inflight Part0.reader].
    split; [reflexivity|congruence].
  - unfold Part0.deliver. now rewrite Hq.
Qed.

Lemma part0_inv_step (m : Part0.Machine) (i : Part0.Input) :
  part0_inv m -> part0_inv (fst (Part0.step m i)).
Proof.
  intros Hm. destruct i as [opts|opts| |err data]; cbn [Part0.step].
  - now apply part0_inv_start.
  - unfold Part0.get. apply part0_inv_start.
    unfold part0_inv in *. cbn [Part0.inflight Part0.reader].
    destruct (Part0.inflight m); [|exact I]. exact Hm.
  - unfold part0_inv in *. cbn [fst Part0.stop Part0.inflight Part0.reader].
    destruct (Part0.inflight m); [|exact I]. exact Hm.
  - now apply part0_inv_deliver.
Qed.

Lemma part0_inv_run (ins : list Part0.Input) (m : Part0.Machine) :
  part0_inv m -> part0_inv (fst (Part0.run m ins)).
Proof.
  revert m. induction ins as [|i rest IH]; intros m Hm; [exact Hm|].
  cbn [Part0.run].
  pose proof (part0_inv_step m i Hm) as H1.
  destruct (Part0.step m i) as [m1 o1]. cbn [fst] in H1.
  specialize (IH m1 H1). destruct (Part0.run m1 rest) as [m2 o2].
  exact IH.
Qed.

(** On every machine reached from a new reader, the request in flight
    asked for [batchSize] records from the reader's position. *)
Lemma part0_reachable_request (name : string) (ins : list Part0.Input)
    (q : Request) :
  let m := fst (Part0.run (Part0.new name) ins) in
  Part0.inflight m = Some q ->
  q = Part0.iteratee (Part0.reader m) /\
  limit (qs q) = Part0.batchSize (Part0.reader m) /\
  q_since (qs q) = Part0.since (Part0.reader m).
Proof.
  intros m Hq.
  pose proof (part0_inv_run ins (Part0.new name) (part0_inv_new name))
    as Hinv.
  fold m in Hinv. unfold part0_inv in Hinv. rewrite Hq in Hinv.
  destruct Hinv as [-> _]. repeat split.
Qed.

Lemma count_end_emit_results (rs : list Change) :
  count is_end (map Emit (emit_results rs)) = 0.
Proof.
  unfold emit_results, count. rewrite map_app, filter_app. simpl.
  rewrite app_nil_r. induction rs as [|c cs IH]; simpl; auto.
Qed.

(** The [end] events of a successful exchange: one exactly when the
    reader is in get mode and the page is short. *)
Lemma part0_count_end_success (m : Part0.Machine) (q : Request)
    (d : Response) :
  Part0.inflight m = Some q ->
  count is_end (snd (Part0.deliver m None (Some d))) =
    if Part0.stopOnEmptyChanges (Part0.reader m) &&
       Part0.short_page d (Part0.reader m)
    then 1 else 0.
Proof.
  intros Hq. rewrite (part0_deliver_success m q d Hq). cbv zeta.
  cbn [snd]. rewrite count_app, !map_app, !count_app.
  rewrite (count_sends_only is_end _ (fun _ => eq_refl)
             (part0_next_sends _ _)).
  assert (H1 : count is_end (map Emit (Part0.publish_results d)) = 0).
  { unfold Part0.publish_results.
    destruct (results d) as [[|c cs]|]; try reflexivity.
    apply count_end_emit_results. }
  rewrite H1. unfold Part0.update_since, Part0.stop_on_short_page,
    Part0.short_page.
  destruct (Js.truthy (last_seq d) && negb (Js.strict_eq _ _));
    cbn [fst snd Part0.set_since Part0.stopOnEmptyChanges Part0.batchSize];
    destruct (Part0.stopOnEmptyChanges (Part0.reader m) && _);
    reflexivity.
Qed.

(** The flag [continue] after a successful exchange. *)
Lemma part0_after_continue (r : Part0.Reader) (d : Response) :
  Part0.continue (part0_after r None (Some d)) =
    Part0.continue r &&
    negb (Part0.stopOnEmptyChanges r && Part0.short_page d r).
Proof.
  unfold part0_after, Part0.callback, Part0.update_since,
    Part0.stop_on_short_page, Part0.short_page.
  destruct (Js.truthy (last_seq d) && negb (Js.strict_eq _ _));
    cbn [fst snd Part0.set_since Part0.stopOnEmptyChanges Part0.batchSize];
    destruct (Part0.stopOnEmptyChanges r && _);
    cbn; now rewrite ?andb_true_r, ?andb_false_r.
Qed.

Lemma part0_inflight_success (m : Part0.Machine) (q : Request)
    (d : Response) :
  Part0.inflight m = Some q ->
  let r' := part0_after (Part0.reader m) None (Some d) in
  Part0.inflight (fst (Part0.deliver m None (Some d))) =
    if Part0.continue r' then Some (Part0.iteratee r') else None.
Proof.
  intros Hq. rewrite (part0_deliver_success m q d Hq). cbv zeta.
  unfold part0_after, Part0.callback.
  destruct (Part0.update_since d (Part0.reader m)) as [r2 ev2].
  cbn [fst snd]. destruct (Part0.stop_on_short_page d r2) as [r3 ev3].
  cbn [fst snd]. unfold Part0.next, Part0.test. cbn [truthy_reason].
  now destruct (Part0.continue r3).
Qed.

End Part0Reachable.

Section GetMode.
Context {host : Js.Host}.

(** C8.  On a machine reached from a new reader and in get mode
    ([stopOnEmptyChanges] set), a successful reply whose result list is
    strictly shorter than the [limit] of the request it answers emits
    exactly one [end] event, sends no request and ends the loop.  A
    result list exactly as long as the [limit] emits no [end] event and
    leaves [continue] as it was: unless [stop] was called, the next
    request is sent. *)
Theorem C8_get_ends_on_short_page :
  forall (name : string) (ins : list Part0.Input) (q : Request)
         (d : Response) (rs : list Change),
    let m := fst (Part0.run (Part0.new name) ins) in
    let out := snd (Part0.deliver m None (Some d)) in
    let m' := fst (Part0.deliver m None (Some d)) in
    Part0.inflight m = Some q ->
    Part0.stopOnEmptyChanges (Part0.reader m) = true ->
    results d = Some rs ->
    (Js.num_lt (Js.Fin (Z.of_nat (List.length rs)))
       (Js.to_number (limit (qs q))) = true ->
     count is_end out = 1 /\ sends out = [] /\
     Part0.inflight m' = None) /\
    (Js.to_number (limit (qs q)) = Js.Fin (Z.of_nat (List.length rs)) ->
     count is_end out = 0 /\
     Part0.continue (part0_after (Part0.reader m) None (Some d)) =
       Part0.continue (Part0.reader m) /\
     (Part0.continue (Part0.reader m) = true ->
      exists q', sends out = [q'] /\ Part0.inflight m' = Some q')).
Proof.
  intros name ins q d rs m out m' Hq Hg Hrs.
  destruct (part0_reachable_request name ins q Hq) as (_ & Hl & _).
  fold m in Hl. subst out m'.
  rewrite (part0_count_end_success m q d Hq).
  rewrite (part0_sends_success m q d Hq).
  rewrite (part0_inflight_success m q d Hq). cbv zeta.
  rewrite part0_after_continue, Hg. cbn [andb].
  unfold Part0.short_page. rewrite Hrs, <- Hl.
  split.
  - intros Hlt. rewrite Hlt. cbn [negb]. rewrite andb_false_r. auto.
  - intros Heq. rewrite Heq. cbn [Js.num_lt]. rewrite Z.ltb_irrefl.
    cbn [negb]. rewrite andb_true_r. split; [reflexivity|].
    split; [reflexivity|].
    intros ->. eexists. split; reflexivity.
Qed.

(** C9.  On a machine reached from a new reader, in get mode as well, a
    successful reply without a [results] property emits no [change] and
    no [end] event and leaves [continue] as it was: unless [stop] was
    called, the next request is sent and the loop goes on. *)
Theorem C9_missing_results_keeps_polling :
  forall (name : string) (ins : list Part0.Input) (q : Request)
         (d : Response),
    let m := fst (Part0.run (Part0.new name) ins) in
    let out := snd (Part0.deliver m None (Some d)) in
    let m' := fst (Part0.deliver m None (Some d)) in
    Part0.inflight m = Some q ->
    results d = None ->
    count is_end out = 0 /\
    count is_change out = 0 /\
    Part0.continue (part0_after (Part0.reader m) None (Some d)) =
      Part0.continue (Part0.reader m) /\
    (Part0.continue (Part0.reader m) = true ->
     exists q', sends out = [q'] /\ Part0.inflight m' = Some q' /\
                Part0.started (Part0.reader m') = true).
Proof.
  intros name ins q d m out m' Hq Hrs.
  pose proof (part0_inv_deliver m None (Some d)
                (part0_inv_run ins (Part0.new name) (part0_inv_new name)))
    as Hinv.
  fold m' in Hinv. subst out.
  assert (Hc : Part0.continue (part0_after (Part0.reader m) None (Some d))
               = Part0.continue (Part0.reader m)).
  { rewrite part0_after_continue. unfold Part0.short_page. rewrite Hrs.
    now rewrite andb_false_r, andb_true_r. }
  split; [|split; [|split; [exact Hc|]]].
  - rewrite (part0_count_end_success m q d Hq).
    unfold Part0.short_page. rewrite Hrs. now rewrite andb_false_r.
  - rewrite (part0_deliver_success m q d Hq). cbv zeta. cbn [snd].
    rewrite count_app, !map_app, !count_app.
    rewrite (count_sends_only is_change _ (fun _ => eq_refl)
               (part0_next_sends _ _)).
    unfold Part0.publish_results. rewrite Hrs.
    unfold Part0.update_since, Part0.stop_on_short_page, Part0.short_page.
    rewrite Hrs.
    destruct (Js.truthy (last_seq d) && negb (Js.strict_eq _ _));
      cbn [fst snd]; rewrite andb_false_r; reflexivity.
  - intros Ht. pose proof (part0_sends_success m q d Hq) as Hs.
    pose proof (part0_inflight_success m q d Hq) as Hi.
    cbv zeta in Hs, Hi. rewrite Hc, Ht in Hs, Hi.
    eexists. split; [exact Hs|]. split; [exact Hi|].
    unfold part0_inv in Hinv. unfold m' in *. rewrite Hi in Hinv.
    exact (proj2 Hinv).
Qed.

End GetMode.

Section GetModeConcrete.
Existing Instance digits_host.

(** [get({batchSize: 2})]: a reply with one change ends the loop, a
    reply with two does not. *)
Lemma C8_witness_get_batch_of_two :
  let o := {| opt_batchSize := Js.Number (Js.Fin 2);
              opt_since := Js.Undefined; opt_include_docs := Js.Undefined;
              opt_maxChanges := Js.Undefined |} in
  let m := fst (Part0.run (Part0.new "db") [Part0.CallGet (Some o)]) in
  let one := reply_of [change_of "1"] (Js.Str "1-0") in
  let two := reply_of two_changes (Js.Str "2-0") in
  (Part0.stopOnEmptyChanges (Part0.reader m) = true /\
   Part0.continue (Part0.reader m) = true) /\
  (count is_end (snd (Part0.deliver m None (Some one))) = 1 /\
   sends (snd (Part0.deliver m None (Some one))) = [] /\
   Part0.inflight (fst (Part0.deliver m None (Some one))) = None) /\
  (count is_end (snd (Part0.deliver m None (Some two))) = 0 /\
   exists q', sends (snd (Part0.deliver m None (Some two))) = [q'] /\
              Part0.inflight (fst (Part0.deliver m None (Some two)))
                = Some q').
Proof.
  intros o m one two. split; [split; reflexivity|].
  split.
  - exact (proj1 (C8_get_ends_on_short_page "db"
                    [Part0.CallGet (Some o)]
                    (Part0.iteratee (Part0.reader m)) one [change_of "1"]
                    eq_refl eq_refl eq_refl) eq_refl).
  - destruct (proj2 (C8_get_ends_on_short_page "db"
                       [Part0.CallGet (Some o)]
                       (Part0.iteratee (Part0.reader m)) two two_changes
                       eq_refl eq_refl eq_refl) eq_refl) as (H0 & _ & H1).
    exact (conj H0 (H1 eq_refl)).
Defined.

(** [get()] answered with a body that has no [results]. *)
Lemma C9_witness_get_without_results :
  let m := fst (Part0.run (Part0.new "db") [Part0.CallGet None]) in
  let d := {| results := None; last_seq := Js.Str "1-0";
              pending := None |} in
  (Part0.stopOnEmptyChanges (Part0.reader m) = true /\
   Part0.continue (Part0.reader m) = true /\ results d = None) /\
  count is_end (snd (Part0.deliver m None (Some d))) = 0 /\
  exists q', sends (snd (Part0.deliver m None (Some d))) = [q'] /\
             Part0.inflight (fst (Part0.deliver m None (Some d)))
               = Some q'.
Proof.
  intros m d. split; [repeat split; reflexivity|].
  destruct (C9_missing_results_keeps_polling "db" [Part0.CallGet None]
              (Part0.iteratee (Part0.reader m)) d eq_refl eq_refl)
    as (H0 & _ & _ & H1).
  split; [exact H0|].
  destruct (H1 eq_refl) as (q' & Hs & Hi & _).
  exists q'. exact (conj Hs Hi).
Defined.

End GetModeConcrete.

Section Failures.
Context {host : Js.Host}.

(** The fatal failures of src/unnamed/part_000 are those with a status
    code in [400, 500) other than 429. *)
Lemma part0_fatal_iff (err : option Failure) :
  Part0.fatal err = true <->
  exists e c, err = Some e /\ statusCode e = Some c /\
              400 <= c < 500 /\ c <> 429.
Proof.
  unfold Part0.fatal, truthy_status. split.
  - destruct err as [e|]; [|discriminate].
    destruct (statusCode e) as [c|] eqn:Hc; [|now rewrite andb_false_r].
    intros H. apply andb_true_iff in H. destruct H as [_ H].
    apply andb_true_iff in H. destruct H as [H H3].
    apply andb_true_iff in H. destruct H as [H1 H2].
    apply negb_true_iff, Z.eqb_neq in H2.
    exists e, c. repeat split; auto; lia.
  - intros (e & c & -> & Hc & Hr & Hn). rewrite Hc.
    apply andb_true_iff. split.
    + apply negb_true_iff, Z.eqb_neq. lia.
    + rewrite !andb_true_iff, negb_true_iff, Z.eqb_neq.
      repeat split; lia.
Qed.

(** A failed exchange in src/unnamed/part_000, on a machine reached from
    a new reader: the [error] event is emitted; a fatal failure ends the
    loop; any other failure, unless [stop] was called, sends the failed
    request again, position included. *)
Lemma part0_failed_exchange (name : string) (ins : list Part0.Input)
    (q : Request) (err : option Failure) (data : option Response) :
  let m := fst (Part0.run (Part0.new name) ins) in
  Part0.inflight m = Some q ->
  failed err data = true ->
  (Part0.fatal err = true ->
   snd (Part0.deliver m err data) = [Emit (EError err)] /\
   Part0.inflight (fst (Part0.deliver m err data)) = None) /\
  (Part0.fatal err = false ->
   Part0.continue (Part0.reader m) = true ->
   Part0.deliver m err data = (m, [Emit (EError err); Send q])).
Proof.
  intros m Hq Hf.
  destruct (part0_reachable_request name ins q Hq) as (Hqi & _).
  fold m in Hqi.
  rewrite (part0_deliver_eq m q err data Hq).
  assert (Hcb : Part0.callback (Part0.reader m) err data =
                if Part0.fatal err
                then (Part0.set_continue false (Part0.reader m),
                      [EError err],
                      match err with Some e => reason e | None => None end)
                else (Part0.reader m, [EError err], None)).
  { unfold Part0.callback. destruct err as [e|], data as [d|];
      try reflexivity; discriminate. }
  rewrite Hcb. split.
  - intros ->. cbn [fst snd].
    rewrite part0_next_halts by reflexivity. now cbn.
  - intros -> Hc. cbn [fst snd]. unfold Part0.next, Part0.test.
    cbn [truthy_reason]. rewrite Hc. cbn [fst snd map app].
    rewrite <- Hqi. destruct m as [r i]. cbn in *. now rewrite Hq.
Qed.

(** A failed exchange in src/lib/changesreader.js whose failure is not
    fatal for [Lib.fatal] (status 429, status below 400, no status): the
    [error] event is emitted and the callback returns; nothing is in
    flight afterwards and the reader is as it was, started. *)
Lemma lib_failed_exchange_returns (m : Lib.Machine) (q : Request)
    (e : Failure) (data : option Response) :
  Lib.inflight m = Some q ->
  Lib.fatal e = false ->
  Lib.deliver m (Some e) data =
    ({| Lib.reader := Lib.reader m; Lib.inflight := None |},
     [Emit (EError (Some e))]).
Proof.
  intros Hq Hf. unfold Lib.deliver, Lib.callback. rewrite Hq, Hf.
  reflexivity.
Qed.

End Failures.

Section FailuresConcrete.
Existing Instance digits_host.

(** C1, at the failing input in src/lib/changesreader.js.  The run of
    the test [survives 429]: a first poll answered with
    [last_seq = "1-0"], a second answered with status 429, a third reply
    with one change.  After the 429 the callback returns without calling
    [next]: no request follows the two first ones, no [change] event is
    emitted, and the reader stays started with nothing in flight.  The
    same run on src/unnamed/part_000 sends the failed request again with
    [since = "1-0"]. *)
Theorem C1_lib_stalls_after_429 :
  let too_many := Some {| statusCode := Some 429;
                          reason := Some "too many requests"%string |} in
  let ok1 := Some (reply_of [] (Js.Str "1-0")) in
  let ok2 := Some (reply_of [change_of "a"] (Js.Str "2-0")) in
  let lib := Lib.run (Lib.new "db")
               [Lib.CallStart None; Lib.Reply None ok1;
                Lib.Reply too_many None; Lib.Reply None ok2] in
  let part0 := Part0.run (Part0.new "db")
                 [Part0.CallStart None; Part0.Reply None ok1;
                  Part0.Reply too_many None; Part0.Reply None ok2] in
  map (fun q => q_since (qs q)) (sends (snd lib))
    = [Js.Str "now"; Js.Str "1-0"] /\
  count is_change (snd lib) = 0 /\
  Lib.inflight (fst lib) = None /\
  Lib.started (Lib.reader (fst lib)) = true /\
  map (fun q => q_since (qs q)) (sends (snd part0))
    = [Js.Str "now"; Js.Str "1-0"; Js.Str "1-0"; Js.Str "2-0"] /\
  count is_change (snd part0) = 1.
Proof. cbv zeta. repeat split; reflexivity. Qed.

(** C2, at the failing inputs in src/lib/changesreader.js.  A failure
    with status 500 and a reason ends the loop: [next] gets the reason,
    the final callback resets the reader, and the replies that would
    follow find no request.  A failure with status 404 and no reason
    does not end it: [next(undefined)] runs the test and the request is
    sent again.  A failure with status 429 has the callback return
    without [next].  On src/unnamed/part_000 the 500 and the 429 are
    followed by a new request and the 404 ends the loop. *)
Theorem C2_lib_halts_on_500_not_on_404 :
  let e500 := Some {| statusCode := Some 500;
                      reason := Some "internal_server_error"%string |} in
  let e404 := Some {| statusCode := Some 404; reason := None |} in
  let e429 := Some {| statusCode := Some 429; reason := None |} in
  let ml := fst (Lib.start (Lib.new "db") None) in
  let mp := fst (Part0.start (Part0.new "db") None) in
  (snd (Lib.deliver ml e500 None) = [Emit (EError e500)] /\
   Lib.started (Lib.reader (fst (Lib.deliver ml e500 None))) = false) /\
  (exists q, snd (Lib.deliver ml e404 None) = [Emit (EError e404); Send q])
  /\
  (snd (Lib.deliver ml e429 None) = [Emit (EError e429)] /\
   Lib.started (Lib.reader (fst (Lib.deliver ml e429 None))) = true) /\
  (exists q, snd (Part0.deliver mp e500 None)
             = [Emit (EError e500); Send q]) /\
  snd (Part0.deliver mp e404 None) = [Emit (EError e404)] /\
  (exists q, snd (Part0.deliver mp e429 None)
             = [Emit (EError e429); Send q]).
Proof.
  cbv zeta. repeat split; try reflexivity; eexists; reflexivity.
Qed.

End FailuresConcrete.

Section Ceiling.
Context {host : Js.Host}.

Lemma count_change_cons_emit (e : Event) (out : list Output) :
  count is_change (Emit e :: out) =
    (match e with EChange _ => 1 | _ => 0 end) + count is_change out.
Proof.
  unfold count. destruct e; cbn [filter is_change List.length]; lia.
Qed.

Lemma count_change_cons_send (q : Request) (out : list Output) :
  count is_change (Send q :: out) = count is_change out.
Proof. reflexivity. Qed.

(** Events only move the count. *)
Lemma under_ceiling_emits (b : bool) (B : Js.Val) (M : Z)
    (evs : list Event) (rest : list Output) (n : Z) :
  under_ceiling b B M (n + count is_change (map Emit evs)) rest ->
  under_ceiling b B M n (map Emit evs ++ rest).
Proof.
  revert n. induction evs as [|e evs IH]; intros n H.
  - cbn in *. now rewrite Z.add_0_r in H.
  - cbn [map app] in *. rewrite count_change_cons_emit in H.
    destruct e; cbn [under_ceiling]; apply IH;
      rewrite ?Z.add_0_l, ?Z.add_assoc in H; exact H.
Qed.

(** What [under_ceiling] says of the places of a trace. *)
Lemma under_ceiling_places (b : bool) (B : Js.Val) (M : Z)
    (out : list Output) :
  forall n,
    under_ceiling b B M n out ->
    (b = true -> n + count is_change out <= M) /\
    forall pre q post,
      out = pre ++ Send q :: post ->
      n + count is_change pre < M /\
      limit (qs q) =
        Js.Number (Js.num_min (Js.to_number B)
                     (Js.Fin (M - (n + count is_change pre)))).
Proof.
  induction out as [|o out IH]; intros n H.
  - cbn in H. split; [intros ->; cbn; lia|].
    intros [|? ?] q post E; discriminate.
  - destruct o as [q0|e].
    + cbn [under_ceiling] in H. destruct H as (Hn & Hl & Hr).
      destruct (IH n Hr) as [Hc Hp].
      rewrite count_change_cons_send. split; [exact Hc|].
      intros [|o' pre] q post E.
      * cbn in E. inversion E; subst.
        replace (count is_change []) with 0 by reflexivity.
        rewrite Z.add_0_r. auto.
      * cbn in E. inversion E; subst.
        rewrite count_change_cons_send. now apply Hp with (post := post).
    + assert (H' : under_ceiling b B M
                (n + match e with EChange _ => 1 | _ => 0 end) out).
      { destruct e; cbn [under_ceiling] in H;
          rewrite ?Z.add_0_r; exact H. }
      destruct (IH _ H') as [Hc Hp].
      rewrite count_change_cons_emit. split; [intros Hb; specialize (Hc Hb); lia|].
      intros [|o' pre] q post E; [discriminate|].
      cbn in E. inversion E; subst.
      rewrite count_change_cons_emit.
      destruct (Hp pre q post eq_refl) as [H1 H2].
      split; [lia|]. rewrite H2. do 3 f_equal. lia.
Qed.

(** With nothing in flight the callbacks of the transport find no
    request. *)
Lemma lib_run_idle (rs : list (option Failure * option Response))
    (m : Lib.Machine) :
  Lib.inflight m = None -> Lib.run m (lib_replies rs) = (m, []).
Proof.
  intros Hi. induction rs as [|[e d] rs IH]; [reflexivity|].
  cbn [lib_replies map Lib.run Lib.step fst snd].
  unfold Lib.deliver. rewrite Hi. fold (lib_replies rs). now rewrite IH.
Qed.

Lemma lib_running_limit (B : Js.Val) (M n : Z) (m : Lib.Machine) :
  lib_running B M n m -> M <> 0 ->
  limit (qs (Lib.iteratee (Lib.reader m))) =
    Js.Number (Js.num_min (Js.to_number B) (Js.Fin (M - n))).
Proof.
  intros (_ & Hb & [Ht Hm] & Hn) HM. cbn [Lib.iteratee qs limit].
  unfold Lib.page_limit. rewrite Ht, Hm, Hb, Hn. reflexivity.
Qed.

Lemma lib_update_since_no_change (d : Response) (r : Lib.Reader) :
  count is_change (map Emit (snd (Lib.update_since d r))) = 0 /\
  Lib.batchSize (fst (Lib.update_since d r)) = Lib.batchSize r /\
  Lib.maxChanges (fst (Lib.update_since d r)) = Lib.maxChanges r /\
  Lib.numChanges (fst (Lib.update_since d r)) = Lib.numChanges r.
Proof.
  unfold Lib.update_since.
  destruct (Js.truthy (last_seq d) && negb (Js.strict_eq _ _));
    repeat split.
Qed.

(** The fields a successful callback leaves, and its change events. *)
Lemma lib_success_frame (r : Lib.Reader) (d : Response) :
  let k := Z.of_nat (List.length
                       match results d with Some rs => rs | None => [] end)
  in
  Lib.batchSize (lib_after r None (Some d)) = Lib.batchSize r /\
  Lib.maxChanges (lib_after r None (Some d)) = Lib.maxChanges r /\
  Lib.numChanges (lib_after r None (Some d)) = Lib.numChanges r + k /\
  count is_change
    (map Emit (snd (fst (Lib.callback r None (Some d))))) = k.
Proof.
  intros k. unfold lib_after, Lib.callback.
  assert (Hp : Lib.batchSize (fst (Lib.publish_results d r))
               = Lib.batchSize r /\
               Lib.maxChanges (fst (Lib.publish_results d r))
               = Lib.maxChanges r /\
               Lib.numChanges (fst (Lib.publish_results d r))
               = Lib.numChanges r + k /\
               count is_change
                 (map Emit (snd (Lib.publish_results d r))) = k).
  { unfold Lib.publish_results, k.
    destruct (results d) as [[|c cs]|]; cbn [fst snd];
      repeat split; try (cbn; lia).
    apply count_changes_emit_results. }
  destruct (Lib.publish_results d r) as [r1 ev1]. cbn [fst snd] in *.
  destruct (lib_update_since_no_change d r1) as (U0 & U1 & U2 & U3).
  destruct (Lib.update_since d r1) as [r2 ev2]. cbn [fst snd] in *.
  destruct Hp as (P1 & P2 & P3 & P4).
  rewrite map_app, count_app, U0, U1, U2, U3, P4.
  repeat split; try assumption. lia.
Qed.

End Ceiling.

Section CeilingRun.
Context {host : Js.Host}.

(** A number other than 0 is a ceiling. *)
Lemma lib_ceiling_number (M : Z) :
  M <> 0 -> lib_ceiling (Js.Number (Js.Fin M)) M.
Proof.
  intros HM. split; [|reflexivity]. cbn.
  now destruct (Z.eqb_spec M 0).
Qed.

Lemma lib_test_ceiling (r : Lib.Reader) (M : Z) :
  lib_ceiling (Lib.maxChanges r) M -> M <> 0 ->
  Lib.test r = (Lib.numChanges r <? M).
Proof.
  intros [Ht Hm] _. unfold Lib.test. rewrite Hm. cbn [Js.num_lt].
  destruct (Js.strict_eq (Lib.maxChanges r) (Js.Number (Js.Fin 0))) eqn:E;
    [|reflexivity].
  apply strict_eq_eq in E. rewrite E in Ht. discriminate.
Qed.

Lemma lib_limit_ceiling (r : Lib.Reader) (M : Z) :
  lib_ceiling (Lib.maxChanges r) M -> M <> 0 ->
  Lib.page_limit r =
    Js.Number (Js.num_min (Js.to_number (Lib.batchSize r))
                 (Js.Fin (M - Lib.numChanges r))).
Proof.
  intros [Ht Hm] _. unfold Lib.page_limit. now rewrite Ht, Hm.
Qed.

Lemma lib_callback_success (r : Lib.Reader) (d : Response) :
  Lib.callback r None (Some d) =
    (lib_after r None (Some d),
     snd (fst (Lib.callback r None (Some d))), Lib.CallsNext None).
Proof.
  unfold lib_after, Lib.callback.
  destruct (Lib.publish_results d r) as [r1 ev1].
  now destruct (Lib.update_since d r1) as [r2 ev2].
Qed.

(** A page that fits under the clamped limit fits under the ceiling. *)
Lemma lib_page_fits (B : Js.Val) (M n : Z) (k : Z) :
  Js.num_le (Js.Fin k)
    (Js.to_number
       (Js.Number (Js.num_min (Js.to_number B) (Js.Fin (M - n))))) = true ->
  n + k <= M.
Proof.
  cbn [Js.to_number]. destruct (Js.to_number B) as [|b];
    cbn [Js.num_min Js.num_le]; [discriminate|].
  intros H. apply Z.leb_le in H. lia.
Qed.

(** One callback of the transport on a run under a ceiling. *)
Lemma lib_deliver_running (B : Js.Val) (M n : Z) (m : Lib.Machine)
    (err : option Failure) (data : option Response) :
  lib_running B M n m -> 0 < M -> n < M ->
  let m' := fst (Lib.deliver m err data) in
  exists evs k,
    0 <= k /\ count is_change (map Emit evs) = k /\
    (Lib.one_page m (Lib.Reply err data) = true -> n + k <= M) /\
    ((snd (Lib.deliver m err data) =
        map Emit evs ++ [Send (Lib.iteratee (Lib.reader m'))] /\
      lib_running B M (n + k) m' /\ n + k < M) \/
     (snd (Lib.deliver m err data) = map Emit evs /\
      Lib.inflight m' = None)).
Proof.
  intros (Hi & Hb & Hm & Hn) HM Hlt m'. subst m'.
  assert (HM0 : M <> 0) by lia.
  destruct err as [e|]; [|destruct data as [d|]].
  - (* a failure with an [err] object *)
    exists [EError (Some e)], 0.
    split; [lia|]. split; [reflexivity|]. split; [lia|].
    unfold Lib.deliver. rewrite Hi. unfold Lib.callback.
    destruct (Lib.fatal e); [|right; now destruct data].
    assert (Hn' : Lib.next (Lib.reader m) (reason e) =
                  if truthy_reason (reason e)
                  then ({| Lib.reader := Lib.setDefaults (Lib.reader m);
                           Lib.inflight := None |}, [])
                  else ({| Lib.reader := Lib.reader m;
                           Lib.inflight :=
                             Some (Lib.iteratee (Lib.reader m)) |},
                        [Send (Lib.iteratee (Lib.reader m))])).
    { unfold Lib.next. destruct (truthy_reason (reason e)); [reflexivity|].
      rewrite (lib_test_ceiling _ M Hm HM0), Hn.
      destruct (Z.ltb_spec n M); [reflexivity|lia]. }
    destruct data as [d|]; rewrite Hn';
      (destruct (truthy_reason (reason e)); cbn [fst snd];
       [right; split; reflexivity|
        left; split; [reflexivity|]; split; [|lia];
        unfold lib_running; cbn [Lib.reader Lib.inflight];
        rewrite Z.add_0_r; auto]).
  - (* a successful exchange *)
    destruct (lib_success_frame (Lib.reader m) d) as (Fb & Fm & Fn & Fc).
    cbv zeta in Fn, Fc.
    set (k := Z.of_nat
                (List.length
                   match results d with Some rs => rs | None => [] end))
      in *.
    assert (Hk : Lib.one_page m (Lib.Reply None (Some d)) = true ->
                 n + k <= M).
    { unfold Lib.one_page. rewrite Hi. cbn [Lib.iteratee qs limit].
      rewrite (lib_limit_ceiling _ M Hm HM0), Hb, Hn.
      unfold k. destruct (results d) as [rs|].
      - apply lib_page_fits.
      - cbn. lia. }
    exists (snd (fst (Lib.callback (Lib.reader m) None (Some d)))), k.
    split; [unfold k; lia|]. split; [exact Fc|]. split; [exact Hk|].
    unfold Lib.deliver. rewrite Hi, lib_callback_success.
    set (r2 := lib_after (Lib.reader m) None (Some d)) in *.
    unfold Lib.next. cbn [truthy_reason].
    assert (Fm' : lib_ceiling (Lib.maxChanges r2) M)
      by (rewrite Fm; exact Hm).
    rewrite (lib_test_ceiling r2 M Fm' HM0), Fn, Hn.
    destruct (Z.ltb_spec (n + k) M) as [Hlt'|Hge]; cbn [fst snd].
    + left. split; [reflexivity|]. split; [|exact Hlt'].
      unfold lib_running. cbn [Lib.reader Lib.inflight].
      split; [reflexivity|]. split; [congruence|].
      split; [exact Fm'|congruence].
    + right. rewrite app_nil_r. split; reflexivity.
  - (* neither [err] nor [data] *)
    exists [EError None], 0.
    split; [lia|]. split; [reflexivity|]. split; [lia|].
    right. unfold Lib.deliver. rewrite Hi. split; reflexivity.
Qed.

Lemma lib_run_cons (m : Lib.Machine) (i : Lib.Input)
    (rest : list Lib.Input) :
  Lib.run m (i :: rest) =
    (fst (Lib.run (fst (Lib.step m i)) rest),
     snd (Lib.step m i) ++ snd (Lib.run (fst (Lib.step m i)) rest)).
Proof.
  cbn [Lib.run]. destruct (Lib.step m i) as [m1 o1].
  cbn [fst snd]. now destruct (Lib.run m1 rest).
Qed.

(** A run under a ceiling, from [n] changes delivered on. *)
Lemma lib_session_under_ceiling (b : bool) (B : Js.Val) (M : Z)
    (rs : list (option Failure * option Response)) :
  0 < M ->
  forall (n : Z) (m : Lib.Machine),
    lib_running B M n m -> n < M ->
    (b = true -> Lib.one_page_each m (lib_replies rs) = true) ->
    under_ceiling b B M n (snd (Lib.run m (lib_replies rs))).
Proof.
  intros HM. induction rs as [|[err data] rs IH]; intros n m Hr Hlt Hp.
  - cbn. destruct b; [lia|exact I].
  - cbn [lib_replies map fst snd] in *. fold (lib_replies rs) in *.
    cbn [Lib.one_page_each Lib.step] in Hp.
    assert (Hp1 : b = true ->
                  Lib.one_page m (Lib.Reply err data) = true).
    { intros Hb. now destruct (proj1 (andb_true_iff _ _) (Hp Hb)). }
    assert (Hp2 : b = true ->
                  Lib.one_page_each (fst (Lib.deliver m err data))
                    (lib_replies rs) = true).
    { intros Hb. now destruct (proj1 (andb_true_iff _ _) (Hp Hb)). }
    rewrite lib_run_cons. cbn [snd Lib.step].
    destruct (lib_deliver_running B M n m err data Hr HM Hlt)
      as (evs & k & Hk0 & Hc & Hk & [(Ho & Hr' & Hlt') | (Ho & Hi)]).
    + rewrite Ho, <- app_assoc. apply under_ceiling_emits.
      rewrite Hc. cbn [app under_ceiling]. split; [exact Hlt'|].
      split.
      * apply (lib_running_limit B M (n + k) _ Hr'). lia.
      * now apply IH.
    + rewrite Ho, (lib_run_idle rs _ Hi). cbn [snd].
      apply under_ceiling_emits. rewrite Hc. cbn [under_ceiling].
      destruct b; [apply Hk, Hp1; reflexivity|exact I].
Qed.


End CeilingRun.

Section CeilingConcrete.
Existing Instance digits_host.


(** The reader does not cut a result list: with [maxChanges = 2], a
    reply of three changes to the request with [limit = 2], which is
    more than one page, has three [change] events emitted. *)
Remark lib_oversized_page_passes_ceiling :
  let o := {| opt_batchSize := Js.Undefined; opt_since := Js.Undefined;
              opt_include_docs := Js.Undefined;
              opt_maxChanges := Js.Number (Js.Fin 2) |} in
  let ins := [Lib.CallStart (Some o);
              Lib.Reply None
                (Some (reply_of (repeat (change_of "a") 3)
                         (Js.Str "3-0")))] in
  map (fun q => limit (qs q)) (sends (snd (Lib.run (Lib.new "db") ins)))
    = [Js.Number (Js.Fin 2)] /\
  Lib.one_page_each (Lib.new "db") ins = false /\
  count is_change (snd (Lib.run (Lib.new "db") ins)) = 3.
Proof. cbv zeta. repeat split; reflexivity. Qed.


End CeilingConcrete.

(* ------------------------------------------------------------------ *)
(** ** Further properties of src/unnamed/part_000 *)

Section Part0Runs.
Context {host : Js.Host}.

Lemma part0_run_cons (m : Part0.Machine) (i : Part0.Input)
    (rest : list Part0.Input) :
  Part0.run m (i :: rest) =
    (fst (Part0.run (fst (Part0.step m i)) rest),
     snd (Part0.step m i) ++ snd (Part0.run (fst (Part0.step m i)) rest)).
Proof.
  cbn [Part0.run]. destruct (Part0.step m i) as [m1 o1].
  cbn [fst snd]. now destruct (Part0.run m1 rest).
Qed.

(** What every step keeps, every run keeps; what every step's output
    satisfies, every run's output satisfies. *)
Lemma part0_run_forall (R : Part0.Input -> Prop)
    (P : Part0.Machine -> Prop) (Q : Output -> Prop) :
  (forall m i, R i -> P m ->
               P (fst (Part0.step m i)) /\ Forall Q (snd (Part0.step m i))) ->
  forall ins m,
    Forall R ins -> P m ->
    P (fst (Part0.run m ins)) /\ Forall Q (snd (Part0.run m ins)).
Proof.
  intros Hstep. induction ins as [|i rest IH]; intros m HR HP.
  - split; [exact HP|constructor].
  - inversion HR as [|? ? Hi Hrest]; subst.
    rewrite part0_run_cons. cbn [fst snd].
    destruct (Hstep m i Hi HP) as [HP1 HQ1].
    destruct (IH _ Hrest HP1) as [HP2 HQ2].
    split; [exact HP2|]. apply Forall_app. now split.
Qed.

(** The requests of a step are built from the reader the step leaves. *)
Lemma part0_step_sends (m : Part0.Machine) (i : Part0.Input) (q : Request) :
  In (Send q) (snd (Part0.step m i)) ->
  q = Part0.iteratee (Part0.reader (fst (Part0.step m i))).
Proof.
  assert (Hstart : forall m0 opts,
             In (Send q) (snd (Part0.start m0 opts)) ->
             q = Part0.iteratee (Part0.reader (fst (Part0.start m0 opts)))).
  { intros m0 opts. unfold Part0.start.
    destruct (Part0.started (Part0.reader m0)); cbn; [tauto|].
    intros [E|[]]. now inversion E. }
  destruct i as [opts|opts| |err data]; cbn [Part0.step].
  - apply Hstart.
  - apply Hstart.
  - cbn. tauto.
  - destruct (Part0.inflight m) as [q0|] eqn:Hq.
    + rewrite (part0_deliver_eq m q0 err data Hq). cbn [fst snd].
      intros Hin. apply in_app_or in Hin. destruct Hin as [Hin|Hin].
      * apply in_map_iff in Hin. destruct Hin as (e & He & _). discriminate.
      * revert Hin. unfold Part0.next.
        destruct (truthy_reason _); cbn; [tauto|].
        destruct (Part0.test _); cbn; [|tauto].
        intros [E|[]]. now inversion E.
    + unfold Part0.deliver. rewrite Hq. cbn. tauto.
Qed.

Lemma part0_callback_constants (name : string) (r : Part0.Reader)
    (err : option Failure) (data : option Response) :
  part0_constants name r ->
  part0_constants name (fst (fst (Part0.callback r err data))).
Proof.
  unfold part0_constants, Part0.callback, Part0.update_since,
    Part0.stop_on_short_page.
  destruct err as [e|], data as [d|]; cbn;
    repeat match goal with
      | |- context [if ?b then _ else _] => destruct b; cbn
      end; auto.
Qed.

Lemma part0_start_constants (name : string) (m : Part0.Machine)
    (opts : option Opts) :
  part0_constants name (Part0.reader m) ->
  part0_constants name (Part0.reader (fst (Part0.start m opts))).
Proof.
  unfold Part0.start, part0_constants.
  destruct (Part0.started (Part0.reader m)); [auto|].
  cbn [fst Part0.reader]. unfold Part0.override.
  destruct (Js.truthy (opt_batchSize _)), (Js.truthy (opt_since _)); cbn;
    auto.
Qed.

Lemma part0_step_constants (name : string) (m : Part0.Machine)
    (i : Part0.Input) :
  part0_constants name (Part0.reader m) ->
  part0_constants name (Part0.reader (fst (Part0.step m i))).
Proof.
  intros Hc. destruct i as [opts|opts| |err data]; cbn [Part0.step].
  - now apply part0_start_constants.
  - unfold Part0.get. apply part0_start_constants. exact Hc.
  - exact Hc.
  - destruct (Part0.inflight m) as [q0|] eqn:Hq.
    + rewrite (part0_deliver_eq m q0 err data Hq). cbn [fst].
      pose proof (part0_callback_constants name _ err data Hc) as Hc'.
      unfold Part0.next.
      destruct (truthy_reason _); [|destruct (Part0.test _)];
        cbn [fst Part0.reader]; try exact Hc';
        destruct Hc' as (Hdb & _); unfold part0_constants; cbn; auto.
    + unfold Part0.deliver. now rewrite Hq.
Qed.

(** X1.  Whatever the calls of [start], [get] and [stop], their options
    and the replies, every request of a reader built for the database
    [name] is a [get] of [encodeURIComponent(name) + "/_changes"] with
    [feed = "longpoll"], [timeout = 60000], [heartbeat = 5000],
    [include_docs = false] and [limit] equal to [seq_interval]: no option
    reaches those fields, [include_docs] included. *)
Theorem part0_requests_fixed_part :
  forall (name : string) (ins : list Part0.Input),
    Forall (part0_wire name) (sends (snd (Part0.run (Part0.new name) ins))).
Proof.
  intros name ins. apply Forall_forall. intros q Hin.
  destruct (part0_run_forall (fun _ => True)
              (fun m => part0_constants name (Part0.reader m))
              (fun o => match o with
                        | Send q => part0_wire name q
                        | Emit _ => True
                        end)) with (ins := ins) (m := Part0.new name)
    as [_ HQ].
  - intros m i _ Hc.
    pose proof (part0_step_constants name m i Hc) as Hc'.
    split; [exact Hc'|]. apply Forall_forall. intros [q0|e] Ho; [|exact I].
    apply part0_step_sends in Ho. subst q0.
    destruct Hc' as (Hdb & Ht & Hh & Hi).
    unfold part0_wire. cbn. rewrite Hdb, Ht, Hh, Hi. repeat split.
  - apply Forall_forall. intros; exact I.
  - unfold part0_constants. cbn. repeat split.
  - rewrite Forall_forall in HQ. apply (HQ (Send q)).
    unfold sends in Hin. apply in_flat_map in Hin.
    destruct Hin as (o & Ho & Hq). destruct o as [q0|e]; [|destruct Hq].
    destruct Hq as [->|[]]. exact Ho.
Qed.

End Part0Runs.

Section Part0Settled.
Context {host : Js.Host}.

Lemma part0_settled_start (m : Part0.Machine) (opts : option Opts) :
  part0_settled m -> part0_settled (fst (Part0.start m opts)).
Proof.
  intros Hm. unfold Part0.start.
  destruct (Part0.started (Part0.reader m)) eqn:Hs; [exact Hm|].
  unfold part0_settled. cbn [fst Part0.inflight Part0.reader].
  split; [reflexivity|].
  now destruct (part0_override_fields
                  match opts with Some o => o | None => no_opts end
                  (Part0.set_started true (Part0.reader m)))
    as (_ & _ & -> & _).
Qed.

Lemma part0_settled_step (m : Part0.Machine) (i : Part0.Input) :
  part0_settled m -> part0_settled (fst (Part0.step m i)).
Proof.
  intros Hm. destruct i as [opts|opts| |err data]; cbn [Part0.step].
  - now apply part0_settled_start.
  - unfold Part0.get, Part0.start. cbn [Part0.reader Part0.inflight].
    cbn [Part0.set_stopOnEmptyChanges Part0.started].
    unfold part0_settled in Hm.
    destruct (Part0.started (Part0.reader m)) eqn:Hs.
    + unfold part0_settled. cbn [fst Part0.inflight Part0.reader].
      destruct (Part0.inflight m); [|destruct Hm as [Hm _]; discriminate].
      split; [exact (proj1 Hm)|exact Hs].
    + unfold part0_settled. cbn [fst Part0.inflight Part0.reader].
      split; [reflexivity|].
      now destruct (part0_override_fields
                      match opts with Some o => o | None => no_opts end
                      (Part0.set_started true
                         (Part0.set_stopOnEmptyChanges true
                            (Part0.reader m))))
        as (_ & _ & -> & _).
  - unfold part0_settled in *.
    cbn [fst Part0.stop Part0.inflight Part0.reader].
    destruct (Part0.inflight m); exact Hm.
  - destruct (Part0.inflight m) as [q|] eqn:Hq.
    + rewrite (part0_deliver_eq m q err data Hq). cbn [fst].
      unfold part0_settled in Hm. rewrite Hq in Hm. destruct Hm as [_ Hst].
      destruct (part0_callback_frame (Part0.reader m) err data)
        as (_ & _ & Fst & _).
      unfold Part0.next.
      destruct (truthy_reason _); [cbn; auto|].
      destruct (Part0.test _); [|cbn; auto].
      unfold part0_settled. cbn [fst Part0.inflight Part0.reader].
      split; [reflexivity|congruence].
    + unfold Part0.deliver. now rewrite Hq.
Qed.

Lemma part0_settled_run (ins : list Part0.Input) (m : Part0.Machine) :
  part0_settled m -> part0_settled (fst (Part0.run m ins)).
Proof.
  intros Hm.
  destruct (part0_run_forall (fun _ => True) part0_settled (fun _ => True))
    with (ins := ins) (m := m) as [H _]; auto.
  - intros m0 i _ H0. split; [now apply part0_settled_step|].
    apply Forall_forall. auto.
  - apply Forall_forall. auto.
Qed.

Lemma part0_settled_new (name : string) : part0_settled (Part0.new name).
Proof. unfold part0_settled. cbn. auto. Qed.

(** X2.  A reader of src/unnamed/part_000 never hangs and keeps nothing
    of a run: after any calls and replies, nothing is in flight exactly
    when the reader is not started, and then [batchSize], [since] and
    [stopOnEmptyChanges] hold their defaults, so that [start(opts)] sends
    one request whose [since] and [limit] are the truthy options or
    ["now"] and [100]: the position a run reached is not kept. *)
Theorem part0_idle_reader_is_fresh :
  forall (name : string) (ins : list Part0.Input) (opts : option Opts),
    let m := fst (Part0.run (Part0.new name) ins) in
    let o := match opts with Some o => o | None => no_opts end in
    (Part0.inflight m = None <-> Part0.started (Part0.reader m) = false) /\
    (Part0.inflight m = None ->
     Part0.batchSize (Part0.reader m) = Js.Number (Js.Fin 100) /\
     Part0.since (Part0.reader m) = Js.Str "now" /\
     Part0.stopOnEmptyChanges (Part0.reader m) = false /\
     exists q,
       snd (Part0.start m opts) = [Send q] /\
       q_since (qs q) =
         (if Js.truthy (opt_since o) then opt_since o else Js.Str "now") /\
       limit (qs q) =
         (if Js.truthy (opt_batchSize o) then opt_batchSize o
          else Js.Number (Js.Fin 100))).
Proof.
  intros name ins opts m o.
  pose proof (part0_settled_run ins _ (part0_settled_new name)) as Hs.
  fold m in Hs. unfold part0_settled in Hs.
  destruct (Part0.inflight m) as [q|] eqn:Hq.
  - destruct Hs as [_ Hst]. split.
    + split; intros H; [discriminate|congruence].
    + discriminate.
  - destruct Hs as (Hst & Hb & Hsi & Hg). split.
    + split; auto.
    + intros _. split; [exact Hb|]. split; [exact Hsi|].
      split; [exact Hg|].
      unfold Part0.start. rewrite Hst. fold o.
      eexists. split; [reflexivity|].
      cbn [Part0.iteratee qs q_since limit].
      destruct (part0_override_fields o
                  (Part0.set_started true (Part0.reader m)))
        as (Eb & Es & _).
      rewrite Eb, Es. cbn [Part0.set_started Part0.batchSize Part0.since].
      rewrite Hb, Hsi. split; reflexivity.
Qed.

End Part0Settled.

Section Part0Calls.
Context {host : Js.Host}.

Lemma part0_callback_success_events (r : Part0.Reader) (d : Response) :
  snd (fst (Part0.callback r None (Some d))) =
    Part0.publish_results d ++ snd (Part0.update_since d r) ++
    snd (Part0.stop_on_short_page d (fst (Part0.update_since d r))).
Proof.
  unfold Part0.callback.
  destruct (Part0.update_since d r) as [r2 ev2]. cbn [fst snd].
  now destruct (Part0.stop_on_short_page d r2) as [r3 ev3].
Qed.

Lemma part0_callback_failure_events (r : Part0.Reader)
    (err : option Failure) (data : option Response) :
  failed err data = true ->
  snd (fst (Part0.callback r err data)) = [EError err].
Proof.
  unfold Part0.callback.
  destruct err as [e|], data as [d|]; try discriminate; intros _;
    now destruct (Part0.fatal _).
Qed.

(** The events of the callback do not depend on [continue]. *)
Lemma part0_callback_events_stop (r : Part0.Reader) (err : option Failure)
    (data : option Response) :
  snd (fst (Part0.callback (Part0.set_continue false r) err data)) =
  snd (fst (Part0.callback r err data)).
Proof.
  destruct (failed err data) eqn:Hf.
  - now rewrite !part0_callback_failure_events.
  - destruct err as [e|], data as [d|]; try discriminate.
    rewrite !part0_callback_success_events.
    unfold Part0.update_since.
    cbn [Part0.set_continue Part0.since].
    destruct (Js.truthy (last_seq d) && negb (Js.strict_eq _ _));
      cbn [fst snd]; unfold Part0.stop_on_short_page, Part0.short_page;
      cbn [Part0.set_continue Part0.set_since Part0.stopOnEmptyChanges
           Part0.batchSize];
      now destruct (Part0.stopOnEmptyChanges r && _).
Qed.

(** X3.  [stop()] while a request is in flight, on any machine reached
    from a new reader: the exchange in flight is carried through, its
    callback publishes the very events it would have published, then no
    request is sent, nothing is in flight and the reader is reset to its
    defaults with a new emitter.  Without the [stop()] the output is the
    same events followed by requests only. *)
Theorem part0_stop_in_flight :
  forall (name : string) (ins : list Part0.Input) (q : Request)
         (err : option Failure) (data : option Response),
    let m := fst (Part0.run (Part0.new name) ins) in
    let stopped := Part0.deliver (Part0.stop m) err data in
    Part0.inflight m = Some q ->
    snd stopped =
      map Emit (snd (fst (Part0.callback (Part0.reader m) err data))) /\
    fst stopped =
      {| Part0.reader := Part0.setDefaults (Part0.reader m);
         Part0.inflight := None |} /\
    exists rest,
      Forall (fun o => is_send o = true) rest /\
      snd (Part0.deliver m err data) = snd stopped ++ rest.
Proof.
  intros name ins q err data m stopped Hq. subst stopped.
  assert (Hq' : Part0.inflight (Part0.stop m) = Some q) by exact Hq.
  rewrite (part0_deliver_eq (Part0.stop m) q err data Hq').
  rewrite (part0_deliver_eq m q err data Hq).
  cbn [Part0.stop Part0.reader fst snd].
  destruct (part0_callback_frame (Part0.set_continue false (Part0.reader m))
              err data) as (Fdb & Fee & _ & _ & _ & Fc).
  rewrite part0_next_halts by (apply Fc; reflexivity).
  cbn [fst snd]. rewrite app_nil_r, part0_callback_events_stop.
  split; [reflexivity|]. split.
  - f_equal. apply part0_setDefaults_ext; [exact Fdb|exact Fee].
  - eexists. split; [apply part0_next_sends|reflexivity].
Qed.

(** X4.  [get(opts)] on a machine reached from a new reader with a
    request in flight sends nothing and stores no option, but it sets
    [stopOnEmptyChanges] on the running loop: whichever method started
    it, the next successful reply with a result list shorter than
    [batchSize] emits one [end] event and ends the loop. *)
Theorem part0_get_on_running_reader :
  forall (name : string) (ins : list Part0.Input) (q : Request)
         (opts : option Opts) (d : Response) (rs : list Change),
    let m := fst (Part0.run (Part0.new name) ins) in
    let m1 := fst (Part0.get m opts) in
    Part0.inflight m = Some q ->
    results d = Some rs ->
    Js.num_lt (Js.Fin (Z.of_nat (List.length rs)))
      (Js.to_number (Part0.batchSize (Part0.reader m))) = true ->
    Part0.get m opts =
      ({| Part0.reader := Part0.set_stopOnEmptyChanges true (Part0.reader m);
          Part0.inflight := Some q |}, []) /\
    count is_end (snd (Part0.deliver m1 None (Some d))) = 1 /\
    sends (snd (Part0.deliver m1 None (Some d))) = [] /\
    Part0.inflight (fst (Part0.deliver m1 None (Some d))) = None.
Proof.
  intros name ins q opts d rs m m1 Hq Hrs Hlt.
  pose proof (part0_settled_run ins _ (part0_settled_new name)) as Hs.
  fold m in Hs. unfold part0_settled in Hs. rewrite Hq in Hs.
  destruct Hs as [_ Hst].
  assert (Hget : Part0.get m opts =
                 ({| Part0.reader :=
                       Part0.set_stopOnEmptyChanges true (Part0.reader m);
                     Part0.inflight := Some q |}, [])).
  { unfold Part0.get, Part0.start. cbn [Part0.reader Part0.inflight].
    cbn [Part0.set_stopOnEmptyChanges Part0.started].
    now rewrite Hst, Hq. }
  split; [exact Hget|]. subst m1. rewrite Hget. cbn [fst].
  set (m1 := {| Part0.reader := _; Part0.inflight := Some q |}).
  assert (Hq1 : Part0.inflight m1 = Some q) by reflexivity.
  rewrite (part0_count_end_success m1 q d Hq1).
  rewrite (part0_sends_success m1 q d Hq1).
  rewrite (part0_inflight_success m1 q d Hq1). cbv zeta.
  rewrite part0_after_continue.
  assert (Hsp : Part0.short_page d (Part0.reader m1) = true).
  { unfold Part0.short_page. rewrite Hrs. exact Hlt. }
  rewrite Hsp. cbn [Part0.reader m1 Part0.set_stopOnEmptyChanges
                    Part0.stopOnEmptyChanges andb negb].
  rewrite andb_false_r. auto.
Qed.

Lemma no_end_emit_results (rs : list Change) :
  Forall (fun o => is_end o = false) (map Emit (emit_results rs)).
Proof.
  unfold emit_results. rewrite map_app. apply Forall_app. split.
  - induction rs as [|c cs IH]; cbn [map]; constructor; auto.
  - cbn. repeat constructor.
Qed.

Lemma part0_callback_no_end (r : Part0.Reader) (err : option Failure)
    (data : option Response) :
  Part0.stopOnEmptyChanges r = false ->
  Forall (fun o => is_end o = false)
    (map Emit (snd (fst (Part0.callback r err data)))).
Proof.
  intros Hg. destruct (failed err data) eqn:Hf.
  - rewrite part0_callback_failure_events by exact Hf.
    cbn. repeat constructor.
  - destruct err as [e|], data as [d|]; try discriminate.
    rewrite part0_callback_success_events, !map_app.
    apply Forall_app. split; [|apply Forall_app; split].
    + unfold Part0.publish_results.
      destruct (results d) as [[|c cs]|];
        [constructor|apply no_end_emit_results|constructor].
    + unfold Part0.update_since.
      destruct (Js.truthy (last_seq d) && negb (Js.strict_eq _ _));
        cbn [snd map]; repeat constructor.
    + unfold Part0.stop_on_short_page.
      assert (Hg' : Part0.stopOnEmptyChanges
                      (fst (Part0.update_since d r)) = false).
      { unfold Part0.update_since.
        now destruct (Js.truthy (last_seq d) && negb (Js.strict_eq _ _)). }
      rewrite Hg'. cbn [andb snd map]. constructor.
Qed.

(** X5.  An [end] event comes from [get] only: in a run from a new reader
    in which [get] is never called, whatever the other calls and the
    replies, no [end] event is emitted. *)
Theorem part0_no_end_without_get :
  forall (name : string) (ins : list Part0.Input),
    Forall (fun i => is_get i = false) ins ->
    count is_end (snd (Part0.run (Part0.new name) ins)) = 0.
Proof.
  intros name ins Hins.
  destruct (part0_run_forall (fun i => is_get i = false)
              (fun m => Part0.stopOnEmptyChanges (Part0.reader m) = false)
              (fun o => is_end o = false))
    with (ins := ins) (m := Part0.new name) as [_ HQ]; auto.
  - intros m i Hi Hg.
    assert (Hstart : forall opts,
               Part0.stopOnEmptyChanges
                 (Part0.reader (fst (Part0.start m opts))) = false /\
               Forall (fun o => is_end o = false)
                 (snd (Part0.start m opts))).
    { intros opts. unfold Part0.start.
      destruct (Part0.started (Part0.reader m)); [split; auto|].
      cbn [fst snd Part0.reader]. split; [|repeat constructor].
      now destruct (part0_override_fields
                      match opts with Some o => o | None => no_opts end
                      (Part0.set_started true (Part0.reader m)))
        as (_ & _ & _ & _ & -> & _). }
    destruct i as [opts|opts| |err data]; cbn [Part0.step];
      [apply Hstart|discriminate|split; [exact Hg|constructor]|].
    destruct (Part0.inflight m) as [q|] eqn:Hq.
    + rewrite (part0_deliver_eq m q err data Hq). cbn [fst snd].
      destruct (part0_callback_frame (Part0.reader m) err data)
        as (_ & _ & _ & _ & Fg & _).
      split.
      * unfold Part0.next.
        destruct (truthy_reason _); [reflexivity|].
        destruct (Part0.test _); [|reflexivity].
        cbn [fst Part0.reader]. congruence.
      * apply Forall_app. split; [now apply part0_callback_no_end|].
        eapply Forall_impl; [|apply part0_next_sends].
        intros [q0|e]; [reflexivity|discriminate].
    + unfold Part0.deliver. rewrite Hq. split; [exact Hg|constructor].
  - unfold count. clear Hins.
    induction HQ as [|o out Ho _ IH]; [reflexivity|].
    cbn [filter]. now rewrite Ho.
Qed.

End Part0Calls.

Section Part0Outcomes.
Context {host : Js.Host}.

(** X6.  A failed exchange on a machine of src/unnamed/part_000 reached
    from a new reader emits the [error] event carrying [err] and nothing
    else; it is followed either by nothing, and the loop has ended, or by
    the failed request itself, sent again unchanged.  Unless [stop] was
    called, the loop ends exactly when [err] carries a status code in
    [400, 500) other than 429. *)
Theorem part0_failure_outcome :
  forall (name : string) (ins : list Part0.Input) (q : Request)
         (err : option Failure) (data : option Response),
    let m := fst (Part0.run (Part0.new name) ins) in
    let out := snd (Part0.deliver m err data) in
    let m' := fst (Part0.deliver m err data) in
    Part0.inflight m = Some q ->
    failed err data = true ->
    exists rest,
      out = Emit (EError err) :: rest /\
      ((rest = [] /\ Part0.inflight m' = None) \/
       (rest = [Send q] /\ m' = m)) /\
      (Part0.continue (Part0.reader m) = true ->
       (rest = [] <->
        exists e c, err = Some e /\ statusCode e = Some c /\
                    400 <= c < 500 /\ c <> 429)).
Proof.
  intros name ins q err data m out m' Hq Hf. subst out m'.
  destruct (part0_failed_exchange name ins q err data Hq Hf) as [Hfat Hnon].
  fold m in Hfat, Hnon.
  destruct (Part0.fatal err) eqn:Ef.
  - destruct (Hfat eq_refl) as [Ho Hi]. exists []. split; [exact Ho|].
    split; [left; auto|]. intros _. split; [intros _|reflexivity].
    now apply part0_fatal_iff.
  - destruct (Part0.continue (Part0.reader m)) eqn:Ec.
    + rewrite (Hnon eq_refl eq_refl). cbn [fst snd].
      exists [Send q]. split; [reflexivity|]. split; [right; auto|].
      intros _. split; [discriminate|].
      intros H. apply part0_fatal_iff in H. congruence.
    + exists []. rewrite (part0_deliver_eq m q err data Hq).
      destruct (part0_callback_frame (Part0.reader m) err data)
        as (_ & _ & _ & _ & _ & Fc).
      rewrite part0_next_halts by (apply Fc; exact Ec).
      rewrite part0_callback_failure_events by exact Hf.
      cbn [fst snd map app Part0.inflight].
      split; [reflexivity|]. split; [left; auto|discriminate].
Qed.

(** X7.  The emitter of a reader is replaced exactly when a run ends: a
    step that finds a request in flight and leaves none installs the next
    emitter; every other call or reply leaves the emitter in place.  So
    all the events of a run go to the emitter its [start] returned, and
    none of the events of a later run. *)
Theorem part0_emitter_changes_when_run_ends :
  forall (m : Part0.Machine) (i : Part0.Input),
    Part0.ee (Part0.reader (fst (Part0.step m i))) =
      if part0_ends m (fst (Part0.step m i))
      then S (Part0.ee (Part0.reader m))
      else Part0.ee (Part0.reader m).
Proof.
  intros m i.
  assert (Hstart : forall m0 opts,
             Part0.ee (Part0.reader (fst (Part0.start m0 opts))) =
               Part0.ee (Part0.reader m0) /\
             part0_ends m0 (fst (Part0.start m0 opts)) = false).
  { intros m0 opts. unfold Part0.start, part0_ends.
    destruct (Part0.started (Part0.reader m0)); cbn [fst].
    - split; [reflexivity|]. now destruct (Part0.inflight m0).
    - cbn [Part0.reader Part0.inflight].
      destruct (part0_override_fields
                  match opts with Some o => o | None => no_opts end
                  (Part0.set_started true (Part0.reader m0)))
        as (_ & _ & _ & _ & _ & _ & ->).
      split; [reflexivity|]. now destruct (Part0.inflight m0). }
  destruct i as [opts|opts| |err data]; cbn [Part0.step].
  - destruct (Hstart m opts) as [-> ->]. reflexivity.
  - unfold Part0.get.
    destruct (Hstart {| Part0.reader :=
                          Part0.set_stopOnEmptyChanges true (Part0.reader m);
                        Part0.inflight := Part0.inflight m |} opts)
      as [He Hn].
    rewrite He. unfold part0_ends in *. cbn [Part0.inflight] in Hn.
    rewrite Hn. reflexivity.
  - unfold part0_ends. cbn. now destruct (Part0.inflight m).
  - unfold part0_ends. destruct (Part0.inflight m) as [q|] eqn:Hq.
    + rewrite (part0_deliver_eq m q err data Hq). cbn [fst].
      destruct (part0_callback_frame (Part0.reader m) err data)
        as (_ & Fee & _).
      unfold Part0.next.
      destruct (truthy_reason _); [cbn; now rewrite Fee|].
      destruct (Part0.test _); cbn; now rewrite Fee.
    + unfold Part0.deliver. rewrite Hq. reflexivity.
Qed.

End Part0Outcomes.

(* ------------------------------------------------------------------ *)
(** ** Further properties of src/lib/changesreader.js *)

Section LibRuns.
Context {host : Js.Host}.

Lemma lib_run_forall (R : Lib.Input -> Prop)
    (P : Lib.Machine -> Prop) (Q : Output -> Prop) :
  (forall m i, R i -> P m ->
               P (fst (Lib.step m i)) /\ Forall Q (snd (Lib.step m i))) ->
  forall ins m,
    Forall R ins -> P m ->
    P (fst (Lib.run m ins)) /\ Forall Q (snd (Lib.run m ins)).
Proof.
  intros Hstep. induction ins as [|i rest IH]; intros m HR HP.
  - split; [exact HP|constructor].
  - inversion HR as [|? ? Hi Hrest]; subst.
    rewrite lib_run_cons. cbn [fst snd].
    destruct (Hstep m i Hi HP) as [HP1 HQ1].
    destruct (IH _ Hrest HP1) as [HP2 HQ2].
    split; [exact HP2|]. apply Forall_app. now split.
Qed.

(** The machine and the output of [next]. *)
Lemma lib_next_cases (r : Lib.Reader) (arg : option string) :
  Lib.next r arg =
    ({| Lib.reader := Lib.setDefaults r; Lib.inflight := None |}, []) \/
  Lib.next r arg =
    ({| Lib.reader := r; Lib.inflight := Some (Lib.iteratee r) |},
     [Send (Lib.iteratee r)]).
Proof.
  unfold Lib.next. destruct (truthy_reason arg); [now left|].
  destruct (Lib.test r); [now right|now left].
Qed.

(** A callback of the transport with a request in flight: the events of
    the callback, then what [next] sends when the callback calls it; the
    reader is the one the callback leaves, or the defaults. *)
Lemma lib_deliver_cases (m : Lib.Machine) (q : Request)
    (err : option Failure) (data : option Response) :
  Lib.inflight m = Some q ->
  let r := fst (fst (Lib.callback (Lib.reader m) err data)) in
  let evs := snd (fst (Lib.callback (Lib.reader m) err data)) in
  Lib.deliver m err data =
    ({| Lib.reader := Lib.setDefaults r; Lib.inflight := None |},
     map Emit evs) \/
  Lib.deliver m err data =
    ({| Lib.reader := r; Lib.inflight := None |}, map Emit evs) \/
  Lib.deliver m err data =
    ({| Lib.reader := r; Lib.inflight := Some (Lib.iteratee r) |},
     map Emit evs ++ [Send (Lib.iteratee r)]).
Proof.
  intros Hq. cbv zeta. unfold Lib.deliver. rewrite Hq.
  destruct (Lib.callback (Lib.reader m) err data) as [[r evs] c].
  cbn [fst snd]. destruct c as [arg| |]; [|now right; left..].
  destruct (lib_next_cases r arg) as [-> | ->]; cbn [fst snd].
  - left. now rewrite app_nil_r.
  - right. now right.
Qed.

Lemma lib_callback_frame (r : Lib.Reader) (err : option Failure)
    (data : option Response) :
  let r' := fst (fst (Lib.callback r err data)) in
  Lib.db r' = Lib.db r /\ Lib.ee r' = Lib.ee r /\
  Lib.timeout r' = Lib.timeout r /\ Lib.heartbeat r' = Lib.heartbeat r /\
  Lib.started r' = Lib.started r.
Proof.
  unfold Lib.callback, Lib.publish_results, Lib.update_since.
  destruct err as [e|], data as [d|]; cbn [fst snd]; auto;
    destruct (results d) as [[|c cs]|];
    cbn [Lib.set_numChanges Lib.since];
    destruct (Js.truthy (last_seq d) && negb (Js.strict_eq _ _));
    cbn; auto.
Qed.

Lemma lib_start_frame (m : Lib.Machine) (opts : option Opts) :
  let m' := fst (Lib.start m opts) in
  Lib.db (Lib.reader m') = Lib.db (Lib.reader m) /\
  Lib.timeout (Lib.reader m') = Lib.timeout (Lib.reader m) /\
  Lib.heartbeat (Lib.reader m') = Lib.heartbeat (Lib.reader m) /\
  (snd (Lib.start m opts) = [] \/
   snd (Lib.start m opts) = [Send (Lib.iteratee (Lib.reader m'))] /\
   Lib.inflight m' = Some (Lib.iteratee (Lib.reader m')) /\
   Lib.started (Lib.reader m') = true).
Proof.
  unfold Lib.start. destruct (Lib.started (Lib.reader m)); cbn [fst snd].
  - auto.
  - cbn [Lib.reader Lib.inflight].
    destruct (lib_override_fields
                match opts with Some o => o | None => no_opts end
                (Lib.set_started true (Lib.reader m)))
      as (_ & _ & _ & _ & Hst & _).
    unfold Lib.override.
    destruct (Js.truthy (opt_batchSize _)), (Js.truthy (opt_since _)),
      (Js.truthy (opt_include_docs _)), (Js.truthy (opt_maxChanges _));
      cbn; auto 10.
Qed.

(** The requests of a step are built from the reader the step leaves. *)
Lemma lib_step_sends (m : Lib.Machine) (i : Lib.Input) (q : Request) :
  In (Send q) (snd (Lib.step m i)) ->
  q = Lib.iteratee (Lib.reader (fst (Lib.step m i))).
Proof.
  destruct i as [opts|err data]; cbn [Lib.step].
  - destruct (lib_start_frame m opts) as (_ & _ & _ & [-> | [-> _]]);
      cbn; [tauto|]. intros [E|[]]. now inversion E.
  - destruct (Lib.inflight m) as [q0|] eqn:Hq.
    + destruct (lib_deliver_cases m q0 err data Hq) as [-> | [-> | ->]];
        cbn [fst snd Lib.reader]; intros Hin.
      * apply in_map_iff in Hin. destruct Hin as (e & He & _). discriminate.
      * apply in_map_iff in Hin. destruct Hin as (e & He & _). discriminate.
      * apply in_app_or in Hin. destruct Hin as [Hin|[E|[]]].
        -- apply in_map_iff in Hin. destruct Hin as (e & He & _).
           discriminate.
        -- now inversion E.
    + unfold Lib.deliver. rewrite Hq. cbn. tauto.
Qed.

Lemma lib_step_constants (name : string) (m : Lib.Machine) (i : Lib.Input) :
  lib_constants name (Lib.reader m) ->
  lib_constants name (Lib.reader (fst (Lib.step m i))).
Proof.
  unfold lib_constants. intros (Hdb & Ht & Hh).
  destruct i as [opts|err data]; cbn [Lib.step].
  - destruct (lib_start_frame m opts) as (-> & -> & -> & _). auto.
  - destruct (Lib.inflight m) as [q0|] eqn:Hq.
    + destruct (lib_callback_frame (Lib.reader m) err data)
        as (Fdb & _ & Ft & Fh & _).
      destruct (lib_deliver_cases m q0 err data Hq) as [-> | [-> | ->]];
        cbn [fst Lib.reader]; try (rewrite Fdb, Ft, Fh; auto).
      cbn. rewrite Fdb. auto.
    + unfold Lib.deliver. rewrite Hq. cbn. auto.
Qed.

(** X8.  Whatever the calls of [start], their options and the replies,
    every request of a reader of src/lib/changesreader.js built for the
    database [name] is a [get] of [encodeURIComponent(name) + "/_changes"]
    with [feed = "longpoll"], [timeout = 60000] and [heartbeat = 5000]. *)
Theorem lib_requests_fixed_part :
  forall (name : string) (ins : list Lib.Input),
    Forall (lib_wire name) (sends (snd (Lib.run (Lib.new name) ins))).
Proof.
  intros name ins. apply Forall_forall. intros q Hin.
  destruct (lib_run_forall (fun _ => True)
              (fun m => lib_constants name (Lib.reader m))
              (fun o => match o with
                        | Send q => lib_wire name q
                        | Emit _ => True
                        end)) with (ins := ins) (m := Lib.new name)
    as [_ HQ].
  - intros m i _ Hc.
    pose proof (lib_step_constants name m i Hc) as Hc'.
    split; [exact Hc'|]. apply Forall_forall. intros [q0|e] Ho; [|exact I].
    apply lib_step_sends in Ho. subst q0.
    destruct Hc' as (Hdb & Ht & Hh).
    unfold lib_wire. cbn. rewrite Hdb, Ht, Hh. repeat split.
  - apply Forall_forall. intros; exact I.
  - unfold lib_constants. cbn. repeat split.
  - rewrite Forall_forall in HQ. apply (HQ (Send q)).
    unfold sends in Hin. apply in_flat_map in Hin.
    destruct Hin as (o & Ho & Hq). destruct o as [q0|e]; [|destruct Hq].
    destruct Hq as [->|[]]. exact Ho.
Qed.

End LibRuns.

Section Payloads.
Context {host : Js.Host}.

Lemma payload_emit_results (c : Change) (cs : list Change) :
  Forall payload_ok (map Emit (emit_results (c :: cs))).
Proof.
  unfold emit_results. rewrite map_app. apply Forall_app. split.
  - apply Forall_forall. intros o Ho. apply in_map_iff in Ho.
    destruct Ho as (e & <- & He). apply in_map_iff in He.
    destruct He as (c0 & <- & _). exact I.
  - constructor; [discriminate|constructor].
Qed.

Lemma payload_sends (out : list Output) :
  Forall (fun o => is_send o = true) out -> Forall payload_ok out.
Proof.
  apply Forall_impl. intros [q|e]; [intros _; exact I|discriminate].
Qed.

Lemma part0_callback_payloads (r : Part0.Reader) (err : option Failure)
    (data : option Response) :
  Forall payload_ok (map Emit (snd (fst (Part0.callback r err data)))).
Proof.
  destruct (failed err data) eqn:Hf.
  - rewrite part0_callback_failure_events by exact Hf.
    repeat constructor.
  - destruct err as [e|], data as [d|]; try discriminate.
    rewrite part0_callback_success_events, !map_app.
    apply Forall_app. split; [|apply Forall_app; split].
    + unfold Part0.publish_results.
      destruct (results d) as [[|c cs]|];
        [constructor|apply payload_emit_results|constructor].
    + unfold Part0.update_since.
      destruct (Js.truthy (last_seq d)) eqn:T; cbn [andb];
        [|constructor].
      destruct (negb (Js.strict_eq _ _)); cbn [snd map];
        [|constructor].
      constructor; [exact T|constructor].
    + destruct (part0_short_page_events d
                  (fst (Part0.update_since d r))) as [-> | ->];
        repeat constructor.
Qed.

Lemma lib_callback_payloads (r : Lib.Reader) (err : option Failure)
    (data : option Response) :
  Forall payload_ok (map Emit (snd (fst (Lib.callback r err data)))).
Proof.
  unfold Lib.callback.
  destruct err as [e|]; [repeat constructor|].
  destruct data as [d|]; [|repeat constructor].
  assert (H1 : Forall payload_ok
                 (map Emit (snd (Lib.publish_results d r)))).
  { unfold Lib.publish_results.
    destruct (results d) as [[|c cs]|];
      [constructor|apply payload_emit_results|constructor]. }
  destruct (Lib.publish_results d r) as [r1 ev1]. cbn [snd] in H1.
  assert (H2 : Forall payload_ok (map Emit (snd (Lib.update_since d r1)))).
  { unfold Lib.update_since.
    destruct (Js.truthy (last_seq d)) eqn:T; cbn [andb]; [|constructor].
    destruct (negb (Js.strict_eq _ _)); cbn [snd map]; [|constructor].
    constructor; [exact T|constructor]. }
  destruct (Lib.update_since d r1) as [r2 ev2]. cbn [fst snd] in *.
  rewrite map_app. apply Forall_app. now split.
Qed.

(** X9.  In every run of either copy, from any machine: a [batch] event
    never carries an empty list and a [seq] event never carries a falsy
    position (a reply without changes, or without a truthy [last_seq],
    publishes neither). *)
Theorem events_never_empty_batch_nor_falsy_seq :
  (forall (m : Lib.Machine) (ins : list Lib.Input),
      Forall payload_ok (snd (Lib.run m ins))) /\
  (forall (m : Part0.Machine) (ins : list Part0.Input),
      Forall payload_ok (snd (Part0.run m ins))).
Proof.
  split.
  - intros m ins.
    apply (lib_run_forall (fun _ => True) (fun _ => True) payload_ok);
      [|apply Forall_forall; auto|exact I].
    intros m0 i _ _. split; [exact I|].
    destruct i as [opts|err data]; cbn [Lib.step].
    + destruct (lib_start_frame m0 opts) as (_ & _ & _ & [-> | [-> _]]);
        repeat constructor.
    + destruct (Lib.inflight m0) as [q|] eqn:Hq.
      * pose proof (lib_callback_payloads (Lib.reader m0) err data) as Hp.
        destruct (lib_deliver_cases m0 q err data Hq) as [-> | [-> | ->]];
          cbn [snd]; try exact Hp.
        apply Forall_app. split; [exact Hp|repeat constructor].
      * unfold Lib.deliver. rewrite Hq. constructor.
  - intros m ins.
    apply (part0_run_forall (fun _ => True) (fun _ => True) payload_ok);
      [|apply Forall_forall; auto|exact I].
    intros m0 i _ _. split; [exact I|].
    destruct i as [opts|opts| |err data]; cbn [Part0.step].
    + unfold Part0.start. destruct (Part0.started _); repeat constructor.
    + unfold Part0.get, Part0.start. destruct (Part0.started _);
        repeat constructor.
    + constructor.
    + destruct (Part0.inflight m0) as [q|] eqn:Hq.
      * rewrite (part0_deliver_eq m0 q err data Hq). cbn [snd].
        apply Forall_app. split; [apply part0_callback_payloads|].
        apply payload_sends, part0_next_sends.
      * unfold Part0.deliver. rewrite Hq. constructor.
Qed.

End Payloads.

Section LibLoop.
Context {host : Js.Host}.

Lemma lib_inv_step (m : Lib.Machine) (i : Lib.Input) :
  lib_inv m -> lib_inv (fst (Lib.step m i)).
Proof.
  intros Hm. destruct i as [opts|err data]; cbn [Lib.step].
  - unfold Lib.start. destruct (Lib.started (Lib.reader m)); [exact Hm|].
    unfold lib_inv. cbn [fst Lib.inflight Lib.reader].
    split; [reflexivity|].
    now destruct (lib_override_fields
                    match opts with Some o => o | None => no_opts end
                    (Lib.set_started true (Lib.reader m)))
      as (_ & _ & _ & _ & -> & _).
  - destruct (Lib.inflight m) as [q|] eqn:Hq.
    + unfold lib_inv in Hm. rewrite Hq in Hm. destruct Hm as [_ Hst].
      destruct (lib_callback_frame (Lib.reader m) err data)
        as (_ & _ & _ & _ & Fst).
      destruct (lib_deliver_cases m q err data Hq) as [-> | [-> | ->]];
        unfold lib_inv; cbn [fst Lib.inflight Lib.reader]; auto.
      split; [reflexivity|congruence].
    + unfold Lib.deliver. now rewrite Hq.
Qed.

Lemma lib_inv_run (ins : list Lib.Input) (m : Lib.Machine) :
  lib_inv m -> lib_inv (fst (Lib.run m ins)).
Proof.
  intros Hm.
  destruct (lib_run_forall (fun _ => True) lib_inv (fun _ => True))
    with (ins := ins) (m := m) as [H _]; auto.
  - intros m0 i _ H0. split; [now apply lib_inv_step|].
    apply Forall_forall. auto.
  - apply Forall_forall. auto.
Qed.

(** A started reader with nothing in flight answers no call and no
    reply. *)
Lemma lib_stalled_run (ins : list Lib.Input) (m : Lib.Machine) :
  Lib.started (Lib.reader m) = true -> Lib.inflight m = None ->
  Lib.run m ins = (m, []).
Proof.
  intros Hs Hi. induction ins as [|i rest IH]; [reflexivity|].
  rewrite lib_run_cons.
  assert (Hstep : Lib.step m i = (m, [])).
  { destruct i as [opts|err data]; cbn [Lib.step].
    - unfold Lib.start. now rewrite Hs.
    - unfold Lib.deliver. now rewrite Hi. }
  rewrite Hstep. cbn [fst snd]. now rewrite IH.
Qed.

(** X10.  In src/lib/changesreader.js a failure that [Lib.fatal] does not
    hold of (no status code, status 429, a status below 400) is final: on
    a machine reached from a new reader with a request in flight, the
    [error] event is emitted, and from then on no call of [start] and no
    reply produces any request or event; the reader stays started, with
    its position, and is never reset. *)
Theorem lib_nonfatal_failure_is_final :
  forall (name : string) (pre : list Lib.Input) (q : Request)
         (e : Failure) (data : option Response) (post : list Lib.Input),
    let m := fst (Lib.run (Lib.new name) pre) in
    Lib.inflight m = Some q ->
    Lib.fatal e = false ->
    Lib.run m (Lib.Reply (Some e) data :: post) =
      ({| Lib.reader := Lib.reader m; Lib.inflight := None |},
       [Emit (EError (Some e))]) /\
    Lib.started (Lib.reader m) = true.
Proof.
  intros name pre q e data post m Hq Hf.
  pose proof (lib_inv_run pre (Lib.new name) I) as Hinv.
  fold m in Hinv. unfold lib_inv in Hinv. rewrite Hq in Hinv.
  destruct Hinv as [_ Hst]. split; [|exact Hst].
  rewrite lib_run_cons. cbn [Lib.step].
  rewrite (lib_failed_exchange_returns m q e data Hq Hf). cbn [fst snd].
  rewrite lib_stalled_run by (cbn; auto). reflexivity.
Qed.

(** The failures [Lib.fatal] holds of. *)
Lemma lib_fatal_iff (e : Failure) :
  Lib.fatal e = true <->
  exists c, statusCode e = Some c /\ 400 <= c /\ c <> 429.
Proof.
  unfold Lib.fatal, truthy_status. split.
  - destruct (statusCode e) as [c|]; [|discriminate].
    rewrite !andb_true_iff, !negb_true_iff, !Z.eqb_neq, Z.leb_le.
    intros (_ & H1 & H2). exists c. auto.
  - intros (c & -> & H1 & H2).
    rewrite !andb_true_iff, !negb_true_iff, !Z.eqb_neq, Z.leb_le.
    repeat split; lia.
Qed.

Lemma lib_run_successes_cons (m : Lib.Machine) (d : Response)
    (ds : list Response) :
  Lib.run m (lib_successes (d :: ds)) =
    (fst (Lib.run (fst (Lib.deliver m None (Some d))) (lib_successes ds)),
     snd (Lib.deliver m None (Some d)) ++
     snd (Lib.run (fst (Lib.deliver m None (Some d))) (lib_successes ds))).
Proof. unfold lib_successes. cbn [map]. now rewrite lib_run_cons. Qed.

Lemma count_error_emit_results (rs : list Change) :
  count is_error (map Emit (emit_results rs)) = 0.
Proof.
  unfold emit_results, count. rewrite map_app, filter_app. simpl.
  rewrite app_nil_r. induction rs as [|c cs IH]; simpl; auto.
Qed.

Lemma lib_callback_success_no_error (r : Lib.Reader) (d : Response) :
  count is_error (map Emit (snd (fst (Lib.callback r None (Some d))))) = 0.
Proof.
  assert (H1 : count is_error (map Emit (snd (Lib.publish_results d r)))
               = 0).
  { unfold Lib.publish_results.
    destruct (results d) as [[|c cs]|]; try reflexivity.
    apply count_error_emit_results. }
  assert (H2 : forall r1,
             count is_error (map Emit (snd (Lib.update_since d r1))) = 0).
  { intros r1. unfold Lib.update_since.
    now destruct (Js.truthy (last_seq d) && negb (Js.strict_eq _ _)). }
  unfold Lib.callback.
  destruct (Lib.publish_results d r) as [r1 ev1]. specialize (H2 r1).
  destruct (Lib.update_since d r1) as [r2 ev2]. cbn [fst snd] in *.
  rewrite map_app, count_app. lia.
Qed.

(** Successful replies to a loop without ceiling. *)
Lemma lib_indefinite_session (B : Js.Val) (ds : list Response) :
  forall (m : Lib.Machine),
    Lib.inflight m = Some (Lib.iteratee (Lib.reader m)) ->
    Lib.batchSize (Lib.reader m) = B ->
    Lib.maxChanges (Lib.reader m) = Js.Number (Js.Fin 0) ->
    map (fun q => limit (qs q)) (sends (snd (Lib.run m (lib_successes ds))))
      = repeat B (List.length ds) /\
    count is_error (snd (Lib.run m (lib_successes ds))) = 0 /\
    Lib.inflight (fst (Lib.run m (lib_successes ds))) <> None.
Proof.
  induction ds as [|d ds IH]; intros m Hi Hb Hm.
  - cbn. split; [reflexivity|]. split; [reflexivity|]. now rewrite Hi.
  - rewrite lib_run_successes_cons. cbn [fst snd].
    destruct (lib_success_frame (Lib.reader m) d) as (Fb & Fm & _ & _).
    set (r2 := lib_after (Lib.reader m) None (Some d)) in *.
    assert (Ht : Lib.test r2 = true).
    { unfold Lib.test. rewrite Fm, Hm. reflexivity. }
    assert (Hd : Lib.deliver m None (Some d) =
                 ({| Lib.reader := r2;
                     Lib.inflight := Some (Lib.iteratee r2) |},
                  map Emit (snd (fst (Lib.callback (Lib.reader m) None
                                        (Some d))))
                  ++ [Send (Lib.iteratee r2)])).
    { unfold Lib.deliver. rewrite Hi, lib_callback_success. fold r2.
      unfold Lib.next. cbn [truthy_reason]. now rewrite Ht. }
    rewrite Hd. cbn [fst snd].
    destruct (IH {| Lib.reader := r2;
                    Lib.inflight := Some (Lib.iteratee r2) |})
      as (IH1 & IH2 & IH3); [reflexivity|cbn; congruence|cbn; congruence|].
    split; [|split; [|exact IH3]].
    + rewrite !sends_app, sends_emit, !map_app, IH1.
      cbn [sends flat_map app map Lib.iteratee qs limit List.length repeat].
      unfold Lib.page_limit. rewrite Fm, Hm, Fb, Hb. reflexivity.
    + rewrite !count_app, IH2.
      replace (count is_error [Send (Lib.iteratee r2)]) with 0
        by reflexivity.
      rewrite (lib_callback_success_no_error (Lib.reader m) d).
      reflexivity.
Qed.

(** X11.  Without a ceiling ([maxChanges] missing or falsy), the loop of
    src/lib/changesreader.js does not end on successful replies: started
    on a reader that is not started and has no ceiling, after any number
    of successful replies, whatever they hold, it has sent one request
    per reply plus the first, each with [limit] equal to the configured
    batch size, emitted no [error] event, and has a request in flight. *)
Theorem lib_without_ceiling_polls_on :
  forall (m0 : Lib.Machine) (o : Opts) (ds : list Response),
    let run := Lib.run m0 (Lib.CallStart (Some o) :: lib_successes ds) in
    let B := Lib.batchSize (Lib.reader (fst (Lib.start m0 (Some o)))) in
    Lib.started (Lib.reader m0) = false ->
    Lib.maxChanges (Lib.reader m0) = Js.Number (Js.Fin 0) ->
    Js.truthy (opt_maxChanges o) = false ->
    map (fun q => limit (qs q)) (sends (snd run))
      = repeat B (S (List.length ds)) /\
    count is_error (snd run) = 0 /\
    Lib.inflight (fst run) <> None.
Proof.
  intros m0 o ds run B Hs Hm Ho. subst run B.
  rewrite lib_run_cons. cbn [Lib.step fst snd].
  unfold Lib.start. rewrite Hs. cbn [fst snd Lib.reader].
  set (r1 := Lib.override o (Lib.set_started true (Lib.reader m0))).
  destruct (lib_override_fields o (Lib.set_started true (Lib.reader m0)))
    as (_ & _ & _ & Hmax & _).
  fold r1 in Hmax. rewrite Ho in Hmax.
  cbn [Lib.set_started Lib.maxChanges] in Hmax. rewrite Hm in Hmax.
  destruct (lib_indefinite_session (Lib.batchSize r1) ds
              {| Lib.reader := r1; Lib.inflight := Some (Lib.iteratee r1) |})
    as (H1 & H2 & H3); [reflexivity|reflexivity|exact Hmax|].
  split; [|split; [|exact H3]].
  - cbn [app sends flat_map map]. fold (sends (snd (Lib.run
      {| Lib.reader := r1; Lib.inflight := Some (Lib.iteratee r1) |}
      (lib_successes ds)))).
    rewrite H1. cbn [repeat Lib.iteratee qs limit]. f_equal.
    unfold Lib.page_limit. now rewrite Hmax.
  - change ([Send (Lib.iteratee r1)] ++ ?x) with (Send (Lib.iteratee r1) :: x).
    exact H2.
Qed.

End LibLoop.

Section LibCeilingRange.
Context {host : Js.Host}.

(** The output of a run started under a ceiling. *)
Lemma lib_start_under_ceiling (m0 : Lib.Machine) (o : Opts) (M : Z)
    (rs : list (option Failure * option Response)) :
  Lib.started (Lib.reader m0) = false ->
  Lib.numChanges (Lib.reader m0) = 0 ->
  opt_maxChanges o = Js.Number (Js.Fin M) ->
  0 < M ->
  under_ceiling false
    (Lib.batchSize (Lib.reader (fst (Lib.start m0 (Some o))))) M 0
    (snd (Lib.run m0 (Lib.CallStart (Some o) :: lib_replies rs))).
Proof.
  intros Hs Hn Ho HM.
  rewrite lib_run_cons. cbn [Lib.step].
  unfold Lib.start. rewrite Hs. cbn [fst snd Lib.reader app].
  set (r1 := Lib.override o (Lib.set_started true (Lib.reader m0))).
  destruct (lib_override_fields o (Lib.set_started true (Lib.reader m0)))
    as (_ & _ & _ & Hmax & _ & Hnum).
  fold r1 in Hmax, Hnum. rewrite Ho in Hmax. cbn [Js.truthy] in Hmax.
  destruct (Z.eqb_spec M 0) as [E|_]; [lia|]. cbn [negb] in Hmax.
  cbn [Lib.set_started Lib.numChanges] in Hnum. rewrite Hn in Hnum.
  assert (Hrun : lib_running (Lib.batchSize r1) M 0
                   {| Lib.reader := r1;
                      Lib.inflight := Some (Lib.iteratee r1) |}).
  { unfold lib_running. cbn [Lib.reader Lib.inflight]. rewrite Hmax.
    repeat split; auto; apply lib_ceiling_number; lia. }
  cbn [under_ceiling]. split; [exact HM|]. split.
  - apply (lib_running_limit _ M 0 _ Hrun). lia.
  - apply (lib_session_under_ceiling false _ M rs HM 0 _ Hrun HM).
    discriminate.
Qed.

(** X12.  Under a ceiling [M > 0] and with a batch size that is a number
    [b >= 1], every request of the run asks for a number of records
    between 1 and [b], and no more than [M]: the reader never sends
    [limit = 0] or a negative [limit], whatever the replies. *)
Theorem lib_limit_between_one_and_batch :
  forall (m0 : Lib.Machine) (o : Opts) (M b : Z)
         (rs : list (option Failure * option Response)),
    let out := snd (Lib.run m0 (Lib.CallStart (Some o) :: lib_replies rs)) in
    Lib.started (Lib.reader m0) = false ->
    Lib.numChanges (Lib.reader m0) = 0 ->
    opt_maxChanges o = Js.Number (Js.Fin M) ->
    0 < M ->
    Lib.batchSize (Lib.reader (fst (Lib.start m0 (Some o))))
      = Js.Number (Js.Fin b) ->
    1 <= b ->
    Forall (fun q => exists l, limit (qs q) = Js.Number (Js.Fin l) /\
                               1 <= l <= b /\ l <= M)
      (sends out).
Proof.
  intros m0 o M b rs out Hs Hn Ho HM HB Hb.
  pose proof (lib_start_under_ceiling m0 o M rs Hs Hn Ho HM) as Hu.
  fold out in Hu. rewrite HB in Hu.
  destruct (under_ceiling_places false _ M out 0 Hu) as [_ Hpl].
  apply Forall_forall. intros q Hin.
  unfold sends in Hin. apply in_flat_map in Hin.
  destruct Hin as (o' & Ho' & Hq). destruct o' as [q0|e]; [|destruct Hq].
  destruct Hq as [->|[]].
  apply in_split in Ho'. destruct Ho' as (pre & post & E).
  destruct (Hpl pre q post E) as [H1 H2].
  pose proof (count_nonneg is_change pre) as H0.
  rewrite H2. cbn [Js.to_number Js.num_min].
  eexists. split; [reflexivity|]. lia.
Qed.

End LibCeilingRange.

Section LibFresh.
Context {host : Js.Host}.

Lemma lib_fresh_step (m : Lib.Machine) (i : Lib.Input) :
  lib_fresh_unless_started m -> lib_fresh_unless_started (fst (Lib.step m i)).
Proof.
  unfold lib_fresh_unless_started. intros Hm.
  destruct i as [opts|err data]; cbn [Lib.step].
  - unfold Lib.start. destruct (Lib.started (Lib.reader m)) eqn:Hs.
    + cbn [fst]. rewrite Hs. discriminate.
    + cbn [fst Lib.reader].
      destruct (lib_override_fields
                  match opts with Some o => o | None => no_opts end
                  (Lib.set_started true (Lib.reader m)))
        as (_ & _ & _ & _ & -> & _).
      discriminate.
  - destruct (Lib.inflight m) as [q|] eqn:Hq.
    + destruct (Lib.started (Lib.reader m)) eqn:Hs;
        [|destruct (Hm eq_refl); discriminate].
      destruct (lib_callback_frame (Lib.reader m) err data)
        as (_ & _ & _ & _ & Fst).
      destruct (lib_deliver_cases m q err data Hq) as [-> | [-> | ->]];
        cbn [fst Lib.inflight Lib.reader];
        try (rewrite Fst, Hs; discriminate).
      intros _. split; [reflexivity|]. unfold lib_defaults. cbn. auto.
    + unfold Lib.deliver. rewrite Hq. cbn [fst]. rewrite Hq. exact Hm.
Qed.

(** X13.  In src/lib/changesreader.js, after any calls and replies on a
    new reader: whenever the reader is not started, so that [start] can
    begin a run, nothing is in flight and [batchSize], [since],
    [include_docs], [maxChanges] and [numChanges] hold their defaults.
    No ceiling, count, position or option of a finished run reaches the
    next one. *)
Theorem lib_unstarted_reader_is_default :
  forall (name : string) (ins : list Lib.Input),
    let m := fst (Lib.run (Lib.new name) ins) in
    Lib.started (Lib.reader m) = false ->
    Lib.inflight m = None /\ lib_defaults (Lib.reader m).
Proof.
  intros name ins m.
  destruct (lib_run_forall (fun _ => True) lib_fresh_unless_started
              (fun _ => True))
    with (ins := ins) (m := Lib.new name) as [H _].
  - intros m0 i _ H0. split; [now apply lib_fresh_step|].
    apply Forall_forall. auto.
  - apply Forall_forall. auto.
  - intros _. split; [reflexivity|]. unfold lib_defaults. cbn. auto.
  - exact H.
Qed.

End LibFresh.

Section Part0Session.
Context {host : Js.Host}.

Lemma changes_of_app (xs ys : list Output) :
  changes_of (xs ++ ys) = changes_of xs ++ changes_of ys.
Proof. unfold changes_of. apply flat_map_app. Qed.

Lemma changes_of_emit_results (rs : list Change) :
  changes_of (map Emit (emit_results rs)) = rs.
Proof.
  unfold emit_results. rewrite map_app, changes_of_app. cbn.
  rewrite app_nil_r. induction rs as [|c cs IH]; cbn; [reflexivity|].
  now f_equal.
Qed.

(** One reply to a loop that was not stopped and is not in get mode, when
    the failure, if any, is not fatal: the events, then the next request,
    built from the position the reply leaves. *)
Lemma part0_reply_keeps_polling (m : Part0.Machine)
    (p : option Failure * option Response) :
  Part0.inflight m = Some (Part0.iteratee (Part0.reader m)) ->
  Part0.continue (Part0.reader m) = true ->
  Part0.stopOnEmptyChanges (Part0.reader m) = false ->
  Part0.fatal (fst p) = false ->
  exists r' evs,
    Part0.deliver m (fst p) (snd p) =
      ({| Part0.reader := r';
          Part0.inflight := Some (Part0.iteratee r') |},
       map Emit evs ++ [Send (Part0.iteratee r')]) /\
    Part0.since r' = next_position (Part0.since (Part0.reader m)) p /\
    Part0.continue r' = true /\
    Part0.stopOnEmptyChanges r' = false /\
    changes_of (map Emit evs) = records_of p.
Proof.
  intros Hi Hc Hg Hf. destruct p as [err data]. cbn [fst snd] in *.
  rewrite (part0_deliver_eq m _ err data Hi).
  destruct (part0_callback_frame (Part0.reader m) err data)
    as (_ & _ & _ & _ & Fg & _).
  destruct (failed err data) eqn:Hfail.
  - assert (Hcb : Part0.callback (Part0.reader m) err data =
                  (Part0.reader m, [EError err], None)).
    { unfold Part0.callback. rewrite Hf.
      destruct err as [e|], data as [d|]; try reflexivity; discriminate. }
    rewrite Hcb. cbn [fst snd]. unfold Part0.next, Part0.test.
    cbn [truthy_reason]. rewrite Hc. cbn [fst snd].
    exists (Part0.reader m), [EError err].
    split; [reflexivity|].
    repeat split; auto;
      destruct err as [e|], data as [d|]; try reflexivity; discriminate.
  - destruct err as [e|], data as [d|]; try discriminate.
    pose proof (part0_after_continue (Part0.reader m) d) as Hac.
    pose proof (part0_after_since (Part0.reader m) d) as Has.
    pose proof (part0_callback_success_events (Part0.reader m) d) as Hev.
    unfold part0_after in Hac, Has.
    rewrite Hg, Hc in Hac. cbn [andb negb] in Hac.
    assert (Harg : snd (Part0.callback (Part0.reader m) None (Some d))
                   = None).
    { unfold Part0.callback.
      destruct (Part0.update_since d (Part0.reader m)) as [r2 ev2].
      now destruct (Part0.stop_on_short_page d r2) as [r3 ev3]. }
    rewrite Harg. unfold Part0.next, Part0.test. cbn [truthy_reason].
    rewrite Hac. cbn [fst snd].
    eexists _, _. split; [reflexivity|].
    split; [|split; [exact Hac|split; [rewrite Fg; exact Hg|]]].
    + rewrite Has. cbn [next_position].
      destruct (Js.truthy (last_seq d)) eqn:T; cbn [andb]; [|reflexivity].
      destruct (Js.strict_eq (last_seq d) (Part0.since (Part0.reader m)))
        eqn:E; cbn [negb]; [|reflexivity].
      symmetry. now apply strict_eq_eq.
    + rewrite Hev, !map_app, !changes_of_app. cbn [records_of].
      assert (H2 : changes_of
                     (map Emit (snd (Part0.update_since d
                                       (Part0.reader m)))) = []).
      { unfold Part0.update_since.
        now destruct (Js.truthy (last_seq d) && negb (Js.strict_eq _ _)). }
      assert (H3 : changes_of
                     (map Emit
                        (snd (Part0.stop_on_short_page d
                                (fst (Part0.update_since d
                                        (Part0.reader m)))))) = []).
      { now destruct (part0_short_page_events d
                        (fst (Part0.update_since d (Part0.reader m))))
          as [-> | ->]. }
      rewrite H2, H3, !app_nil_r. unfold Part0.publish_results.
      destruct (results d) as [[|c cs]|]; try reflexivity.
      apply changes_of_emit_results.
Qed.

(** X14.  A loop of src/unnamed/part_000 that was not stopped and is not
    in get mode, fed replies none of which is a fatal failure: it sends
    one request per reply, and the [since] of each is the last truthy
    [last_seq] received so far, or the position the run had before when
    there is none (a failed exchange, a reply without [last_seq], leaves
    it in place); the [change] events emitted are, in order and without
    loss or repetition, the records of the successful replies; and a
    request is in flight at the end. *)
Theorem part0_positions_and_changes :
  forall (rs : list (option Failure * option Response))
         (m : Part0.Machine),
    let out := snd (Part0.run m (part0_replies rs)) in
    Part0.inflight m = Some (Part0.iteratee (Part0.reader m)) ->
    Part0.continue (Part0.reader m) = true ->
    Part0.stopOnEmptyChanges (Part0.reader m) = false ->
    Forall (fun p => Part0.fatal (fst p) = false) rs ->
    map (fun q => q_since (qs q)) (sends out)
      = positions (Part0.since (Part0.reader m)) rs /\
    changes_of out = flat_map records_of rs /\
    Part0.inflight (fst (Part0.run m (part0_replies rs))) <> None.
Proof.
  induction rs as [|p rs IH]; intros m out Hi Hc Hg Hf; subst out.
  - cbn. split; [reflexivity|]. split; [reflexivity|]. now rewrite Hi.
  - inversion Hf as [|? ? Hp Hrest]; subst.
    unfold part0_replies. cbn [map]. fold (part0_replies rs).
    rewrite part0_run_cons. cbn [Part0.step fst snd].
    destruct (part0_reply_keeps_polling m p Hi Hc Hg Hp)
      as (r' & evs & Hd & Hs & Hc' & Hg' & Hch).
    rewrite Hd. cbn [fst snd].
    destruct (IH {| Part0.reader := r';
                    Part0.inflight := Some (Part0.iteratee r') |}
                eq_refl Hc' Hg' Hrest) as (IH1 & IH2 & IH3).
    cbn [Part0.reader] in IH1.
    split; [|split; [|exact IH3]].
    + rewrite !sends_app, sends_emit, !map_app, IH1.
      cbn [sends flat_map app map Part0.iteratee qs q_since positions].
      now rewrite Hs.
    + rewrite !changes_of_app, Hch, IH2. cbn [changes_of flat_map app].
      now rewrite app_nil_r.
Qed.

End Part0Session.

Section Part0Drain.
Context {host : Js.Host}.

Lemma part0_short_page_batchSize (d : Response) (r r' : Part0.Reader) :
  Part0.batchSize r' = Part0.batchSize r ->
  Part0.short_page d r' = Part0.short_page d r.
Proof. unfold Part0.short_page. now intros ->. Qed.

Lemma part0_update_since_frame (d : Response) (r : Part0.Reader) :
  let r2 := fst (Part0.update_since d r) in
  Part0.batchSize r2 = Part0.batchSize r /\
  Part0.stopOnEmptyChanges r2 = Part0.stopOnEmptyChanges r /\
  Part0.continue r2 = Part0.continue r /\
  changes_of (map Emit (snd (Part0.update_since d r))) = [] /\
  count is_end (map Emit (snd (Part0.update_since d r))) = 0.
Proof.
  unfold Part0.update_since.
  destruct (Js.truthy (last_seq d) && negb (Js.strict_eq _ _));
    cbn; auto.
Qed.

Lemma part0_publish_results_events (d : Response) :
  changes_of (map Emit (Part0.publish_results d)) = records_in d /\
  count is_end (map Emit (Part0.publish_results d)) = 0.
Proof.
  unfold Part0.publish_results, records_in.
  destruct (results d) as [[|c cs]|]; try (split; reflexivity).
  split; [apply changes_of_emit_results|apply count_end_emit_results].
Qed.

(** A page that is not short, in get mode: the loop goes on. *)
Lemma part0_full_page (m : Part0.Machine) (d : Response) :
  Part0.inflight m = Some (Part0.iteratee (Part0.reader m)) ->
  Part0.continue (Part0.reader m) = true ->
  Part0.short_page d (Part0.reader m) = false ->
  exists r' evs,
    Part0.deliver m None (Some d) =
      ({| Part0.reader := r';
          Part0.inflight := Some (Part0.iteratee r') |},
       map Emit evs ++ [Send (Part0.iteratee r')]) /\
    Part0.batchSize r' = Part0.batchSize (Part0.reader m) /\
    Part0.stopOnEmptyChanges r' =
      Part0.stopOnEmptyChanges (Part0.reader m) /\
    Part0.continue r' = true /\
    changes_of (map Emit evs) = records_in d /\
    count is_end (map Emit evs) = 0.
Proof.
  intros Hi Hc Hsp.
  rewrite (part0_deliver_success m _ d Hi). cbv zeta.
  destruct (part0_update_since_frame d (Part0.reader m))
    as (Ub & Ug & Uc & Uch & Uend).
  destruct (part0_publish_results_events d) as [Pch Pend].
  set (r2 := fst (Part0.update_since d (Part0.reader m))) in *.
  assert (Hs2 : Part0.stop_on_short_page d r2 = (r2, [])).
  { unfold Part0.stop_on_short_page.
    rewrite (part0_short_page_batchSize d _ r2 Ub), Hsp.
    now rewrite andb_false_r. }
  rewrite Hs2. cbn [fst snd]. unfold Part0.next, Part0.test.
  cbn [truthy_reason]. rewrite Uc, Hc. cbn [fst snd].
  eexists _, _. split; [reflexivity|]. rewrite app_nil_r.
  repeat split; auto.
  - congruence.
  - rewrite map_app, changes_of_app, Pch, Uch. apply app_nil_r.
  - rewrite map_app, count_app, Pend, Uend. reflexivity.
Qed.

(** A short page in get mode: the [end] event comes last and the loop
    ends. *)
Lemma part0_last_page (m : Part0.Machine) (d : Response) :
  Part0.inflight m = Some (Part0.iteratee (Part0.reader m)) ->
  Part0.stopOnEmptyChanges (Part0.reader m) = true ->
  Part0.short_page d (Part0.reader m) = true ->
  exists evs,
    snd (Part0.deliver m None (Some d)) = map Emit evs ++ [Emit EEnd] /\
    Part0.inflight (fst (Part0.deliver m None (Some d))) = None /\
    changes_of (map Emit evs) = records_in d /\
    count is_end (map Emit evs) = 0.
Proof.
  intros Hi Hg Hsp.
  rewrite (part0_deliver_success m _ d Hi). cbv zeta.
  destruct (part0_update_since_frame d (Part0.reader m))
    as (Ub & Ug & Uc & Uch & Uend).
  destruct (part0_publish_results_events d) as [Pch Pend].
  set (r2 := fst (Part0.update_since d (Part0.reader m))) in *.
  assert (Hs2 : Part0.stop_on_short_page d r2 =
                (Part0.set_continue false r2, [EEnd])).
  { unfold Part0.stop_on_short_page.
    now rewrite (part0_short_page_batchSize d _ r2 Ub), Hsp, Ug, Hg. }
  rewrite Hs2. cbn [fst snd].
  rewrite part0_next_halts by reflexivity. cbn [fst snd Part0.inflight].
  exists (Part0.publish_results d ++
          snd (Part0.update_since d (Part0.reader m))).
  rewrite app_nil_r, !map_app, <- !app_assoc.
  split; [reflexivity|]. split; [reflexivity|].
  rewrite changes_of_app, count_app, Pch, Uch, Pend, Uend, app_nil_r.
  split; reflexivity.
Qed.

Lemma part0_drain_pages (pages : list Response) (last : Response) :
  forall (m : Part0.Machine),
    let out := snd (Part0.run m (part0_successes (pages ++ [last]))) in
    Part0.inflight m = Some (Part0.iteratee (Part0.reader m)) ->
    Part0.continue (Part0.reader m) = true ->
    Part0.stopOnEmptyChanges (Part0.reader m) = true ->
    Forall (fun d => Part0.short_page d (Part0.reader m) = false) pages ->
    Part0.short_page last (Part0.reader m) = true ->
    changes_of out = flat_map records_in (pages ++ [last]) /\
    (exists pre, out = pre ++ [Emit EEnd] /\ count is_end pre = 0) /\
    List.length (sends out) = List.length pages /\
    Part0.inflight
      (fst (Part0.run m (part0_successes (pages ++ [last])))) = None.
Proof.
  induction pages as [|d pages IH]; intros m out Hi Hc Hg Hfull Hlast;
    subst out; unfold part0_successes; cbn [app map];
    rewrite part0_run_cons; cbn [Part0.step fst snd].
  - destruct (part0_last_page m last Hi Hg Hlast)
      as (evs & Ho & Hin & Hch & Hend).
    rewrite Ho. cbn [Part0.run fst snd]. rewrite !app_nil_r.
    split; [|split; [|split; [|exact Hin]]].
    + rewrite changes_of_app, Hch. cbn. now rewrite !app_nil_r.
    + exists (map Emit evs). split; [reflexivity|exact Hend].
    + now rewrite sends_app, sends_emit.
  - inversion Hfull as [|? ? Hd Hrest]; subst.
    destruct (part0_full_page m d Hi Hc Hd)
      as (r' & evs & Hdel & Hb & Hg' & Hc' & Hch & Hend).
    rewrite Hdel. cbn [fst snd]. fold (part0_successes (pages ++ [last])).
    destruct (IH {| Part0.reader := r';
                    Part0.inflight := Some (Part0.iteratee r') |})
      as (IH1 & (pre & IH2 & IH2') & IH3 & IH4);
      [reflexivity|exact Hc'|cbn; congruence| |
       cbn; now rewrite (part0_short_page_batchSize last _ r' Hb)|].
    { cbn [Part0.reader]. eapply Forall_impl; [|exact Hrest].
      intros d0. now rewrite (part0_short_page_batchSize d0 _ r' Hb). }
    split; [|split; [|split; [|exact IH4]]].
    + rewrite !changes_of_app, Hch, IH1. cbn [flat_map changes_of app].
      now rewrite app_nil_r.
    + exists ((map Emit evs ++ [Send (Part0.iteratee r')]) ++ pre).
      rewrite IH2, !count_app, Hend, IH2'.
      split; [now rewrite !app_assoc|reflexivity].
    + rewrite !sends_app, sends_emit, !length_app, IH3. reflexivity.
Qed.

(** X15.  [get(opts)] on a new reader followed by successful replies,
    all but the last with a result list not shorter than [batchSize] (or
    without [results]), the last one shorter: every record of every
    reply is emitted as a [change] event, in order; exactly one [end]
    event is emitted and it is the last output; one request was sent per
    reply; the loop has ended. *)
Theorem part0_get_drains_to_short_page :
  forall (name : string) (opts : option Opts) (pages : list Response)
         (last : Response),
    let r := Part0.reader (fst (Part0.get (Part0.new name) opts)) in
    let run := Part0.run (Part0.new name)
                 (Part0.CallGet opts :: part0_successes (pages ++ [last])) in
    Forall (fun d => Part0.short_page d r = false) pages ->
    Part0.short_page last r = true ->
    changes_of (snd run) = flat_map records_in (pages ++ [last]) /\
    (exists pre, snd run = pre ++ [Emit EEnd] /\ count is_end pre = 0) /\
    List.length (sends (snd run)) = S (List.length pages) /\
    Part0.inflight (fst run) = None.
Proof.
  intros name opts pages last r run Hfull Hlast. subst run.
  rewrite part0_run_cons. cbn [Part0.step fst snd].
  set (m1 := fst (Part0.get (Part0.new name) opts)) in *.
  assert (Hget : Part0.get (Part0.new name) opts =
                 (m1, [Send (Part0.iteratee (Part0.reader m1))])).
  { subst m1. unfold Part0.get, Part0.start. reflexivity. }
  assert (Hi : Part0.inflight m1 = Some (Part0.iteratee (Part0.reader m1)))
    by reflexivity.
  destruct (part0_override_fields
              match opts with Some o => o | None => no_opts end
              (Part0.set_started true
                 (Part0.set_stopOnEmptyChanges true
                    (Part0.constructor name))))
    as (_ & _ & _ & Hc & Hg & _).
  assert (Hc1 : Part0.continue (Part0.reader m1) = true) by exact Hc.
  assert (Hg1 : Part0.stopOnEmptyChanges (Part0.reader m1) = true)
    by exact Hg.
  destruct (part0_drain_pages pages last m1 Hi Hc1 Hg1 Hfull Hlast)
    as (H1 & (pre & H2 & H2') & H3 & H4).
  rewrite Hget. cbn [snd].
  split; [|split; [|split; [|exact H4]]].
  - rewrite changes_of_app, H1. reflexivity.
  - exists (Send (Part0.iteratee (Part0.reader m1)) :: pre).
    rewrite H2. split; [reflexivity|]. exact H2'.
  - rewrite sends_app, length_app, H3. reflexivity.
Qed.

End Part0Drain.

Section FurtherConcrete.
Existing Instance digits_host.

(** [get()] answered with an empty page, then [start()]. *)
Lemma part0_idle_reader_is_fresh_witness :
  let m := fst (Part0.run (Part0.new "db")
                  [Part0.CallGet
                     (Some {| opt_batchSize := Js.Number (Js.Fin 5);
                              opt_since := Js.Str "7-0";
                              opt_include_docs := Js.Undefined;
                              opt_maxChanges := Js.Undefined |});
                   Part0.Reply None (Some (reply_of [] (Js.Str "8-0")))]) in
  Part0.inflight m = None /\
  Part0.since (Part0.reader m) = Js.Str "now" /\
  exists q, snd (Part0.start m None) = [Send q] /\
            q_since (qs q) = Js.Str "now" /\
            limit (qs q) = Js.Number (Js.Fin 100).
Proof.
  intros m.
  destruct (part0_idle_reader_is_fresh "db"
              [Part0.CallGet
                 (Some {| opt_batchSize := Js.Number (Js.Fin 5);
                          opt_since := Js.Str "7-0";
                          opt_include_docs := Js.Undefined;
                          opt_maxChanges := Js.Undefined |});
               Part0.Reply None (Some (reply_of [] (Js.Str "8-0")))]
              None) as [_ H].
  assert (Hi : Part0.inflight m = None) by reflexivity.
  destruct (H Hi) as (_ & Hs & _ & q & Hq & Hqs & Hql).
  split; [exact Hi|]. split; [exact Hs|].
  exists q. exact (conj Hq (conj Hqs Hql)).
Defined.

(** [start()], [stop()], then the reply with two changes. *)
Lemma part0_stop_in_flight_witness :
  let m := fst (Part0.run (Part0.new "db") [Part0.CallStart None]) in
  let d := Some (reply_of two_changes (Js.Str "2-0")) in
  Part0.inflight m = Some (Part0.iteratee (Part0.reader m)) /\
  snd (Part0.deliver (Part0.stop m) None d) =
    map Emit (snd (fst (Part0.callback (Part0.reader m) None d))) /\
  fst (Part0.deliver (Part0.stop m) None d) =
    {| Part0.reader := Part0.setDefaults (Part0.reader m);
       Part0.inflight := None |}.
Proof.
  intros m d. split; [reflexivity|].
  destruct (part0_stop_in_flight "db" [Part0.CallStart None]
              (Part0.iteratee (Part0.reader m)) None d eq_refl)
    as (H1 & H2 & _).
  exact (conj H1 H2).
Defined.

(** [start()], then [get({batchSize: 5})], then an empty page. *)
Lemma part0_get_on_running_reader_witness :
  let m := fst (Part0.run (Part0.new "db") [Part0.CallStart None]) in
  let o := Some {| opt_batchSize := Js.Number (Js.Fin 5);
                   opt_since := Js.Undefined;
                   opt_include_docs := Js.Undefined;
                   opt_maxChanges := Js.Undefined |} in
  let d := reply_of [] (Js.Str "1-0") in
  Part0.inflight m = Some (Part0.iteratee (Part0.reader m)) /\
  snd (Part0.get m o) = [] /\
  count is_end (snd (Part0.deliver (fst (Part0.get m o)) None (Some d))) = 1.
Proof.
  intros m o d. split; [reflexivity|].
  destruct (part0_get_on_running_reader "db" [Part0.CallStart None]
              (Part0.iteratee (Part0.reader m)) o d [] eq_refl eq_refl
              eq_refl) as (H1 & H2 & _).
  exact (conj (f_equal snd H1) H2).
Defined.

(** [start()], a reply, [stop()], a reply. *)
Lemma part0_no_end_without_get_witness :
  let ok := Part0.Reply None (Some (reply_of [] (Js.Str "1-0"))) in
  let ins := [Part0.CallStart None; ok; Part0.CallStop; ok] in
  Forall (fun i => is_get i = false) ins /\
  count is_end (snd (Part0.run (Part0.new "db") ins)) = 0.
Proof.
  intros ok ins.
  assert (H : Forall (fun i => is_get i = false) ins)
    by (repeat constructor).
  exact (conj H (part0_no_end_without_get "db" ins H)).
Defined.

(** [start()] answered with a 404. *)
Lemma part0_failure_outcome_witness :
  let m := fst (Part0.run (Part0.new "db") [Part0.CallStart None]) in
  let e404 := Some {| statusCode := Some 404; reason := None |} in
  (Part0.inflight m = Some (Part0.iteratee (Part0.reader m)) /\
   failed e404 None = true) /\
  exists rest, snd (Part0.deliver m e404 None) = Emit (EError e404) :: rest.
Proof.
  intros m e404. split; [split; reflexivity|].
  destruct (part0_failure_outcome "db" [Part0.CallStart None]
              (Part0.iteratee (Part0.reader m)) e404 None eq_refl eq_refl)
    as (rest & H & _).
  exists rest. exact H.
Defined.

(** [start()] answered with a 429, then [start()] and a reply. *)
Lemma lib_nonfatal_failure_is_final_witness :
  let m := fst (Lib.run (Lib.new "db") [Lib.CallStart None]) in
  let e429 := {| statusCode := Some 429; reason := None |} in
  let post := [Lib.CallStart None;
               Lib.Reply None (Some (reply_of [] (Js.Str "1-0")))] in
  (Lib.inflight m = Some (Lib.iteratee (Lib.reader m)) /\
   Lib.fatal e429 = false) /\
  Lib.run m (Lib.Reply (Some e429) None :: post) =
    ({| Lib.reader := Lib.reader m; Lib.inflight := None |},
     [Emit (EError (Some e429))]).
Proof.
  intros m e429 post. split; [split; reflexivity|].
  exact (proj1 (lib_nonfatal_failure_is_final "db" [Lib.CallStart None]
                  (Lib.iteratee (Lib.reader m)) e429 None post
                  eq_refl eq_refl)).
Defined.

(** [start()] and two successful replies. *)
Lemma lib_without_ceiling_polls_on_witness :
  let ds := [reply_of two_changes (Js.Str "2-0");
             reply_of [] (Js.Str "2-0")] in
  let run := Lib.run (Lib.new "db")
               (Lib.CallStart (Some no_opts) :: lib_successes ds) in
  (Lib.started (Lib.reader (Lib.new "db")) = false /\
   Lib.maxChanges (Lib.reader (Lib.new "db")) = Js.Number (Js.Fin 0) /\
   Js.truthy (opt_maxChanges no_opts) = false) /\
  map (fun q => limit (qs q)) (sends (snd run))
    = repeat (Js.Number (Js.Fin 100)) 3 /\
  Lib.inflight (fst run) <> None.
Proof.
  intros ds run. split; [repeat split; reflexivity|].
  destruct (lib_without_ceiling_polls_on (Lib.new "db") no_opts ds
              eq_refl eq_refl eq_refl) as (H1 & _ & H3).
  exact (conj H1 H3).
Defined.

(** The run of the test [maxChanges across multiple batches]. *)
Lemma lib_limit_between_one_and_batch_witness :
  let o := {| opt_batchSize := Js.Number (Js.Fin 45);
              opt_since := Js.Undefined;
              opt_include_docs := Js.Boolean true;
              opt_maxChanges := Js.Number (Js.Fin 22) |} in
  let rs := [(None, Some (reply_of (repeat (change_of "a") 20)
                            (Js.Str "20-0")));
             (None, Some (reply_of (repeat (change_of "b") 2)
                            (Js.Str "22-0")))] in
  (Lib.started (Lib.reader (Lib.new "db")) = false /\
   Lib.numChanges (Lib.reader (Lib.new "db")) = 0 /\
   0 < 22 /\ 1 <= 45) /\
  Forall (fun q => exists l, limit (qs q) = Js.Number (Js.Fin l) /\
                             1 <= l <= 45 /\ l <= 22)
    (sends (snd (Lib.run (Lib.new "db")
                   (Lib.CallStart (Some o) :: lib_replies rs)))).
Proof.
  intros o rs. split; [repeat split; reflexivity || lia|].
  apply (lib_limit_between_one_and_batch (Lib.new "db") o 22 45 rs
           eq_refl eq_refl eq_refl eq_refl eq_refl).
  discriminate.
Defined.

(** A run under [maxChanges = 2] that reached its ceiling. *)
Lemma lib_unstarted_reader_is_default_witness :
  let o := {| opt_batchSize := Js.Number (Js.Fin 45);
              opt_since := Js.Str "7-0";
              opt_include_docs := Js.Boolean true;
              opt_maxChanges := Js.Number (Js.Fin 2) |} in
  let m := fst (Lib.run (Lib.new "db")
                  [Lib.CallStart (Some o);
                   Lib.Reply None
                     (Some (reply_of two_changes (Js.Str "9-0")))]) in
  Lib.started (Lib.reader m) = false /\
  Lib.inflight m = None /\ lib_defaults (Lib.reader m).
Proof.
  intros o m.
  assert (Hs : Lib.started (Lib.reader m) = false) by reflexivity.
  exact (conj Hs
           (lib_unstarted_reader_is_default "db"
              [Lib.CallStart (Some o);
               Lib.Reply None (Some (reply_of two_changes (Js.Str "9-0")))]
              Hs)).
Defined.

(** The run of the test [survives 500]. *)
Lemma part0_positions_and_changes_witness :
  let m := fst (Part0.start (Part0.new "db") None) in
  let rs := [(None, Some (reply_of [] (Js.Str "1-0")));
             (Some {| statusCode := Some 500; reason := None |}, None);
             (None, Some (reply_of [change_of "a"] (Js.Str "2-0")))] in
  (Part0.inflight m = Some (Part0.iteratee (Part0.reader m)) /\
   Part0.continue (Part0.reader m) = true /\
   Part0.stopOnEmptyChanges (Part0.reader m) = false /\
   Forall (fun p => Part0.fatal (fst p) = false) rs) /\
  map (fun q => q_since (qs q))
    (sends (snd (Part0.run m (part0_replies rs))))
    = [Js.Str "1-0"; Js.Str "1-0"; Js.Str "2-0"] /\
  changes_of (snd (Part0.run m (part0_replies rs))) = [change_of "a"].
Proof.
  intros m rs.
  assert (Hf : Forall (fun p => Part0.fatal (fst p) = false) rs)
    by (repeat constructor).
  split; [repeat split; try reflexivity; exact Hf|].
  destruct (part0_positions_and_changes rs m eq_refl eq_refl eq_refl Hf)
    as (H1 & H2 & _).
  exact (conj H1 H2).
Defined.

(** [get({batchSize: 2})], a page of two changes, a page of one. *)
Lemma part0_get_drains_to_short_page_witness :
  let o := Some {| opt_batchSize := Js.Number (Js.Fin 2);
                   opt_since := Js.Undefined;
                   opt_include_docs := Js.Undefined;
                   opt_maxChanges := Js.Undefined |} in
  let full := reply_of two_changes (Js.Str "2-0") in
  let last := reply_of [change_of "3"] (Js.Str "3-0") in
  let r := Part0.reader (fst (Part0.get (Part0.new "db") o)) in
  let run := Part0.run (Part0.new "db")
               (Part0.CallGet o :: part0_successes ([full] ++ [last])) in
  (Forall (fun d => Part0.short_page d r = false) [full] /\
   Part0.short_page last r = true) /\
  changes_of (snd run) = two_changes ++ [change_of "3"] /\
  List.length (sends (snd run)) = 2%nat /\
  Part0.inflight (fst run) = None.
Proof.
  intros o full last r run.
  assert (Hf : Forall (fun d => Part0.short_page d r = false) [full])
    by (repeat constructor).
  assert (Hl : Part0.short_page last r = true) by reflexivity.
  split; [exact (conj Hf Hl)|].
  destruct (part0_get_drains_to_short_page "db" o [full] last Hf Hl)
    as (H1 & _ & H3 & H4).
  exact (conj H1 (conj H3 H4)).
Defined.

End FurtherConcrete.
